(** * FleetView: the advertisement / registry / status engine of app.js

    A shallow embedding of [src/app.js] (with the settings of config.js)
    and the properties of its specification.

    Conventions of the embedding.
    - A JavaScript string is a [string]: one [ascii] per code unit, for the
      code units below 256.  Every literal of the program that a property
      reads is in that range.
    - A timestamp ([Date.getTime()]) and a signal strength are integers: [Z].
    - A [Map] is a [gmap]; an object held in the registry is referred to by
      its key, so a mutation of the object is a mutation of the entry.
    - What the browser answers (the clock, the scan source, [localStorage])
      is part of the explicit state or an argument of the handler.
    - A handler runs to completion; [startScan] is cut at its [await]. *)

From Stdlib Require Import ZArith NArith Ascii String List Lia.
From Stdlib.Strings Require Import Byte.
From stdpp Require Import base option list gmap strings pretty.

Open Scope string_scope.
Open Scope Z_scope.

(** ** JavaScript strings *)

Module Js.

(** [WhiteSpace] and [LineTerminator] code units below 256, the ones
    [String.prototype.trim] strips: TAB, LF, VT, FF, CR, SP, NBSP. *)
Definition isWhiteSpace (c : ascii) : bool :=
  let n := N_of_ascii c in
  ((9 <=? n) && (n <=? 13) || (n =? 32) || (n =? 160))%N.

Fixpoint trimStart (s : string) : string :=
  match s with
  | EmptyString => EmptyString
  | String c r => if isWhiteSpace c then trimStart r else s
  end.

Fixpoint trimEnd (s : string) : string :=
  match s with
  | EmptyString => EmptyString
  | String c r =>
      match trimEnd r with
      | EmptyString => if isWhiteSpace c then EmptyString else String c EmptyString
      | r' => String c r'
      end
  end.

(** [s.trim()] *)
Definition trim (s : string) : string := trimEnd (trimStart s).

(** [s.toUpperCase()] on the letters a-z; the program applies it to the
    output of [toString(16)] only. *)
Definition upper (c : ascii) : ascii :=
  let n := N_of_ascii c in
  if ((97 <=? n) && (n <=? 122))%N then ascii_of_N (n - 32) else c.

Fixpoint toUpperCase (s : string) : string :=
  match s with
  | EmptyString => EmptyString
  | String c r => String (upper c) (toUpperCase r)
  end.

(** The digit of [Number.prototype.toString(16)] for a value below 16. *)
Definition hexDigit (d : N) : ascii :=
  if (d <? 10)%N then ascii_of_N (48 + d) else ascii_of_N (87 + d).

Fixpoint toString16_digits (fuel : nat) (n : N) (acc : string) : string :=
  match fuel with
  | O => acc
  | S fuel' =>
      let acc' := String (hexDigit (n mod 16)) acc in
      if (n / 16 =? 0)%N then acc' else toString16_digits fuel' (n / 16) acc'
  end.

(** [n.toString(16)] for a non-negative integer: the fuel is the number
    of binary digits of [n], more than the number of its hex digits. *)
Definition toString16 (n : N) : string :=
  toString16_digits (S (N.to_nat (N.log2 n))) n EmptyString.

(** [s.substring(0, n)] *)
Definition substring0 (n : nat) (s : string) : string := substring 0 n s.

(** Truthiness of a string: [""] is falsy. *)
Definition truthy (s : string) : bool :=
  match s with EmptyString => false | _ => true end.

(** A code unit as a one-character string, for the letters of the
    program's texts that are not ASCII. *)
Definition cu (n : N) : string := String (ascii_of_N n) EmptyString.

(** A thrown [Error]: what the program reads of it. *)
Record Error : Type := mkError { name : string; message : string }.

(** The completion of a call that may throw. *)
Inductive Completion (A : Type) : Type :=
| Normal (a : A)
| Throw (e : Error).
Arguments Normal {A} a.
Arguments Throw {A} e.

End Js.

(** ** 6. Hilfsfunktionen: [dataViewToHexString] *)

(** The argument of [dataViewToHexString] as the handler can meet it:
    [null]/[undefined], a [DataView] over bytes, or a [DataView] whose
    buffer is detached (its [byteLength] getter throws a [TypeError]). *)
Inductive DataViewArg : Type :=
| dv_absent
| dv_view (bytes : list byte)
| dv_detached (e : Js.Error).

(** One turn of the [for] loop of lines 474-478. *)
Definition hexAppend (hexString : string) (b : byte) : string :=
  let byte := Js.toUpperCase (Js.toString16 (Byte.to_N b)) in
  hexString ++ (if (String.length byte =? 1)%nat then "0" else "") ++ byte ++ " ".

Definition dataViewToHexString (dataView : DataViewArg) : Js.Completion string :=
  match dataView with
  | dv_absent => Js.Normal "N/A (leere Payload)"
  | dv_detached e => Js.Throw e
  | dv_view bytes =>
      if (length bytes =? 0)%nat then Js.Normal "N/A (leere Payload)"
      else Js.Normal (Js.trim (fold_left hexAppend bytes "0x"))
  end.

(** ** config.js *)

Module Profile.
(** An entry of [CONFIG.FTS_PROFILES]; a property the entry does not
    have ([uuid] of a manufacturer profile) is [None]. *)
Record t : Type := mk {
  profileName : string;
  type : string;
  uuid : option string;
  companyId : option N
}.
End Profile.

Record RssiStatus : Type := { STRONG : Z; WEAK : Z }.
Record LedStatus : Type := { ACTIVE_MS : Z; INACTIVE_MS : Z }.
(** An entry of the [filters] array built by [startScan]. *)
Inductive Filter : Type :=
| filter_services (uuid : option string)
| filter_manufacturerData (companyIdentifier : option N).

Record ScanOptions : Type := {
  keepRepeatedDevices : bool;
  acceptAllAdvertisements : bool
}.

Record Config : Type := {
  APP_TITLE : string;
  TICKER_INTERVAL_MS : Z;
  FTS_PROFILES : list Profile.t;
  RSSI_STATUS : RssiStatus;
  LED_STATUS : LedStatus;
  SCAN_OPTIONS : ScanOptions
}.

(** The two profiles of config.js; the company identifier is 0xa212. *)
Definition profile_A : Profile.t :=
  Profile.mk "FTS-Gruppe Ladestation (Typ A)" "service" (Some "0xfcf1") None.
Definition profile_B : Profile.t :=
  Profile.mk "FTS 'M.' (Typ B)" "manufacturer" None (Some 41490%N).

(** The object exported by config.js. *)
Definition CONFIG_js : Config := {|
  APP_TITLE := "BeaconBay FleetView";
  TICKER_INTERVAL_MS := 2000;
  FTS_PROFILES := [ profile_A; profile_B ];
  RSSI_STATUS := {| STRONG := -75; WEAK := -88 |};
  LED_STATUS := {| ACTIVE_MS := 5000; INACTIVE_MS := 30000 |};
  SCAN_OPTIONS := {| keepRepeatedDevices := true; acceptAllAdvertisements := false |}
|}.

(** ** The data of the program *)

(** [event.serviceData] / [event.manufacturerData]: a map from keys to
    payloads, or a property that is not there (calling [.has] on it throws). *)
Inductive DataMap (K : Type) `{Countable K} : Type :=
| data_map (m : gmap K DataViewArg)
| data_missing (e : Js.Error).
Arguments data_map {K _ _} m.
Arguments data_missing {K _ _} e.

Module Event.
(** A [BluetoothLEAdvertisementEvent], by the properties read. *)
Record t : Type := mk {
  device_id : string;
  rssi : Z;
  serviceData : DataMap string;
  manufacturerData : DataMap N
}.
End Event.

(** The cached nodes of a tile ([asset.dom]), each by the property the
    program writes: class names and text contents.  The width of the bar
    (a floating-point percentage) is left out; nothing reads it. *)
Module Dom.
Record t : Type := mk {
  led : string;
  name : string;
  rssiValue : string;
  rssiBar : string;
  payload : string;
  lastSeen : string
}.
End Dom.

Module FtsAsset.
(** The asset object of lines 187-196.  [domElement] is [null] from
    creation on and never read; [dom] is absent until [createFtsTile]. *)
Record t : Type := mk {
  id : string;
  rssi : Z;
  lastSeen : Z;
  payload : string;
  profileName : string;
  name : string;
  rssiHistory : list Z;
  dom : option Dom.t
}.

Definition set_dom (d : option Dom.t) (a : t) : t :=
  mk (id a) (rssi a) (lastSeen a) (payload a) (profileName a) (name a)
     (rssiHistory a) d.
Definition set_name (n : string) (a : t) : t :=
  mk (id a) (rssi a) (lastSeen a) (payload a) (profileName a) n
     (rssiHistory a) (dom a).
End FtsAsset.

(** The [BluetoothLEScan] object held in [scan]. *)
Record BluetoothLEScan : Type := { active : bool }.

(** The start button: its text and whether its class list has ['scanning']. *)
Record Button : Type := { textContent : string; scanning : bool }.

Inductive Level : Type := LOG | WARN | ERROR.

(** The module-level variables of app.js, followed by the part of the
    browser the handlers act on. *)
Record State : Type := mkState {
  detectedAssets : gmap string FtsAsset.t;
  scan : option BluetoothLEScan;
  tickerInterval : option positive;
  currentInspectedId : option string;
  btnStartScan : option Button;
  (* the page *)
  cockpitGrid : list string;            (* tiles, by [dataset.deviceId] *)
  modalHidden : bool;                   (* class 'modal-hidden' *)
  inspectorName : string;               (* value of #inspector-name *)
  inspectorId : string;
  inspectorPayload : string;
  inspectorRssiHistory : string;
  (* the browser *)
  localStorage : gmap string string;
  intervals : gset positive;            (* live [setInterval] timers *)
  nextTimer : positive;
  bluetooth : bool;                     (* [navigator.bluetooth] is there *)
  scanRequests : list (ScanOptions * list Filter); (* calls of [requestLEScan] *)
  pendingScans : nat;                   (* [startScan] calls suspended at [await] *)
  stopRequests : nat;                   (* calls of [scan.stop] *)
  setItemRequests : list (string * string); (* calls of [localStorage.setItem] *)
  listening : bool;                     (* 'advertisementreceived' listener *)
  console : list (Level * string);
  clock : nat -> Z                      (* the readings [new Date()] will give *)
}.

(** Assignment to one variable of the state. *)
Definition set_detectedAssets (v : gmap string FtsAsset.t) (s : State) : State :=
  mkState v (scan s) (tickerInterval s) (currentInspectedId s) (btnStartScan
    s) (cockpitGrid s) (modalHidden s) (inspectorName s) (inspectorId s)
    (inspectorPayload s) (inspectorRssiHistory s) (localStorage s) (intervals
    s) (nextTimer s) (bluetooth s) (scanRequests s) (pendingScans s)
    (stopRequests s) (setItemRequests s) (listening s) (console s) (clock s).
Definition set_scan (v : option BluetoothLEScan) (s : State) : State :=
  mkState (detectedAssets s) v (tickerInterval s) (currentInspectedId s)
    (btnStartScan s) (cockpitGrid s) (modalHidden s) (inspectorName s)
    (inspectorId s) (inspectorPayload s) (inspectorRssiHistory s)
    (localStorage s) (intervals s) (nextTimer s) (bluetooth s) (scanRequests
    s) (pendingScans s) (stopRequests s) (setItemRequests s) (listening s)
    (console s) (clock s).
Definition set_tickerInterval (v : option positive) (s : State) : State :=
  mkState (detectedAssets s) (scan s) v (currentInspectedId s) (btnStartScan
    s) (cockpitGrid s) (modalHidden s) (inspectorName s) (inspectorId s)
    (inspectorPayload s) (inspectorRssiHistory s) (localStorage s) (intervals
    s) (nextTimer s) (bluetooth s) (scanRequests s) (pendingScans s)
    (stopRequests s) (setItemRequests s) (listening s) (console s) (clock s).
Definition set_currentInspectedId (v : option string) (s : State) : State :=
  mkState (detectedAssets s) (scan s) (tickerInterval s) v (btnStartScan s)
    (cockpitGrid s) (modalHidden s) (inspectorName s) (inspectorId s)
    (inspectorPayload s) (inspectorRssiHistory s) (localStorage s) (intervals
    s) (nextTimer s) (bluetooth s) (scanRequests s) (pendingScans s)
    (stopRequests s) (setItemRequests s) (listening s) (console s) (clock s).
Definition set_btnStartScan (v : option Button) (s : State) : State :=
  mkState (detectedAssets s) (scan s) (tickerInterval s) (currentInspectedId
    s) v (cockpitGrid s) (modalHidden s) (inspectorName s) (inspectorId s)
    (inspectorPayload s) (inspectorRssiHistory s) (localStorage s) (intervals
    s) (nextTimer s) (bluetooth s) (scanRequests s) (pendingScans s)
    (stopRequests s) (setItemRequests s) (listening s) (console s) (clock s).
Definition set_cockpitGrid (v : list string) (s : State) : State :=
  mkState (detectedAssets s) (scan s) (tickerInterval s) (currentInspectedId
    s) (btnStartScan s) v (modalHidden s) (inspectorName s) (inspectorId s)
    (inspectorPayload s) (inspectorRssiHistory s) (localStorage s) (intervals
    s) (nextTimer s) (bluetooth s) (scanRequests s) (pendingScans s)
    (stopRequests s) (setItemRequests s) (listening s) (console s) (clock s).
Definition set_modalHidden (v : bool) (s : State) : State :=
  mkState (detectedAssets s) (scan s) (tickerInterval s) (currentInspectedId
    s) (btnStartScan s) (cockpitGrid s) v (inspectorName s) (inspectorId s)
    (inspectorPayload s) (inspectorRssiHistory s) (localStorage s) (intervals
    s) (nextTimer s) (bluetooth s) (scanRequests s) (pendingScans s)
    (stopRequests s) (setItemRequests s) (listening s) (console s) (clock s).
Definition set_inspectorName (v : string) (s : State) : State :=
  mkState (detectedAssets s) (scan s) (tickerInterval s) (currentInspectedId
    s) (btnStartScan s) (cockpitGrid s) (modalHidden s) v (inspectorId s)
    (inspectorPayload s) (inspectorRssiHistory s) (localStorage s) (intervals
    s) (nextTimer s) (bluetooth s) (scanRequests s) (pendingScans s)
    (stopRequests s) (setItemRequests s) (listening s) (console s) (clock s).
Definition set_inspectorId (v : string) (s : State) : State :=
  mkState (detectedAssets s) (scan s) (tickerInterval s) (currentInspectedId
    s) (btnStartScan s) (cockpitGrid s) (modalHidden s) (inspectorName s) v
    (inspectorPayload s) (inspectorRssiHistory s) (localStorage s) (intervals
    s) (nextTimer s) (bluetooth s) (scanRequests s) (pendingScans s)
    (stopRequests s) (setItemRequests s) (listening s) (console s) (clock s).
Definition set_inspectorPayload (v : string) (s : State) : State :=
  mkState (detectedAssets s) (scan s) (tickerInterval s) (currentInspectedId
    s) (btnStartScan s) (cockpitGrid s) (modalHidden s) (inspectorName s)
    (inspectorId s) v (inspectorRssiHistory s) (localStorage s) (intervals s)
    (nextTimer s) (bluetooth s) (scanRequests s) (pendingScans s)
    (stopRequests s) (setItemRequests s) (listening s) (console s) (clock s).
Definition set_inspectorRssiHistory (v : string) (s : State) : State :=
  mkState (detectedAssets s) (scan s) (tickerInterval s) (currentInspectedId
    s) (btnStartScan s) (cockpitGrid s) (modalHidden s) (inspectorName s)
    (inspectorId s) (inspectorPayload s) v (localStorage s) (intervals s)
    (nextTimer s) (bluetooth s) (scanRequests s) (pendingScans s)
    (stopRequests s) (setItemRequests s) (listening s) (console s) (clock s).
Definition set_localStorage (v : gmap string string) (s : State) : State :=
  mkState (detectedAssets s) (scan s) (tickerInterval s) (currentInspectedId
    s) (btnStartScan s) (cockpitGrid s) (modalHidden s) (inspectorName s)
    (inspectorId s) (inspectorPayload s) (inspectorRssiHistory s) v (intervals
    s) (nextTimer s) (bluetooth s) (scanRequests s) (pendingScans s)
    (stopRequests s) (setItemRequests s) (listening s) (console s) (clock s).
Definition set_intervals (v : gset positive) (s : State) : State :=
  mkState (detectedAssets s) (scan s) (tickerInterval s) (currentInspectedId
    s) (btnStartScan s) (cockpitGrid s) (modalHidden s) (inspectorName s)
    (inspectorId s) (inspectorPayload s) (inspectorRssiHistory s)
    (localStorage s) v (nextTimer s) (bluetooth s) (scanRequests s)
    (pendingScans s) (stopRequests s) (setItemRequests s) (listening s)
    (console s) (clock s).
Definition set_nextTimer (v : positive) (s : State) : State :=
  mkState (detectedAssets s) (scan s) (tickerInterval s) (currentInspectedId
    s) (btnStartScan s) (cockpitGrid s) (modalHidden s) (inspectorName s)
    (inspectorId s) (inspectorPayload s) (inspectorRssiHistory s)
    (localStorage s) (intervals s) v (bluetooth s) (scanRequests s)
    (pendingScans s) (stopRequests s) (setItemRequests s) (listening s)
    (console s) (clock s).
Definition set_scanRequests (v : list (ScanOptions * list Filter)) (s : State) : State :=
  mkState (detectedAssets s) (scan s) (tickerInterval s) (currentInspectedId
    s) (btnStartScan s) (cockpitGrid s) (modalHidden s) (inspectorName s)
    (inspectorId s) (inspectorPayload s) (inspectorRssiHistory s)
    (localStorage s) (intervals s) (nextTimer s) (bluetooth s) v (pendingScans
    s) (stopRequests s) (setItemRequests s) (listening s) (console s) (clock
    s).
Definition set_pendingScans (v : nat) (s : State) : State :=
  mkState (detectedAssets s) (scan s) (tickerInterval s) (currentInspectedId
    s) (btnStartScan s) (cockpitGrid s) (modalHidden s) (inspectorName s)
    (inspectorId s) (inspectorPayload s) (inspectorRssiHistory s)
    (localStorage s) (intervals s) (nextTimer s) (bluetooth s) (scanRequests
    s) v (stopRequests s) (setItemRequests s) (listening s) (console s) (clock
    s).
Definition set_stopRequests (v : nat) (s : State) : State :=
  mkState (detectedAssets s) (scan s) (tickerInterval s) (currentInspectedId
    s) (btnStartScan s) (cockpitGrid s) (modalHidden s) (inspectorName s)
    (inspectorId s) (inspectorPayload s) (inspectorRssiHistory s)
    (localStorage s) (intervals s) (nextTimer s) (bluetooth s) (scanRequests
    s) (pendingScans s) v (setItemRequests s) (listening s) (console s) (clock
    s).
Definition set_setItemRequests (v : list (string * string)) (s : State) : State :=
  mkState (detectedAssets s) (scan s) (tickerInterval s) (currentInspectedId
    s) (btnStartScan s) (cockpitGrid s) (modalHidden s) (inspectorName s)
    (inspectorId s) (inspectorPayload s) (inspectorRssiHistory s)
    (localStorage s) (intervals s) (nextTimer s) (bluetooth s) (scanRequests
    s) (pendingScans s) (stopRequests s) v (listening s) (console s) (clock s).
Definition set_listening (v : bool) (s : State) : State :=
  mkState (detectedAssets s) (scan s) (tickerInterval s) (currentInspectedId
    s) (btnStartScan s) (cockpitGrid s) (modalHidden s) (inspectorName s)
    (inspectorId s) (inspectorPayload s) (inspectorRssiHistory s)
    (localStorage s) (intervals s) (nextTimer s) (bluetooth s) (scanRequests
    s) (pendingScans s) (stopRequests s) (setItemRequests s) v (console s)
    (clock s).
Definition set_console (v : list (Level * string)) (s : State) : State :=
  mkState (detectedAssets s) (scan s) (tickerInterval s) (currentInspectedId
    s) (btnStartScan s) (cockpitGrid s) (modalHidden s) (inspectorName s)
    (inspectorId s) (inspectorPayload s) (inspectorRssiHistory s)
    (localStorage s) (intervals s) (nextTimer s) (bluetooth s) (scanRequests
    s) (pendingScans s) (stopRequests s) (setItemRequests s) (listening s) v
    (clock s).
Definition set_clock (v : nat -> Z) (s : State) : State :=
  mkState (detectedAssets s) (scan s) (tickerInterval s) (currentInspectedId
    s) (btnStartScan s) (cockpitGrid s) (modalHidden s) (inspectorName s)
    (inspectorId s) (inspectorPayload s) (inspectorRssiHistory s)
    (localStorage s) (intervals s) (nextTimer s) (bluetooth s) (scanRequests
    s) (pendingScans s) (stopRequests s) (setItemRequests s) (listening s)
    (console s) v.

(** ** The browser, as far as the handlers call it *)

(** [log], [warn], [error] of errorManager.js: one more console line. *)
Definition say (l : Level) (msg : string) (s : State) : State :=
  set_console (console s ++ [(l, msg)]) s.
Definition log : string -> State -> State := say LOG.
Definition warn : string -> State -> State := say WARN.
Definition error : string -> State -> State := say ERROR.

(** [new Date().getTime()]: the next reading of the clock. *)
Definition newDate (s : State) : Z * State :=
  (clock s 0%nat, set_clock (fun n => clock s (S n)) s).

(** [setInterval(updateAllAssetStatus, ...)]: a fresh, live timer. *)
Definition setInterval (s : State) : positive * State :=
  (nextTimer s,
   set_nextTimer (Pos.succ (nextTimer s))
     (set_intervals ({[ nextTimer s ]} ∪ intervals s) s)).

Definition clearInterval (t : positive) (s : State) : State :=
  set_intervals (intervals s ∖ {[ t ]}) s.

(** [m.has(k)] and [m.get(k)] on a data map of the event. *)
Definition data_has {K} `{Countable K} (m : DataMap K) (k : option K)
  : Js.Completion bool :=
  match m with
  | data_missing e => Js.Throw e
  | data_map m =>
      Js.Normal (match k with
                 | Some k => bool_decide (is_Some (m !! k))
                 | None => false
                 end)
  end.

Definition data_get {K} `{Countable K} (m : DataMap K) (k : option K)
  : Js.Completion DataViewArg :=
  match m with
  | data_missing e => Js.Throw e
  | data_map m =>
      Js.Normal (match k with
                 | Some k => default dv_absent (m !! k)
                 | None => dv_absent
                 end)
  end.

(** [l.join(sep)] *)
Fixpoint join (sep : string) (l : list string) : string :=
  match l with
  | [] => ""
  | [x] => x
  | x :: r => x ++ sep ++ join sep r
  end.

(** ** The handlers of app.js *)

Section App.

Variable CONFIG : Config.

(** Lines 355-368 of [updateSingleAssetStatus]: the class of the LED and
    the text, from the elapsed time.  [Math.round(diffMs / 1000)] of an
    integer is the floor of [(diffMs + 500) / 1000]; the quotient
    [INACTIVE_MS / 1000] is printed as an integer, which it is in
    config.js. *)
Definition ledStatus (diffMs : Z) : string * string :=
  let diffSec := (diffMs + 500) `div` 1000 in
  let ledConfig := LED_STATUS CONFIG in
  if diffMs <? ACTIVE_MS ledConfig then
    ("led-green",
     if diffSec =? 0 then "gerade eben" else "vor " ++ pretty diffSec ++ "s")
  else if diffMs <? INACTIVE_MS ledConfig then
    ("led-yellow", "vor " ++ pretty diffSec ++ "s")
  else
    ("led-red", "verloren (>" ++ pretty (INACTIVE_MS ledConfig `div` 1000) ++ "s)").

Definition updateSingleAssetStatus (asset : FtsAsset.t) (now : Z) : FtsAsset.t :=
  match FtsAsset.dom asset with
  | None => asset
  | Some d =>
      let diffMs := now - FtsAsset.lastSeen asset in
      let '(ledClass, lastSeenText) := ledStatus diffMs in
      FtsAsset.set_dom
        (Some (Dom.mk ("led " ++ ledClass) (Dom.name d) (Dom.rssiValue d)
                 (Dom.rssiBar d) (Dom.payload d) lastSeenText))
        asset
  end.

(** [updateFtsTile(asset)]: the asset object after the call, and the
    state (the clock has been read once). *)
Definition updateFtsTile (asset : FtsAsset.t) (s : State) : FtsAsset.t * State :=
  match FtsAsset.dom asset with
  | None => (asset, s)
  | Some d =>
      let rssiConfig := RSSI_STATUS CONFIG in
      let rssiClass :=
        if FtsAsset.rssi asset >? STRONG rssiConfig then "rssi-strong"
        else if FtsAsset.rssi asset <? WEAK rssiConfig then "rssi-weak"
        else "rssi-medium" in
      let d' :=
        Dom.mk (Dom.led d)
          (if negb (String.eqb (Dom.name d) (FtsAsset.name asset))
           then FtsAsset.name asset else Dom.name d)
          (pretty (FtsAsset.rssi asset))
          ("rssi-bar " ++ rssiClass)
          (Js.substring0 20 (FtsAsset.payload asset) ++ "...")
          (Dom.lastSeen d) in
      let '(now, s) := newDate s in
      (updateSingleAssetStatus (FtsAsset.set_dom (Some d') asset) now, s)
  end.

(** [createFtsTile(asset)]: the tile is built with the name in it and
    appended to the grid; both status updates follow. *)
Definition createFtsTile (asset : FtsAsset.t) (s : State) : FtsAsset.t * State :=
  let asset :=
    FtsAsset.set_dom
      (Some (Dom.mk "led" (FtsAsset.name asset) "..." "rssi-bar" "..." "..."))
      asset in
  let s := set_cockpitGrid (cockpitGrid s ++ [FtsAsset.id asset]) s in
  let '(asset, s) := updateFtsTile asset s in
  let '(now, s) := newDate s in
  (updateSingleAssetStatus asset now, s).

Definition updateAllAssetStatus (s : State) : State :=
  let '(now, s) := newDate s in
  set_detectedAssets
    ((fun asset => updateSingleAssetStatus asset now) <$> detectedAssets s) s.

(** The body of the [try] of [extractRelevantPayload] for one profile:
    [Some] when it returns from the function, [None] when it falls
    through to the next profile. *)
Definition tryProfile (event : Event.t) (profile : Profile.t)
  : Js.Completion (option (string * Profile.t)) :=
  let manufacturer : Js.Completion (option (string * Profile.t)) :=
    if String.eqb (Profile.type profile) "manufacturer" then
      match data_has (Event.manufacturerData event) (Profile.companyId profile) with
      | Js.Throw e => Js.Throw e
      | Js.Normal false => Js.Normal None
      | Js.Normal true =>
          match data_get (Event.manufacturerData event) (Profile.companyId profile) with
          | Js.Throw e => Js.Throw e
          | Js.Normal dv =>
              match dataViewToHexString dv with
              | Js.Throw e => Js.Throw e
              | Js.Normal payload => Js.Normal (Some (payload, profile))
              end
          end
      end
    else Js.Normal None in
  if String.eqb (Profile.type profile) "service" then
    match data_has (Event.serviceData event) (Profile.uuid profile) with
    | Js.Throw e => Js.Throw e
    | Js.Normal false => manufacturer
    | Js.Normal true =>
        match data_get (Event.serviceData event) (Profile.uuid profile) with
        | Js.Throw e => Js.Throw e
        | Js.Normal dv =>
            match dataViewToHexString dv with
            | Js.Throw e => Js.Throw e
            | Js.Normal payload => Js.Normal (Some (payload, profile))
            end
        end
    end
  else manufacturer.

(** The loop of [extractRelevantPayload] over the profiles left: the
    warnings it raises, and the pair found ([None] is the object
    [{ payload: null, profile: null }]). *)
Fixpoint extractFrom (profiles : list Profile.t) (event : Event.t)
  : list string * option (string * Profile.t) :=
  match profiles with
  | [] => ([], None)
  | profile :: rest =>
      match tryProfile event profile with
      | Js.Normal (Some found) => ([], Some found)
      | Js.Normal None => extractFrom rest event
      | Js.Throw e =>
          let w := "Fehler beim Extrahieren der Payload f" ++ Js.cu 252 ++ "r "
                   ++ Profile.profileName profile ++ ": " ++ Js.message e in
          let '(ws, r) := extractFrom rest event in
          (w :: ws, r)
      end
  end.

Definition extractRelevantPayload (event : Event.t)
  : list string * option (string * Profile.t) :=
  extractFrom (FTS_PROFILES CONFIG) event.

(** [rssiHistory.push(rssi)] followed by the [shift] of lines 177-179. *)
Definition pushHistory (rssiHistory : list Z) (rssi : Z) : list Z :=
  let h := (rssiHistory ++ [rssi])%list in
  if (20 <? length h)%nat then tail h else h.

Definition handleAdvertisement (event : Event.t) (s : State) : State :=
  let deviceId := Event.device_id event in
  let rssi := Event.rssi event in
  let '(now, s) := newDate s in
  let '(warnings, extracted) := extractRelevantPayload event in
  let s := fold_left (fun s w => warn w s) warnings s in
  match extracted with
  | None => s
  | Some (payload, profile) =>
      if negb (Js.truthy payload) then s else
      match detectedAssets s !! deviceId with
      | Some existingAsset =>
          let asset :=
            FtsAsset.mk (FtsAsset.id existingAsset) rssi now payload
              (FtsAsset.profileName existingAsset) (FtsAsset.name existingAsset)
              (pushHistory (FtsAsset.rssiHistory existingAsset) rssi)
              (FtsAsset.dom existingAsset) in
          let '(asset, s) := updateFtsTile asset s in
          set_detectedAssets (<[deviceId := asset]> (detectedAssets s)) s
      | None =>
          let s := log ("Neues FTS erkannt: ID " ++ Js.substring0 8 deviceId
                        ++ "... (" ++ Profile.profileName profile ++ ")") s in
          let newAsset :=
            FtsAsset.mk deviceId rssi now payload (Profile.profileName profile)
              "Unbenanntes FTS" [rssi] None in
          let newAsset :=
            match localStorage s !! ("nickname_" ++ deviceId) with
            | Some savedName =>
                if Js.truthy savedName then FtsAsset.set_name savedName newAsset
                else newAsset
            | None => newAsset
            end in
          let s := set_detectedAssets (<[deviceId := newAsset]> (detectedAssets s)) s in
          let '(asset, s) := createFtsTile newAsset s in
          set_detectedAssets (<[deviceId := asset]> (detectedAssets s)) s
      end
  end.

(** *** 5. Modal-Logik *)

Definition showInspectorModal (deviceId : string) (s : State) : State :=
  match detectedAssets s !! deviceId with
  | None =>
      warn ("Asset " ++ deviceId ++ " f" ++ Js.cu 252
            ++ "r Modal nicht im State gefunden.") s
  | Some asset =>
      let s := set_currentInspectedId (Some deviceId) s in
      let s := log ("Inspektor ge" ++ Js.cu 246 ++ "ffnet f" ++ Js.cu 252 ++ "r: "
                    ++ FtsAsset.name asset ++ " (" ++ FtsAsset.id asset ++ ")") s in
      let s := set_inspectorName (FtsAsset.name asset) s in
      let s := set_inspectorId (FtsAsset.id asset) s in
      let s := set_inspectorPayload (FtsAsset.payload asset) s in
      let s := set_inspectorRssiHistory
                 (join ", " (pretty <$> FtsAsset.rssiHistory asset)) s in
      set_modalHidden false s
  end.

Definition hideInspectorModal (s : State) : State :=
  let s := set_modalHidden true s in
  let s := set_currentInspectedId None s in
  log "Inspektor geschlossen." s.

(** The [try] of lines 430-436.  [setItem] is what
    [localStorage.setItem] does when it is called: [None] stores the
    pair, [Some e] throws [e]. *)
Definition storeNickname (setItem : option Js.Error) (asset : FtsAsset.t)
    (s : State) : State :=
  let s := set_setItemRequests
             (setItemRequests s
              ++ [("nickname_" ++ FtsAsset.id asset, FtsAsset.name asset)]) s in
  match setItem with
  | None =>
      let s := set_localStorage
                 (<["nickname_" ++ FtsAsset.id asset := FtsAsset.name asset]>
                    (localStorage s)) s in
      log ("Nickname f" ++ Js.cu 252 ++ "r " ++ FtsAsset.id asset
           ++ " gespeichert als: " ++ FtsAsset.name asset) s
  | Some e =>
      error ("Speichern des Nicknames fehlgeschlagen: " ++ Js.message e) s
  end.

Definition saveNickname (setItem : option Js.Error) (s : State) : State :=
  match currentInspectedId s with
  | None => s
  | Some inspected =>
      if negb (Js.truthy inspected) then s else
      match detectedAssets s !! inspected with
      | None => s
      | Some asset =>
          let newName := inspectorName s in
          if Js.truthy newName && negb (String.eqb (Js.trim newName) "") then
            let asset := FtsAsset.set_name (Js.trim newName) asset in
            let s := storeNickname setItem asset s in
            let '(asset, s) := updateFtsTile asset s in
            let s := set_detectedAssets (<[inspected := asset]> (detectedAssets s)) s in
            hideInspectorModal s
          else
            warn "Speichern fehlgeschlagen: Nickname darf nicht leer sein." s
      end
  end.

(** *** Scan starten / stoppen *)

(** The [map] and [filter(Boolean)] of lines 97-107, with the warnings
    of the profiles dropped. *)
Fixpoint buildFilters (profiles : list Profile.t) : list string * list Filter :=
  match profiles with
  | [] => ([], [])
  | profile :: rest =>
      let '(ws, fs) := buildFilters rest in
      if String.eqb (Profile.type profile) "service" then
        (ws, filter_services (Profile.uuid profile) :: fs)
      else if String.eqb (Profile.type profile) "manufacturer" then
        (ws, filter_manufacturerData (Profile.companyId profile) :: fs)
      else
        (("Ung" ++ Js.cu 252 ++ "ltiges Profil-Typ in config.js: "
          ++ Profile.type profile) :: ws, fs)
  end.

(** Writes to the start button, which [toggleScan] has found. *)
Definition setButton (text : string) (cls : bool) (s : State) : State :=
  match btnStartScan s with
  | Some _ => set_btnStartScan (Some {| textContent := text; scanning := cls |}) s
  | None => s
  end.

(** [startScan()] up to the [await] of line 123: whether the request has
    been sent, the call then being suspended until the promise settles. *)
Definition startScan_request (s : State) : State * bool :=
  let s := log "Bluetooth-Scan wird angefordert..." s in
  if negb (bluetooth s) then
    (error ("Web Bluetooth API nicht auf diesem Ger" ++ Js.cu 228
            ++ "t/Browser verf" ++ Js.cu 252 ++ "gbar. (HTTPS erforderlich?)") s,
     false)
  else
    let '(warnings, filters) := buildFilters (FTS_PROFILES CONFIG) in
    let s := fold_left (fun s w => warn w s) warnings s in
    if (length filters =? 0)%nat then
      (error ("Keine g" ++ Js.cu 252
              ++ "ltigen FTS-Profile in config.js definiert. Scan kann nicht starten.") s,
       false)
    else
      let s := log ("Scan startet mit " ++ pretty (length filters) ++ " Filtern.") s in
      let s := set_scanRequests
                 (scanRequests s ++ [(SCAN_OPTIONS CONFIG, filters)]) s in
      (set_pendingScans (S (pendingScans s)) s, true).

(** [startScan()] from the [await] on, once the promise of
    [requestLEScan] has settled as [answer]. *)
Definition startScan_settled (answer : Js.Completion BluetoothLEScan) (s : State)
  : State :=
  let s := set_pendingScans (pred (pendingScans s)) s in
  match answer with
  | Js.Normal granted =>
      let s := set_scan (Some granted) s in
      let s := set_listening true s in
      let s := setButton ("Scan l" ++ Js.cu 228 ++ "uft... (Stoppen)") true s in
      let s := log "Scan aktiv. Warte auf FTS-Pakete..." s in
      let s := match tickerInterval s with
               | Some t => clearInterval t s
               | None => s
               end in
      let '(t, s) := setInterval s in
      set_tickerInterval (Some t) s
  | Js.Throw e =>
      let s :=
        if String.eqb (Js.name e) "AbortError" then
          warn "Scan-Anforderung vom Benutzer abgebrochen." s
        else error ("Scan fehlgeschlagen: " ++ Js.message e) s in
      setButton "Scan starten" false s
  end.

(** [startScan()] when the promise settles before any other handler runs. *)
Definition startScan (answer : Js.Completion BluetoothLEScan) (s : State) : State :=
  let '(s, awaiting) := startScan_request s in
  if awaiting then startScan_settled answer s else s.

(** [scan && scan.active] *)
Definition scanActive (s : State) : bool :=
  match scan s with
  | Some sc => active sc
  | None => false
  end.

(** The stopping branch of [toggleScan], lines 66-77.  [stop] is what
    [scan.stop()] does when it is called: [None] stops the scan, [Some e]
    throws [e] and leaves the scan object as it is. *)
Definition stopScan (stop : option Js.Error) (s : State) : State :=
  let s := set_stopRequests (S (stopRequests s)) s in
  match stop with
  | None =>
      let s := set_scan (Some {| active := false |}) s in
      let s := log "Scan gestoppt." s in
      let s := setButton "Scan starten" false s in
      let s := match tickerInterval s with
               | Some t => clearInterval t s
               | None => s
               end in
      set_tickerInterval None s
  | Some e =>
      error ("Fehler beim Stoppen des Scans: " ++ Js.message e) s
  end.

(** [toggleScan()], a scan request settling as [answer] before any other
    handler runs. *)
Definition toggleScan (stop : option Js.Error)
    (answer : Js.Completion BluetoothLEScan) (s : State) : State :=
  match btnStartScan s with
  | None => error "Start-Button nicht gefunden." s
  | Some _ => if scanActive s then stopScan stop s else startScan answer s
  end.

(** [toggleScan()] up to its [await]: a scan request stays pending. *)
Definition toggleScan_request (stop : option Js.Error) (s : State) : State :=
  match btnStartScan s with
  | None => error "Start-Button nicht gefunden." s
  | Some _ => if scanActive s then stopScan stop s else fst (startScan_request s)
  end.

(** A pending scan request settles, if there is one. *)
Definition scanSettles (answer : Js.Completion BluetoothLEScan) (s : State) : State :=
  match pendingScans s with
  | O => s
  | S _ => startScan_settled answer s
  end.

(** *** The events of a run *)

Inductive Op : Type :=
| Advertisement (event : Event.t)     (* 'advertisementreceived' *)
| Ticker                              (* the interval timer fires *)
| ClickTile (deviceId : string)       (* click on a tile *)
| CloseModal                          (* click on the close button *)
| TypeName (text : string)            (* the user edits #inspector-name *)
| SaveName (setItem : option Js.Error)  (* click on the save button *)
| ClickScan (stop : option Js.Error) (answer : Js.Completion BluetoothLEScan)
| ClickScanAwait (stop : option Js.Error)  (* click, the request left pending *)
| ScanSettles (answer : Js.Completion BluetoothLEScan).

Definition step (s : State) (op : Op) : State :=
  match op with
  | Advertisement event => handleAdvertisement event s
  | Ticker => updateAllAssetStatus s
  | ClickTile deviceId => showInspectorModal deviceId s
  | CloseModal => hideInspectorModal s
  | TypeName text => set_inspectorName text s
  | SaveName setItem => saveNickname setItem s
  | ClickScan stop answer => toggleScan stop answer s
  | ClickScanAwait stop => toggleScan_request stop s
  | ScanSettles answer => scanSettles answer s
  end.

(** Handlers run to completion, one after the other; a handler suspended
    at an [await] lets others run before it resumes. *)
Definition run (ops : list Op) (s : State) : State := fold_left step ops s.

End App.

(** A page just loaded, with an empty label store and a clock that
    advances by one millisecond per reading from [t0]. *)
Definition page0 (t0 : Z) : State :=
  {| detectedAssets := ∅; scan := None; tickerInterval := None;
     currentInspectedId := None;
     btnStartScan := Some {| textContent := "Scan starten"; scanning := false |};
     cockpitGrid := []; modalHidden := true; inspectorName := "";
     inspectorId := ""; inspectorPayload := ""; inspectorRssiHistory := "";
     localStorage := ∅; intervals := ∅; nextTimer := 1%positive;
     bluetooth := true; scanRequests := []; pendingScans := 0%nat;
     stopRequests := 0%nat;
     setItemRequests := []; listening := false;
     console := [(LOG, "Lade gespeicherte Nicknames aus localStorage (passiv)...");
                 (LOG, "App initialisiert. Bereit f" ++ Js.cu 252 ++ "r Scan.")];
     clock := fun n => t0 + Z.of_nat n |}.

(** ** Notions of the specification *)

(** The rendering the specification words: two uppercase hexadecimal
    digits per byte. *)
Definition spec_hexDigit (d : N) : ascii :=
  nth (N.to_nat d) (list_ascii_of_string "0123456789ABCDEF") "?"%char.

Definition spec_hexByte (b : byte) : string :=
  String (spec_hexDigit (Byte.to_N b / 16))
    (String (spec_hexDigit (Byte.to_N b mod 16)) EmptyString).

(** ... separated by single spaces, after the prefix. *)
Definition spec_hexString (bytes : list byte) : string :=
  "0x" ++ join " " (spec_hexByte <$> bytes).

(** What the loop has appended to the prefix before the final [trim]. *)
Fixpoint spaced (bytes : list byte) : string :=
  match bytes with
  | [] => ""
  | b :: rest => (spec_hexByte b ++ " ") ++ spaced rest
  end.

(** An advertisement is a matched observation when the Profile Matcher
    hands a payload to the handler. *)
Definition matched (CONFIG : Config) (event : Event.t) : bool :=
  match snd (extractRelevantPayload CONFIG event) with
  | Some (payload, _) => Js.truthy payload
  | None => false
  end.

(** The signal strength an event of a run contributes to the history of
    an identity: that of a matched observation of this identity. *)
Definition observed (CONFIG : Config) (deviceId : string) (op : Op) : option Z :=
  match op with
  | Advertisement event =>
      if matched CONFIG event && String.eqb (Event.device_id event) deviceId
      then Some (Event.rssi event) else None
  | _ => None
  end.

(** The signal strengths of the matched observations of one identity in
    a run, oldest first. *)
Definition observations (CONFIG : Config) (deviceId : string) (ops : list Op)
  : list Z :=
  omap (observed CONFIG deviceId) ops.

(** The newest [n] entries of a sequence. *)
Definition newest {A} (n : nat) (l : list A) : list A := drop (length l - n) l.

(** Two asset objects that differ at most in the cached tile nodes. *)
Definition sameData (a b : FtsAsset.t) : Prop :=
  FtsAsset.id a = FtsAsset.id b /\ FtsAsset.rssi a = FtsAsset.rssi b
  /\ FtsAsset.lastSeen a = FtsAsset.lastSeen b
  /\ FtsAsset.payload a = FtsAsset.payload b
  /\ FtsAsset.profileName a = FtsAsset.profileName b
  /\ FtsAsset.name a = FtsAsset.name b
  /\ FtsAsset.rssiHistory a = FtsAsset.rssiHistory b.

(** Two asset objects with the same record of observations: they differ
    at most in the label and the cached tile nodes. *)
Definition sameRecord (a b : FtsAsset.t) : Prop :=
  FtsAsset.id a = FtsAsset.id b /\ FtsAsset.rssi a = FtsAsset.rssi b
  /\ FtsAsset.lastSeen a = FtsAsset.lastSeen b
  /\ FtsAsset.payload a = FtsAsset.payload b
  /\ FtsAsset.profileName a = FtsAsset.profileName b
  /\ FtsAsset.rssiHistory a = FtsAsset.rssiHistory b.

(** The class of the LED of an asset's tile, when it has one. *)
Definition ledOf (asset : FtsAsset.t) : option string :=
  Dom.led <$> FtsAsset.dom asset.

(** ** Inputs used in the examples *)

(** An advertisement carrying service data for the UUID of profile A. *)
Definition adv_service (deviceId : string) (rssi : Z) (bytes : list byte) : Event.t :=
  Event.mk deviceId rssi (data_map {[ "0xfcf1" := dv_view bytes ]}) (data_map ∅).

(** An advertisement carrying manufacturer data for the company of profile B. *)
Definition adv_manufacturer (deviceId : string) (rssi : Z) (bytes : list byte)
  : Event.t :=
  Event.mk deviceId rssi (data_map ∅) (data_map {[ 41490%N := dv_view bytes ]}).

(** An advertisement carrying data for two service UUIDs and one company,
    none of them configured. *)
Definition adv_foreign (deviceId : string) (rssi : Z) : Event.t :=
  Event.mk deviceId rssi
    (data_map {[ "0x180f" := dv_view [x64]; "0xfeaa" := dv_view [x10; x00] ]})
    (data_map {[ 76%N := dv_view [x02; x15] ]}).

(** An advertisement whose data for both profiles sits in detached buffers. *)
Definition adv_detached (deviceId : string) (rssi : Z) : Event.t :=
  let e := Js.mkError "TypeError" "detached ArrayBuffer" in
  Event.mk deviceId rssi (data_map {[ "0xfcf1" := dv_detached e ]})
    (data_map {[ 41490%N := dv_detached e ]}).

(** [n] matched advertisements of one device, of strengths -1, -2, ... *)
Definition burst (deviceId : string) (n : nat) : list Op :=
  (fun i => Advertisement (adv_service deviceId (- Z.of_nat i) [x04; x37]))
    <$> seq 1 n.

(** The scan source grants a scan. *)
Definition granted : Js.Completion BluetoothLEScan := Js.Normal {| active := true |}.

(** The page after the first advertisement of device AGV-7, and the
    asset it has registered. *)
Definition registered : State :=
  handleAdvertisement CONFIG_js (adv_service "AGV-7" (-70) [x04; x37]) (page0 0).

Definition tile_AGV7 : Dom.t :=
  {| Dom.led := "led led-green"; Dom.name := "Unbenanntes FTS";
     Dom.rssiValue := "-70"; Dom.rssiBar := "rssi-bar rssi-strong";
     Dom.payload := "0x04 37..."; Dom.lastSeen := "gerade eben" |}.

Definition asset_AGV7 : FtsAsset.t :=
  {| FtsAsset.id := "AGV-7"; FtsAsset.rssi := -70; FtsAsset.lastSeen := 0;
     FtsAsset.payload := "0x04 37";
     FtsAsset.profileName := "FTS-Gruppe Ladestation (Typ A)";
     FtsAsset.name := "Unbenanntes FTS"; FtsAsset.rssiHistory := [-70];
     FtsAsset.dom := Some tile_AGV7 |}.

(** The same page with the inspector open on AGV-7 and [text] typed into
    the name field. *)
Definition inspecting (text : string) : State :=
  set_inspectorName text (showInspectorModal "AGV-7" registered).

(** The button while a scan runs, and while none does. *)
Definition btnScanning : Button :=
  {| textContent := "Scan l" ++ Js.cu 228 ++ "uft... (Stoppen)"; scanning := true |}.
Definition btnIdle : Button := {| textContent := "Scan starten"; scanning := false |}.

(** The loaded page after one click on the button, the scan granted. *)
Definition scanning_page : State := toggleScan CONFIG_js None granted (page0 0).

(** What [scan.stop()] throws in the examples. *)
Definition stop_error : Js.Error := Js.mkError "InvalidStateError" "scan is gone".

(** The words of the specification on a second [start()]: the controller
    stays Active and the scan source gets no further start request. *)
Definition spec_start_noop (start : State -> State) (s : State) : Prop :=
  scanActive (start s) = true /\ scanRequests (start s) = scanRequests s.

(** The words of the specification on the state [stop()] leaves: the
    button is the idle one and no sweep is scheduled. *)
Definition spec_stopped (s : State) : Prop :=
  btnStartScan s = Some btnIdle /\ tickerInterval s = None /\ intervals s = ∅.

(** ** Views and invariants of the state *)

(** What the scan controller owns: the scan handle, the ticker and the
    timers, the button, and its traffic with the scan source. *)
Definition controller (s : State) :=
  (scan s, tickerInterval s, intervals s, nextTimer s, btnStartScan s,
   scanRequests s, pendingScans s, stopRequests s, listening s, bluetooth s).

(** What the registry and the inspector own: the assets, their tiles, the
    label store and the fields of the modal. *)
Definition registrySide (s : State) :=
  (detectedAssets s, cockpitGrid s, localStorage s, setItemRequests s,
   currentInspectedId s, modalHidden s, inspectorName s, inspectorId s,
   inspectorPayload s, inspectorRssiHistory s).

(** The label store and the fields of the modal alone. *)
Definition inspector (s : State) :=
  (localStorage s, setItemRequests s, currentInspectedId s, modalHidden s,
   inspectorName s, inspectorId s, inspectorPayload s, inspectorRssiHistory s).

(** The events of the scan controller. *)
Definition scanOp (op : Op) : bool :=
  match op with
  | ClickScan _ _ | ClickScanAwait _ | ScanSettles _ => true
  | _ => false
  end.

(** The live timers are the one the ticker variable holds, if any. *)
Definition oneSweep (s : State) : Prop :=
  intervals s = match tickerInterval s with
                | Some t => {[ t ]}
                | None => ∅
                end.

(** Every asset sits under its own identity and has a tile, and the grid
    holds one tile per asset. *)
Definition tiled (s : State) : Prop :=
  NoDup (cockpitGrid s)
  /\ (forall d, d ∈ cockpitGrid s <-> is_Some (detectedAssets s !! d))
  /\ (forall d a, detectedAssets s !! d = Some a ->
                  FtsAsset.id a = d /\ is_Some (FtsAsset.dom a)).

(** A profile the program knows how to match and to filter for. *)
Definition recognised (profile : Profile.t) : bool :=
  String.eqb (Profile.type profile) "service"
  || String.eqb (Profile.type profile) "manufacturer".

(** The try of a profile does not return from the matcher. *)
Definition passes (event : Event.t) (profile : Profile.t) : Prop :=
  forall found, tryProfile event profile <> Js.Normal (Some found).

(** A click on the save button. *)
Definition isSave (op : Op) : bool :=
  match op with SaveName _ => true | _ => false end.

(** A freshly loaded page whose label store holds [label] for AGV-7, at
    clock reading [t0]. *)
Definition stored_page (label : string) (t0 : Z) : State :=
  set_localStorage {[ "nickname_AGV-7" := label ]} (page0 t0).

(** A configuration whose only profile has a type the program does not
    know, and one with such a profile between the two of config.js. *)
Definition profile_C : Profile.t :=
  Profile.mk "FTS (Typ C)" "beacon" (Some "0xfeaa") None.

Definition CONFIG_unusable : Config := {|
  APP_TITLE := APP_TITLE CONFIG_js;
  TICKER_INTERVAL_MS := TICKER_INTERVAL_MS CONFIG_js;
  FTS_PROFILES := [ profile_C ];
  RSSI_STATUS := RSSI_STATUS CONFIG_js;
  LED_STATUS := LED_STATUS CONFIG_js;
  SCAN_OPTIONS := SCAN_OPTIONS CONFIG_js
|}.

(** What the scan source answers when the user dismisses the prompt. *)
Definition aborted : Js.Completion BluetoothLEScan :=
  Js.Throw (Js.mkError "AbortError" "User cancelled the requestLEScan() chooser.").

(** Reading a rendering back: the byte of two digits, by search among
    the 256 bytes, and the bytes of digit pairs separated by single
    spaces. *)
Definition all_bytes : list byte := omap Byte.of_N (N.of_nat <$> seq 0 256).

Definition spec_unhexByte (c1 c2 : ascii) : option byte :=
  List.find (fun b => String.eqb (spec_hexByte b) (String c1 (String c2 EmptyString)))
    all_bytes.

Fixpoint spec_unhex (digits : string) : option (list byte) :=
  match digits with
  | EmptyString => Some []
  | String c1 (String c2 rest) =>
      match spec_unhexByte c1 c2 with
      | None => None
      | Some b =>
          match rest with
          | EmptyString => Some [b]
          | String sp rest' =>
              if Ascii.eqb sp " " then option_map (cons b) (spec_unhex rest')
              else None
          end
      end
  | _ => None
  end.

(** The bytes of a rendered payload: what follows the prefix "0x". *)
Definition spec_parsePayload (payload : string) : option (list byte) :=
  match payload with
  | String "0" (String "x" digits) => spec_unhex digits
  | _ => None
  end.

(** ** errorManager.js *)

Module ErrorManager.

(** A paragraph appended to #console-body. *)
Record Entry : Type := mkEntry { className : string; textContent : string }.

(** The four elements looked up when the module is evaluated ([None] or
    [false]: not found), each by what the module reads or writes of it;
    the calls received by the original console functions; and how many
    times [initErrorManager] has installed its handlers. *)
Record State : Type := mkState {
  consoleBody : option (list Entry);   (* #console-body, by its children *)
  consoleHeader : bool;                (* #console-header *)
  errorConsole : option bool;          (* #error-console; true: class 'console-hidden' *)
  toggleButton : option string;        (* #btn-toggle-console, by its text *)
  f12 : list (string * list string);   (* calls of [original.log], ..., with arguments *)
  installs : nat
}.

Definition set_consoleBody (v : option (list Entry)) (s : State) : State :=
  mkState v (consoleHeader s) (errorConsole s) (toggleButton s) (f12 s) (installs s).
Definition set_errorConsole (v : option bool) (s : State) : State :=
  mkState (consoleBody s) (consoleHeader s) v (toggleButton s) (f12 s) (installs s).
Definition set_toggleButton (v : option string) (s : State) : State :=
  mkState (consoleBody s) (consoleHeader s) (errorConsole s) v (f12 s) (installs s).
Definition set_f12 (v : list (string * list string)) (s : State) : State :=
  mkState (consoleBody s) (consoleHeader s) (errorConsole s) (toggleButton s) v
    (installs s).
Definition set_installs (v : nat) (s : State) : State :=
  mkState (consoleBody s) (consoleHeader s) (errorConsole s) (toggleButton s)
    (f12 s) v.

(** A call of one of the original console functions kept in [original]. *)
Definition original (fn : string) (args : list string) (s : State) : State :=
  set_f12 (f12 s ++ [(fn, args)]) s.

(** The paragraph [visualLog] builds; [time] is what
    [toLocaleTimeString] gives. *)
Definition paragraph (msg level time : string) : Entry :=
  mkEntry ("log-" ++ level) ("[" ++ time ++ "] " ++ msg).

(** [visualLog(msg, level)] *)
Definition visualLog (msg level time : string) (s : State) : State :=
  match consoleBody s with
  | None => s
  | Some entries =>
      set_consoleBody (Some (entries ++ [paragraph msg level time])%list) s
  end.

(** [showConsole()]: the state it leaves and the [TypeError] it throws
    when the error console is there and the button is not. *)
Definition showConsole (s : State) : State * option Js.Error :=
  match errorConsole s with
  | None => (s, None)
  | Some _ =>
      let s := set_errorConsole (Some false) s in
      match toggleButton s with
      | None =>
          (s, Some (Js.mkError "TypeError"
                      "Cannot set properties of null (setting 'textContent')"))
      | Some _ => (set_toggleButton (Some "Minimieren") s, None)
      end
  end.

(** The functions [initErrorManager] assigns to [console.log] and
    [console.info] (no [showConsole]) and to [console.warn] and
    [console.error] (with it); [args] are the arguments as [String] gives
    them. *)
Definition intercepted (fn : string) (shows : bool) (args : list string)
    (time : string) (s : State) : State * option Js.Error :=
  let msg := join " " args in
  let s := original fn args s in
  let s := visualLog msg fn time s in
  if shows then showConsole s else (s, None).

(** A call of [console.log], [console.warn], [console.error] or
    [console.info]: the original function until the handlers are
    installed, the intercepting one from then on. *)
Definition console_call (fn : string) (args : list string) (time : string)
    (s : State) : State * option Js.Error :=
  match installs s with
  | O => (original fn args s, None)
  | S _ =>
      intercepted fn (String.eqb fn "warn" || String.eqb fn "error") args time s
  end.

(** The exported [log], [warn], [error] and [info]: the values the
    properties of [console] have when the module is evaluated, which is
    before any call of [initErrorManager]. *)
Definition exported (fn : string) (args : list string) (s : State) : State :=
  original fn args s.

(** [window.onerror], once installed; [err] is the error object as the
    original console receives it. *)
Definition onerror (message source : string) (lineno : N) (err time : string)
    (s : State) : State * option Js.Error :=
  match installs s with
  | O => (s, None)
  | S _ =>
      let fullMessage := "[Globaler Fehler] " ++ message ++ " in " ++ source
                         ++ " (Zeile: " ++ pretty lineno ++ ")" in
      let s := original "error" [fullMessage; err] s in
      let s := visualLog fullMessage "error" time s in
      showConsole s
  end.

(** [window.onunhandledrejection], once installed. *)
Definition onunhandledrejection (reason event time : string) (s : State)
  : State * option Js.Error :=
  match installs s with
  | O => (s, None)
  | S _ =>
      let fullMessage := "[Promise-Fehler] Grund: " ++ reason in
      let s := original "error" [fullMessage; event] s in
      let s := visualLog fullMessage "error" time s in
      showConsole s
  end.

(** One listener of the header: lines 122-127.  It is installed only
    where the error console and the button are, which the two [None]
    branches stand outside of. *)
Definition headerListener (s : State) : State :=
  match errorConsole s with
  | None => s
  | Some hidden =>
      let isHidden := negb hidden in
      let s := set_errorConsole (Some isHidden) s in
      match toggleButton s with
      | None => s
      | Some _ =>
          set_toggleButton (Some (if isHidden then "Maximieren" else "Minimieren")) s
      end
  end.

(** A click on the header runs every listener installed, in order. *)
Definition headerClick (s : State) : State :=
  Nat.iter (installs s) headerListener s.

Definition found (s : State) : bool :=
  bool_decide (is_Some (errorConsole s)) && consoleHeader s
  && bool_decide (is_Some (toggleButton s))
  && bool_decide (is_Some (consoleBody s)).

(** [initErrorManager()] *)
Definition initErrorManager (time : string) (s : State) : State * option Js.Error :=
  if negb (found s) then
    (original "error"
       ["ErrorManager: UI-Elemente nicht gefunden. Visueller Logger kann nicht initialisiert werden."]
       s, None)
  else
    let s := set_installs (S (installs s)) s in
    console_call "log"
      ["Error Manager initialisiert. Alle Logs werden nun abgefangen."] time s.

(** The events of the logger. *)
Inductive Op : Type :=
| Init (time : string)
| Console (fn : string) (args : list string) (time : string)
| Exported (fn : string) (args : list string)
| WindowError (message source : string) (lineno : N) (err time : string)
| Rejection (reason event time : string)
| HeaderClick.

Definition step (s : State) (op : Op) : State * option Js.Error :=
  match op with
  | Init time => initErrorManager time s
  | Console fn args time => console_call fn args time s
  | Exported fn args => (exported fn args s, None)
  | WindowError message source lineno err time =>
      onerror message source lineno err time s
  | Rejection reason event time => onunhandledrejection reason event time s
  | HeaderClick => (headerClick s, None)
  end.

(** A run: the last state and the exceptions the handlers let escape. *)
Fixpoint run (ops : list Op) (s : State) : State * list Js.Error :=
  match ops with
  | [] => (s, [])
  | op :: rest =>
      let '(s, e) := step s op in
      let '(s, es) := run rest s in
      (s, match e with Some e => e :: es | None => es end)
  end.

(** The module just evaluated on a page that has the four elements, the
    error console hidden. *)
Definition loaded : State :=
  {| consoleBody := Some []; consoleHeader := true; errorConsole := Some true;
     toggleButton := Some "Maximieren"; f12 := []; installs := 0 |}.

(** The same on a page without the toggle button. *)
Definition loaded_without_button : State :=
  {| consoleBody := Some []; consoleHeader := true; errorConsole := Some true;
     toggleButton := None; f12 := []; installs := 0 |}.


Definition isExported (op : Op) : bool :=
  match op with Exported _ _ => true | _ => false end.

End ErrorManager.

(** ** Properties of the string helpers *)

Module JsFacts.
Import Js.

(** stdpp keeps [String.append] from unfolding under [simpl]. *)
Lemma append_cons (c : ascii) (a b : string) :
  String c a ++ b = String c (a ++ b).
Proof. reflexivity. Qed.

Lemma append_assoc (a b c : string) : (a ++ b) ++ c = a ++ (b ++ c).
Proof.
  induction a as [|x a IH]; [reflexivity|].
  now rewrite !append_cons, IH.
Qed.

Lemma trimEnd_cons (c : ascii) (r : string) :
  trimEnd r <> EmptyString -> trimEnd (String c r) = String c (trimEnd r).
Proof. simpl. destruct (trimEnd r); [contradiction|reflexivity]. Qed.

Lemma trimEnd_app_nonempty (a b : string) :
  trimEnd b <> EmptyString -> trimEnd (a ++ b) = a ++ trimEnd b.
Proof.
  intros Hb. induction a as [|c a IH]; [reflexivity|].
  rewrite !append_cons, trimEnd_cons; rewrite IH; [reflexivity|].
  destruct a; [exact Hb|rewrite append_cons; discriminate].
Qed.

End JsFacts.

(** ** Payload rendering *)

Section Rendering.
Import Js JsFacts.

(** The padded upper-case digits the loop computes for a byte are the
    two digits of the specification: by cases on the 256 bytes. *)
Lemma hexAppend_spec (hexString : string) (b : byte) :
  hexAppend hexString b = hexString ++ spec_hexByte b ++ " ".
Proof. unfold hexAppend. f_equal. destruct b; reflexivity. Qed.

Lemma fold_hexAppend (bytes : list byte) (acc : string) :
  fold_left hexAppend bytes acc = acc ++ spaced bytes.
Proof.
  revert acc. induction bytes as [|b bytes IH]; intros acc; simpl.
  - induction acc as [|c acc IHacc]; [reflexivity|].
    now rewrite append_cons, <- IHacc.
  - now rewrite IH, hexAppend_spec, !append_assoc.
Qed.

Lemma trimEnd_hexByte (b : byte) : trimEnd (spec_hexByte b ++ " ") = spec_hexByte b.
Proof. destruct b; reflexivity. Qed.

Lemma hexByte_cons (b : byte) : exists c r, spec_hexByte b = String c r.
Proof. unfold spec_hexByte. eauto. Qed.

Lemma trimEnd_spaced (b : byte) (bytes : list byte) :
  trimEnd (spaced (b :: bytes)) = join " " (spec_hexByte <$> (b :: bytes))
  /\ trimEnd (spaced (b :: bytes)) <> "".
Proof.
  revert b. induction bytes as [|b' bytes IH]; intros b.
  - cbn [spaced fmap list_fmap join].
    replace ((spec_hexByte b ++ " ") ++ "") with (spec_hexByte b ++ " ")
      by (destruct b; reflexivity).
    rewrite trimEnd_hexByte. split; [reflexivity|].
    destruct (hexByte_cons b) as (c & r & ->). discriminate.
  - destruct (IH b') as [Heq Hne].
    change (spaced (b :: b' :: bytes))
      with ((spec_hexByte b ++ " ") ++ spaced (b' :: bytes)).
    rewrite trimEnd_app_nonempty by exact Hne.
    rewrite Heq. split.
    + change (spec_hexByte <$> b :: b' :: bytes)
        with (spec_hexByte b :: (spec_hexByte <$> b' :: bytes)).
      cbn [fmap list_fmap join]. now rewrite append_assoc.
    + destruct (hexByte_cons b) as (c & r & ->).
      rewrite !append_cons. discriminate.
Qed.

Lemma trim_rendered (b : byte) (bytes : list byte) :
  trim ("0x" ++ spaced (b :: bytes)) = spec_hexString (b :: bytes).
Proof.
  destruct (trimEnd_spaced b bytes) as [Heq Hne].
  unfold trim, spec_hexString.
  change (trimStart ("0x" ++ spaced (b :: bytes)))
    with ("0x" ++ spaced (b :: bytes)).
  now rewrite trimEnd_app_nonempty, Heq.
Qed.

Lemma dataViewToHexString_view (b : byte) (bytes : list byte) :
  dataViewToHexString (dv_view (b :: bytes)) = Normal (spec_hexString (b :: bytes)).
Proof.
  unfold dataViewToHexString.
  change (length (b :: bytes) =? 0)%nat with false. cbv iota.
  now rewrite fold_hexAppend, trim_rendered.
Qed.

(** The payload handed to the handler is never the empty string. *)
Lemma dataViewToHexString_truthy (dv : DataViewArg) (payload : string) :
  dataViewToHexString dv = Normal payload -> truthy payload = true.
Proof.
  destruct dv as [|[|b bytes]|e]; try (intros [= <-]; reflexivity).
  rewrite dataViewToHexString_view. now intros [= <-].
Qed.

End Rendering.

(** C4 (as stated): the sentinel of the code is the German text, not
    "N/A (empty payload)". *)
Lemma dataViewToHexString_sentinel_text :
  dataViewToHexString (dv_view []) = Js.Normal "N/A (leere Payload)"
  /\ dataViewToHexString (dv_view []) <> Js.Normal "N/A (empty payload)"
  /\ dataViewToHexString dv_absent <> Js.Normal "N/A (empty payload)".
Proof. repeat split; discriminate. Qed.

(** C4 (amended): every non-empty byte sequence renders as "0x" followed
    by its bytes as two upper-case hexadecimal digits each, separated by
    single spaces ([04 37] gives "0x04 37"); the empty and the absent byte
    sequence render as the sentinel "N/A (leere Payload)". *)
Theorem dataViewToHexString_renders :
  (forall bytes : list byte,
      dataViewToHexString (dv_view bytes)
      = Js.Normal (match bytes with
                   | [] => "N/A (leere Payload)"
                   | _ => spec_hexString bytes
                   end))
  /\ dataViewToHexString dv_absent = Js.Normal "N/A (leere Payload)"
  /\ dataViewToHexString (dv_view [x04; x37]) = Js.Normal "0x04 37".
Proof.
  split; [|split; reflexivity].
  intros [|b bytes]; [reflexivity|apply dataViewToHexString_view].
Qed.

(** ** Freshness *)

Lemma ledStatus_green (CONFIG : Config) (diffMs : Z) :
  diffMs < ACTIVE_MS (LED_STATUS CONFIG) ->
  fst (ledStatus CONFIG diffMs) = "led-green".
Proof.
  intros H. unfold ledStatus.
  destruct (Z.ltb_spec diffMs (ACTIVE_MS (LED_STATUS CONFIG))); [reflexivity|lia].
Qed.

Lemma ledStatus_yellow (CONFIG : Config) (diffMs : Z) :
  ACTIVE_MS (LED_STATUS CONFIG) <= diffMs < INACTIVE_MS (LED_STATUS CONFIG) ->
  fst (ledStatus CONFIG diffMs) = "led-yellow".
Proof.
  intros H. unfold ledStatus.
  destruct (Z.ltb_spec diffMs (ACTIVE_MS (LED_STATUS CONFIG))); [lia|].
  destruct (Z.ltb_spec diffMs (INACTIVE_MS (LED_STATUS CONFIG))); [reflexivity|lia].
Qed.

Lemma ledStatus_red (CONFIG : Config) (diffMs : Z) :
  ACTIVE_MS (LED_STATUS CONFIG) <= diffMs ->
  INACTIVE_MS (LED_STATUS CONFIG) <= diffMs ->
  fst (ledStatus CONFIG diffMs) = "led-red".
Proof.
  intros H1 H2. unfold ledStatus.
  destruct (Z.ltb_spec diffMs (ACTIVE_MS (LED_STATUS CONFIG))); [lia|].
  destruct (Z.ltb_spec diffMs (INACTIVE_MS (LED_STATUS CONFIG))); [lia|reflexivity].
Qed.

(** The LED class written on a tile is the class of [ledStatus]. *)
Lemma updateSingleAssetStatus_led (CONFIG : Config) (asset : FtsAsset.t)
    (d : Dom.t) (now : Z) :
  FtsAsset.dom asset = Some d ->
  ledOf (updateSingleAssetStatus CONFIG asset now)
  = Some ("led " ++ fst (ledStatus CONFIG (now - FtsAsset.lastSeen asset))).
Proof.
  intros Hd. unfold updateSingleAssetStatus, ledOf. rewrite Hd.
  now destruct (ledStatus CONFIG (now - FtsAsset.lastSeen asset)).
Qed.

(** The three bands with the thresholds of config.js. *)
Lemma ledStatus_bands (diffMs : Z) :
  (diffMs < 5000 /\ fst (ledStatus CONFIG_js diffMs) = "led-green")
  \/ (5000 <= diffMs < 30000 /\ fst (ledStatus CONFIG_js diffMs) = "led-yellow")
  \/ (30000 <= diffMs /\ fst (ledStatus CONFIG_js diffMs) = "led-red").
Proof.
  destruct (Z.lt_ge_cases diffMs 5000) as [H|H].
  - left. split; [exact H|]. now apply ledStatus_green.
  - destruct (Z.lt_ge_cases diffMs 30000) as [H'|H'].
    + right; left. split; [lia|]. now apply ledStatus_yellow.
    + right; right. split; [exact H'|]. now apply ledStatus_red.
Qed.

(** ** The registry under the handlers *)

Section Registry.
Variable CONFIG : Config.

Lemma updateSingleAssetStatus_sameData (asset : FtsAsset.t) (now : Z) :
  sameData asset (updateSingleAssetStatus CONFIG asset now).
Proof.
  unfold updateSingleAssetStatus, sameData.
  destruct (FtsAsset.dom asset); [|tauto].
  destruct (ledStatus CONFIG _). simpl. tauto.
Qed.

Lemma sameData_trans (a b c : FtsAsset.t) :
  sameData a b -> sameData b c -> sameData a c.
Proof. unfold sameData. intuition congruence. Qed.

Lemma sameData_set_dom (a : FtsAsset.t) (d : option Dom.t) :
  sameData a (FtsAsset.set_dom d a).
Proof. unfold sameData. simpl. tauto. Qed.

Lemma updateFtsTile_sameData (asset : FtsAsset.t) (s : State) :
  sameData asset (fst (updateFtsTile CONFIG asset s)).
Proof.
  unfold updateFtsTile. destruct (FtsAsset.dom asset); simpl.
  - eapply sameData_trans; [|apply updateSingleAssetStatus_sameData].
    apply sameData_set_dom.
  - unfold sameData; tauto.
Qed.

(** A handler leaves the variables of the program alone when it only
    reads the clock. *)
Lemma updateFtsTile_state (asset : FtsAsset.t) (s : State) :
  snd (updateFtsTile CONFIG asset s)
  = match FtsAsset.dom asset with
    | Some _ => snd (newDate s)
    | None => s
    end.
Proof. unfold updateFtsTile. now destruct (FtsAsset.dom asset). Qed.

Lemma createFtsTile_sameData (asset : FtsAsset.t) (s : State) :
  sameData asset (fst (createFtsTile CONFIG asset s)).
Proof.
  unfold createFtsTile.
  destruct (updateFtsTile CONFIG _ _) as [a' s'] eqn:E. simpl.
  eapply sameData_trans; [|apply updateSingleAssetStatus_sameData].
  eapply sameData_trans; [apply sameData_set_dom|].
  replace a' with (fst (updateFtsTile CONFIG
     (FtsAsset.set_dom (Some (Dom.mk "led" (FtsAsset.name asset) "..." "rssi-bar" "..." "...")) asset)
     (set_cockpitGrid (cockpitGrid s ++ [FtsAsset.id (FtsAsset.set_dom (Some (Dom.mk "led" (FtsAsset.name asset) "..." "rssi-bar" "..." "...")) asset)]) s))) by now rewrite E.
  apply updateFtsTile_sameData.
Qed.

Ltac simpl_handler := cbn -[updateFtsTile createFtsTile insert lookup].

Lemma updateFtsTile_registry (asset : FtsAsset.t) (s : State) :
  detectedAssets (snd (updateFtsTile CONFIG asset s)) = detectedAssets s.
Proof. rewrite updateFtsTile_state. now destruct (FtsAsset.dom asset). Qed.

Lemma createFtsTile_registry (asset : FtsAsset.t) (s : State) :
  detectedAssets (snd (createFtsTile CONFIG asset s)) = detectedAssets s.
Proof.
  unfold createFtsTile.
  destruct (updateFtsTile CONFIG _ _) as [a' s'] eqn:E. simpl.
  change s' with (snd (a', s')). rewrite <- E.
  now rewrite updateFtsTile_registry.
Qed.

Lemma warnings_state (ws : list string) (s : State) :
  fold_left (fun s w => warn w s) ws s
  = set_console (console s ++ ((fun w => (WARN, w)) <$> ws)) s.
Proof.
  revert s. induction ws as [|w ws IH]; intros s; simpl.
  - rewrite app_nil_r. now destruct s.
  - rewrite IH. unfold warn, say, set_console. simpl.
    now rewrite <- app_assoc.
Qed.

(** What [handleAdvertisement] does to the registry. *)
Lemma handleAdvertisement_unmatched (event : Event.t) (s : State) :
  matched CONFIG event = false ->
  detectedAssets (handleAdvertisement CONFIG event s) = detectedAssets s.
Proof.
  unfold matched, handleAdvertisement. simpl.
  destruct (extractRelevantPayload CONFIG event) as [ws [[payload profile]|]];
    simpl; rewrite warnings_state.
  - intros ->. reflexivity.
  - reflexivity.
Qed.

Lemma handleAdvertisement_known (event : Event.t) (s : State) (a : FtsAsset.t) :
  matched CONFIG event = true ->
  detectedAssets s !! Event.device_id event = Some a ->
  exists a',
    detectedAssets (handleAdvertisement CONFIG event s)
    = <[Event.device_id event := a']> (detectedAssets s)
    /\ FtsAsset.id a' = FtsAsset.id a
    /\ FtsAsset.profileName a' = FtsAsset.profileName a
    /\ FtsAsset.name a' = FtsAsset.name a
    /\ FtsAsset.rssi a' = Event.rssi event
    /\ FtsAsset.rssiHistory a' = pushHistory (FtsAsset.rssiHistory a) (Event.rssi event).
Proof.
  unfold matched, handleAdvertisement. simpl_handler.
  destruct (extractRelevantPayload CONFIG event) as [ws [[payload profile]|]];
    simpl_handler; [|discriminate].
  rewrite warnings_state. intros -> Ha. simpl_handler. rewrite Ha.
  match goal with |- context [updateFtsTile CONFIG ?x ?y] =>
    pose proof (updateFtsTile_sameData x y) as Hs;
    pose proof (updateFtsTile_registry x y) as Hr;
    destruct (updateFtsTile CONFIG x y) as [a' s'] end.
  simpl in *. exists a'. rewrite Hr.
  unfold sameData in Hs. simpl in Hs. intuition congruence.
Qed.

Lemma handleAdvertisement_new (event : Event.t) (s : State) :
  matched CONFIG event = true ->
  detectedAssets s !! Event.device_id event = None ->
  exists a' payload profile,
    snd (extractRelevantPayload CONFIG event) = Some (payload, profile)
    /\ detectedAssets (handleAdvertisement CONFIG event s)
       = <[Event.device_id event := a']> (detectedAssets s)
    /\ FtsAsset.id a' = Event.device_id event
    /\ FtsAsset.profileName a' = Profile.profileName profile
    /\ FtsAsset.rssi a' = Event.rssi event
    /\ FtsAsset.rssiHistory a' = [Event.rssi event].
Proof.
  unfold matched, handleAdvertisement. simpl_handler.
  destruct (extractRelevantPayload CONFIG event) as [ws [[payload profile]|]];
    simpl_handler; [|discriminate].
  rewrite warnings_state. intros -> Ha. simpl_handler. rewrite Ha.
  match goal with |- context [createFtsTile CONFIG ?x ?y] =>
    pose proof (createFtsTile_sameData x y) as Hs;
    pose proof (createFtsTile_registry x y) as Hr;
    destruct (createFtsTile CONFIG x y) as [a' s'] end.
  simpl in *. exists a', payload, profile. rewrite Hr. simpl.
  rewrite insert_insert_eq.
  unfold sameData in Hs.
  destruct (localStorage s !! _) as [saved|]; [destruct (Js.truthy saved)|];
    simpl in Hs; intuition congruence.
Qed.

Lemma storeNickname_registry (setItem : option Js.Error) (asset : FtsAsset.t)
    (s : State) :
  detectedAssets (storeNickname setItem asset s) = detectedAssets s.
Proof. unfold storeNickname. now destruct setItem. Qed.

(** The two outcomes of [saveNickname] on an inspected asset. *)
Lemma saveNickname_invalid (setItem : option Js.Error) (s : State)
    (d : string) (asset : FtsAsset.t) :
  currentInspectedId s = Some d -> Js.truthy d = true ->
  detectedAssets s !! d = Some asset ->
  inspectorName s = "" \/ Js.trim (inspectorName s) = "" ->
  saveNickname CONFIG setItem s
  = warn "Speichern fehlgeschlagen: Nickname darf nicht leer sein." s.
Proof.
  intros Hc Ht Ha Hn. unfold saveNickname. rewrite Hc, Ht, Ha. simpl_handler.
  destruct Hn as [->| ->]; [reflexivity|].
  now rewrite andb_false_r.
Qed.

Lemma saveNickname_valid (setItem : option Js.Error) (s : State)
    (d : string) (asset : FtsAsset.t) :
  currentInspectedId s = Some d -> Js.truthy d = true ->
  detectedAssets s !! d = Some asset ->
  inspectorName s <> "" -> Js.trim (inspectorName s) <> "" ->
  let renamed := FtsAsset.set_name (Js.trim (inspectorName s)) asset in
  let stored := storeNickname setItem renamed s in
  saveNickname CONFIG setItem s
  = hideInspectorModal
      (set_detectedAssets
         (<[d := fst (updateFtsTile CONFIG renamed stored)]> (detectedAssets s))
         (snd (updateFtsTile CONFIG renamed stored))).
Proof.
  intros Hc Ht Ha Hn Hn' renamed stored.
  assert (Htr : Js.truthy (inspectorName s) = true)
    by (destruct (inspectorName s); [contradiction|reflexivity]).
  assert (He : String.eqb (Js.trim (inspectorName s)) "" = false)
    by now apply String.eqb_neq.
  assert (Hr : detectedAssets (snd (updateFtsTile CONFIG renamed stored))
               = detectedAssets s)
    by (rewrite updateFtsTile_registry; apply storeNickname_registry).
  unfold saveNickname. rewrite Hc, Ht. cbn [negb]. rewrite Ha.
  cbv zeta. rewrite Htr, He. cbn [negb andb].
  fold renamed. fold stored.
  destruct (updateFtsTile CONFIG renamed stored) as [a' s'].
  cbn [fst snd] in *. now rewrite Hr.
Qed.

Lemma saveNickname_registry (setItem : option Js.Error) (s : State) :
  detectedAssets (saveNickname CONFIG setItem s) = detectedAssets s
  \/ exists d a a',
      detectedAssets s !! d = Some a
      /\ detectedAssets (saveNickname CONFIG setItem s)
         = <[d := a']> (detectedAssets s)
      /\ sameRecord a a'.
Proof.
  destruct (currentInspectedId s) as [d|] eqn:Hc;
    [|left; unfold saveNickname; now rewrite Hc].
  destruct (Js.truthy d) eqn:Ht;
    [|left; unfold saveNickname; now rewrite Hc, Ht].
  destruct (detectedAssets s !! d) as [a|] eqn:Ha;
    [|left; unfold saveNickname; now rewrite Hc, Ht, Ha].
  destruct (decide (inspectorName s = "")) as [Hn|Hn];
    [left; now erewrite saveNickname_invalid by eauto|].
  destruct (decide (Js.trim (inspectorName s) = "")) as [Hn'|Hn'];
    [left; now erewrite saveNickname_invalid by eauto|].
  right. exists d, a. eexists. split; [exact Ha|].
  rewrite (saveNickname_valid setItem s d a) by assumption.
  split; [reflexivity|].
  match goal with |- sameRecord _ (fst (updateFtsTile CONFIG ?x ?y)) =>
    pose proof (updateFtsTile_sameData x y) as Hs end.
  unfold sameData, sameRecord in *. simpl in Hs. intuition congruence.
Qed.

Lemma startScan_request_registry (s : State) :
  detectedAssets (fst (startScan_request CONFIG s)) = detectedAssets s.
Proof.
  unfold startScan_request. simpl.
  destruct (bluetooth s); [|reflexivity]. simpl.
  destruct (buildFilters (FTS_PROFILES CONFIG)) as [ws fs].
  rewrite warnings_state. simpl.
  now destruct (length fs =? 0)%nat.
Qed.

Lemma startScan_settled_registry (answer : Js.Completion BluetoothLEScan)
    (s : State) :
  detectedAssets (startScan_settled answer s) = detectedAssets s.
Proof.
  unfold startScan_settled, setButton.
  destruct (btnStartScan s) eqn:Hb; destruct (tickerInterval s) eqn:Ht;
    (destruct answer as [sc|e];
     [|destruct (String.eqb (Js.name e) "AbortError")]);
    simpl; rewrite ?Hb; simpl; rewrite ?Ht; reflexivity.
Qed.

Lemma startScan_registry (answer : Js.Completion BluetoothLEScan) (s : State) :
  detectedAssets (startScan CONFIG answer s) = detectedAssets s.
Proof.
  unfold startScan. pose proof (startScan_request_registry s) as H.
  destruct (startScan_request CONFIG s) as [s' [|]]; simpl in H;
    [now rewrite startScan_settled_registry|exact H].
Qed.

Lemma stopScan_registry (stop : option Js.Error) (s : State) :
  detectedAssets (stopScan stop s) = detectedAssets s.
Proof.
  unfold stopScan, setButton.
  destruct stop; [reflexivity|]. simpl.
  destruct (btnStartScan s); simpl; now destruct (tickerInterval s).
Qed.

Lemma toggleScan_registry (stop : option Js.Error)
    (answer : Js.Completion BluetoothLEScan) (s : State) :
  detectedAssets (toggleScan CONFIG stop answer s) = detectedAssets s.
Proof.
  unfold toggleScan.
  destruct (btnStartScan s); [|reflexivity].
  destruct (scanActive s); [apply stopScan_registry|apply startScan_registry].
Qed.

Lemma toggleScan_request_registry (stop : option Js.Error) (s : State) :
  detectedAssets (toggleScan_request CONFIG stop s) = detectedAssets s.
Proof.
  unfold toggleScan_request.
  destruct (btnStartScan s); [|reflexivity].
  destruct (scanActive s); [apply stopScan_registry|apply startScan_request_registry].
Qed.

Lemma scanSettles_registry (answer : Js.Completion BluetoothLEScan) (s : State) :
  detectedAssets (scanSettles answer s) = detectedAssets s.
Proof.
  unfold scanSettles.
  destruct (pendingScans s); [reflexivity|apply startScan_settled_registry].
Qed.

Lemma handleAdvertisement_other (event : Event.t) (s : State) (d : string) :
  Event.device_id event <> d ->
  detectedAssets (handleAdvertisement CONFIG event s) !! d = detectedAssets s !! d.
Proof.
  intros Hne. destruct (matched CONFIG event) eqn:Hm.
  - destruct (detectedAssets s !! Event.device_id event) as [a|] eqn:Ha.
    + destruct (handleAdvertisement_known event s a Hm Ha) as (a' & -> & _).
      now apply lookup_insert_ne.
    + destruct (handleAdvertisement_new event s Hm Ha) as (a' & ? & ? & _ & -> & _).
      now apply lookup_insert_ne.
  - now rewrite handleAdvertisement_unmatched.
Qed.

(** An event that is not a matched observation of an identity keeps
    the record of its asset, and creates none. *)
Lemma step_unobserved (s : State) (op : Op) (d : string) :
  observed CONFIG d op = None ->
  match detectedAssets s !! d with
  | Some a => exists a', detectedAssets (step CONFIG s op) !! d = Some a'
                         /\ FtsAsset.id a' = FtsAsset.id a
                         /\ FtsAsset.profileName a' = FtsAsset.profileName a
                         /\ FtsAsset.rssiHistory a' = FtsAsset.rssiHistory a
  | None => detectedAssets (step CONFIG s op) !! d = None
  end.
Proof.
  intros Hobs.
  assert (Hsame : detectedAssets (step CONFIG s op) !! d = detectedAssets s !! d ->
    match detectedAssets s !! d with
    | Some a => exists a', detectedAssets (step CONFIG s op) !! d = Some a'
                           /\ FtsAsset.id a' = FtsAsset.id a
                           /\ FtsAsset.profileName a' = FtsAsset.profileName a
                           /\ FtsAsset.rssiHistory a' = FtsAsset.rssiHistory a
    | None => detectedAssets (step CONFIG s op) !! d = None
    end).
  { intros ->. destruct (detectedAssets s !! d); eauto. }
  destruct op as [event| |deviceId| |text|setItem|stop answer|stop|answer];
    cbn [step] in *.
  - cbn [observed] in Hobs. apply Hsame.
    destruct (matched CONFIG event) eqn:Hm.
    + destruct (String.eqb_spec (Event.device_id event) d); [discriminate|].
      now apply handleAdvertisement_other.
    + now rewrite handleAdvertisement_unmatched.
  - clear Hsame. unfold updateAllAssetStatus. cbn. rewrite lookup_fmap.
    destruct (detectedAssets s !! d) as [a|]; [|reflexivity].
    cbn. eexists. split; [reflexivity|].
    pose proof (updateSingleAssetStatus_sameData a (clock s 0%nat)) as Hs.
    unfold sameData in Hs. intuition congruence.
  - apply Hsame. unfold showInspectorModal.
    now destruct (detectedAssets s !! deviceId).
  - now apply Hsame.
  - now apply Hsame.
  - destruct (saveNickname_registry setItem s) as [Heq|(d' & a & a' & Ha & Heq & Hs)].
    + apply Hsame. now rewrite Heq.
    + clear Hsame. rewrite Heq. destruct (decide (d' = d)) as [->|Hne].
      * rewrite Ha, lookup_insert_eq. exists a'.
        unfold sameRecord in Hs. intuition congruence.
      * rewrite lookup_insert_ne by exact Hne.
        destruct (detectedAssets s !! d); eauto.
  - apply Hsame. now rewrite toggleScan_registry.
  - apply Hsame. now rewrite toggleScan_request_registry.
  - apply Hsame. now rewrite scanSettles_registry.
Qed.

(** A matched observation of an identity appends to the history of its
    asset, or creates the asset with a history of one. *)
Lemma step_observed (s : State) (op : Op) (d : string) (r : Z) :
  observed CONFIG d op = Some r ->
  exists a', detectedAssets (step CONFIG s op) !! d = Some a'
    /\ match detectedAssets s !! d with
       | Some a => FtsAsset.id a' = FtsAsset.id a
                   /\ FtsAsset.profileName a' = FtsAsset.profileName a
                   /\ FtsAsset.rssiHistory a' = pushHistory (FtsAsset.rssiHistory a) r
       | None => FtsAsset.id a' = d /\ FtsAsset.rssiHistory a' = [r]
       end.
Proof.
  destruct op as [event| | | | | | | |]; try discriminate. cbn [observed step].
  destruct (matched CONFIG event) eqn:Hm; [|discriminate].
  destruct (String.eqb_spec (Event.device_id event) d) as [<-|]; [|discriminate].
  intros [= <-].
  destruct (detectedAssets s !! Event.device_id event) as [a|] eqn:Ha.
  - destruct (handleAdvertisement_known event s a Hm Ha) as (a' & -> & H).
    exists a'. rewrite lookup_insert_eq. intuition.
  - destruct (handleAdvertisement_new event s Hm Ha)
      as (a' & payload & profile & _ & -> & H).
    exists a'. rewrite lookup_insert_eq. intuition.
Qed.

Lemma pushHistory_newest (obs : list Z) (r : Z) :
  pushHistory (newest 20 obs) r = newest 20 (obs ++ [r]).
Proof.
  unfold pushHistory, newest.
  rewrite !length_app, length_drop. cbn [length].
  destruct (Nat.ltb_spec 20 (length obs - (length obs - 20) + 1)) as [Hlt|Hge].
  - assert (Hlen : (20 <= length obs)%nat) by lia.
    replace (length obs + 1 - 20)%nat with ((length obs - 20) + 1)%nat by lia.
    rewrite <- drop_drop, (drop_app_le obs) by lia.
    now destruct (drop (length obs - 20) obs ++ [r])%list.
  - replace (length obs - 20)%nat with 0%nat by lia.
    replace (length obs + 1 - 20)%nat with 0%nat by lia.
    reflexivity.
Qed.

Lemma newest_length {A} (n : nat) (l : list A) :
  length (newest n l) = Nat.min n (length l).
Proof. unfold newest. rewrite length_drop. lia. Qed.

Lemma observations_snoc (d : string) (ops : list Op) (op : Op) :
  observations CONFIG d (ops ++ [op])
  = (observations CONFIG d ops
     ++ match observed CONFIG d op with Some r => [r] | None => [] end)%list.
Proof.
  unfold observations. rewrite omap_app. cbn.
  now destruct (observed CONFIG d op).
Qed.

Lemma run_snoc (ops : list Op) (op : Op) (s : State) :
  run CONFIG (ops ++ [op]) s = step CONFIG (run CONFIG ops s) op.
Proof. unfold run. now rewrite fold_left_app. Qed.

(** The invariant of the history: the asset of an identity exists once
    the identity has been observed, and its history is the newest 20 of
    the observations. *)
Lemma history_invariant (ops : list Op) (s : State) (d : string) :
  detectedAssets s = ∅ ->
  match detectedAssets (run CONFIG ops s) !! d with
  | Some a => observations CONFIG d ops <> []
              /\ FtsAsset.rssiHistory a = newest 20 (observations CONFIG d ops)
  | None => observations CONFIG d ops = []
  end.
Proof.
  intros Hempty. induction ops as [|op ops IH] using rev_ind.
  - cbn. now rewrite Hempty, lookup_empty.
  - rewrite run_snoc, observations_snoc.
    destruct (observed CONFIG d op) as [r|] eqn:Hobs.
    + destruct (step_observed (run CONFIG ops s) op d r Hobs) as (a' & -> & H).
      split; [now destruct (observations CONFIG d ops)|].
      destruct (detectedAssets (run CONFIG ops s) !! d) as [a|].
      * destruct H as (_ & _ & ->), IH as [_ ->]. apply pushHistory_newest.
      * destruct H as [_ ->]. now rewrite IH.
    + rewrite app_nil_r.
      pose proof (step_unobserved (run CONFIG ops s) op d Hobs) as H.
      destruct (detectedAssets (run CONFIG ops s) !! d) as [a|].
      * destruct H as (a' & -> & _ & _ & ->). exact IH.
      * now rewrite H.
Qed.

Lemma tryProfile_truthy (event : Event.t) (profile found : Profile.t)
    (payload : string) :
  tryProfile event profile = Js.Normal (Some (payload, found)) ->
  Js.truthy payload = true /\ found = profile.
Proof.
  unfold tryProfile.
  repeat match goal with
         | |- context [if ?b then _ else _] => destruct b
         | |- context [match ?x with _ => _ end] => destruct x eqn:?
         end; try discriminate; intros [= <- <-];
    (split; [eapply dataViewToHexString_truthy; eassumption|reflexivity]).
Qed.

(** The Profile Matcher hands over the pair of the first profile, in
    declared order, whose [try] returns; its payload is not empty. *)
Lemma extractFrom_found (profiles : list Profile.t) (event : Event.t)
    (payload : string) (found : Profile.t) :
  snd (extractFrom profiles event) = Some (payload, found) ->
  Js.truthy payload = true /\ found ∈ profiles.
Proof.
  induction profiles as [|profile rest IH]; cbn [extractFrom]; [discriminate|].
  destruct (tryProfile event profile) as [[[p f]|]|e] eqn:Ht.
  - cbn. intros [= -> ->]. apply tryProfile_truthy in Ht as [? ->].
    split; [assumption|apply list_elem_of_here].
  - intros H. destruct (IH H). split; [assumption|now apply list_elem_of_further].
  - destruct (extractFrom rest event) as [ws r]. cbn in *.
    intros H. destruct (IH H). split; [assumption|now apply list_elem_of_further].
Qed.

Lemma matched_found (event : Event.t) (payload : string) (profile : Profile.t) :
  snd (extractRelevantPayload CONFIG event) = Some (payload, profile) ->
  matched CONFIG event = true.
Proof.
  intros H. unfold matched. rewrite H.
  now apply (extractFrom_found (FTS_PROFILES CONFIG) event payload profile).
Qed.

Lemma profileName_invariant (ops : list Op) (s : State) (d : string)
    (a : FtsAsset.t) :
  detectedAssets s !! d = Some a ->
  exists a', detectedAssets (run CONFIG ops s) !! d = Some a'
             /\ FtsAsset.profileName a' = FtsAsset.profileName a.
Proof.
  intros Ha. induction ops as [|op ops IH] using rev_ind; [now exists a|].
  destruct IH as (a1 & H1 & Hp). rewrite run_snoc.
  destruct (observed CONFIG d op) as [r|] eqn:Hobs.
  - destruct (step_observed (run CONFIG ops s) op d r Hobs) as (a' & -> & H).
    rewrite H1 in H. exists a'. intuition congruence.
  - pose proof (step_unobserved (run CONFIG ops s) op d Hobs) as H.
    rewrite H1 in H. destruct H as (a' & -> & H). exists a'. intuition congruence.
Qed.

End Registry.

(** ** Discarded advertisements, histories and profile names *)

(** C7: when the Profile Matcher finds no profile for an advertisement
    (also when the extraction threw for every profile whose key is there),
    the handler only reads the clock and logs the warnings: the registry,
    with every field of every asset, the grid of tiles and the label store
    are as before. *)
Theorem unmatched_advertisement_is_discarded (CONFIG : Config)
    (event : Event.t) (s : State) :
  snd (extractRelevantPayload CONFIG event) = None ->
  handleAdvertisement CONFIG event s
  = set_console
      (console s ++ ((fun w => (WARN, w)) <$> fst (extractRelevantPayload CONFIG event)))
      (snd (newDate s))
  /\ detectedAssets (handleAdvertisement CONFIG event s) = detectedAssets s
  /\ cockpitGrid (handleAdvertisement CONFIG event s) = cockpitGrid s
  /\ localStorage (handleAdvertisement CONFIG event s) = localStorage s.
Proof.
  intros Hnone.
  assert (Heq : handleAdvertisement CONFIG event s
                = set_console
                    (console s ++ ((fun w => (WARN, w))
                                     <$> fst (extractRelevantPayload CONFIG event)))
                    (snd (newDate s))).
  { unfold handleAdvertisement. cbn [newDate].
    destruct (extractRelevantPayload CONFIG event) as [ws r].
    cbn [fst snd] in *. subst r. now rewrite warnings_state. }
  rewrite Heq. repeat split.
Qed.

Lemma unmatched_advertisement_is_discarded_witness :
  snd (extractRelevantPayload CONFIG_js (adv_detached "AGV-7" (-60))) = None
  /\ detectedAssets
       (handleAdvertisement CONFIG_js (adv_detached "AGV-7" (-60))
          (run CONFIG_js (burst "AGV-7" 3) (page0 0)))
     = detectedAssets (run CONFIG_js (burst "AGV-7" 3) (page0 0)).
Proof.
  split; [reflexivity|].
  apply (unmatched_advertisement_is_discarded CONFIG_js
           (adv_detached "AGV-7" (-60))
           (run CONFIG_js (burst "AGV-7" 3) (page0 0))).
  reflexivity.
Defined.

(** An advertisement with foreign service and company identifiers only
    finds no profile, without a warning; one whose extraction throws for
    both profiles finds none either, with a warning per profile. *)
Example extractRelevantPayload_no_match :
  extractRelevantPayload CONFIG_js (adv_foreign "AGV-7" (-60)) = ([], None)
  /\ snd (extractRelevantPayload CONFIG_js (adv_detached "AGV-7" (-60))) = None
  /\ length (fst (extractRelevantPayload CONFIG_js (adv_detached "AGV-7" (-60)))) = 2%nat.
Proof. repeat split. Qed.

(** C2: starting from an empty registry, after every run of events the
    asset of an identity exists exactly when the identity has been
    observed; its history is then the newest 20 of the signal strengths
    observed, in order and newest last, so that its length is the minimum
    of 20 and the number of observations, and never above 20. *)
Theorem rssiHistory_newest_20 (CONFIG : Config) (ops : list Op) (s : State)
    (deviceId : string) :
  detectedAssets s = ∅ ->
  match detectedAssets (run CONFIG ops s) !! deviceId with
  | Some asset =>
      observations CONFIG deviceId ops <> []
      /\ FtsAsset.rssiHistory asset = newest 20 (observations CONFIG deviceId ops)
      /\ FtsAsset.rssiHistory asset `suffix_of` observations CONFIG deviceId ops
      /\ length (FtsAsset.rssiHistory asset)
         = Nat.min 20 (length (observations CONFIG deviceId ops))
      /\ (length (FtsAsset.rssiHistory asset) <= 20)%nat
  | None => observations CONFIG deviceId ops = []
  end.
Proof.
  intros Hempty.
  pose proof (history_invariant CONFIG ops s deviceId Hempty) as H.
  destruct (detectedAssets (run CONFIG ops s) !! deviceId) as [asset|]; [|exact H].
  destruct H as [Hne ->]. repeat split.
  - exact Hne.
  - apply suffix_drop.
  - apply newest_length.
  - rewrite newest_length. lia.
Qed.

Lemma rssiHistory_newest_20_witness :
  detectedAssets (page0 0) = ∅
  /\ match detectedAssets (run CONFIG_js (burst "AGV-7" 23) (page0 0)) !! "AGV-7" with
     | Some asset =>
         observations CONFIG_js "AGV-7" (burst "AGV-7" 23) <> []
         /\ FtsAsset.rssiHistory asset
            = newest 20 (observations CONFIG_js "AGV-7" (burst "AGV-7" 23))
         /\ FtsAsset.rssiHistory asset
              `suffix_of` observations CONFIG_js "AGV-7" (burst "AGV-7" 23)
         /\ length (FtsAsset.rssiHistory asset)
            = Nat.min 20 (length (observations CONFIG_js "AGV-7" (burst "AGV-7" 23)))
         /\ (length (FtsAsset.rssiHistory asset) <= 20)%nat
     | None => observations CONFIG_js "AGV-7" (burst "AGV-7" 23) = []
     end.
Proof.
  split; [reflexivity|].
  apply (rssiHistory_newest_20 CONFIG_js (burst "AGV-7" 23) (page0 0) "AGV-7").
  reflexivity.
Defined.

(** After 23 observations the history holds the last 20, oldest first. *)
Example rssiHistory_after_23 :
  FtsAsset.rssiHistory
    <$> detectedAssets (run CONFIG_js (burst "AGV-7" 23) (page0 0)) !! "AGV-7"
  = Some [-4; -5; -6; -7; -8; -9; -10; -11; -12; -13;
          -14; -15; -16; -17; -18; -19; -20; -21; -22; -23].
Proof. vm_compute. reflexivity. Qed.

(** C3: the asset created for the first matched observation of an
    identity carries the name of the profile the matcher returned for it,
    and whatever events follow (observations matching any profile, label
    edits, status sweeps, scan clicks) the asset of an identity keeps the
    profile name it has. *)
Theorem profileName_set_once (CONFIG : Config) :
  (forall (event : Event.t) (s : State) (payload : string) (profile : Profile.t),
      detectedAssets s !! Event.device_id event = None ->
      snd (extractRelevantPayload CONFIG event) = Some (payload, profile) ->
      exists asset,
        detectedAssets (handleAdvertisement CONFIG event s) !! Event.device_id event
        = Some asset
        /\ FtsAsset.profileName asset = Profile.profileName profile)
  /\ (forall (ops : list Op) (s : State) (deviceId : string) (asset : FtsAsset.t),
         detectedAssets s !! deviceId = Some asset ->
         exists asset',
           detectedAssets (run CONFIG ops s) !! deviceId = Some asset'
           /\ FtsAsset.profileName asset' = FtsAsset.profileName asset).
Proof.
  split.
  - intros event s payload profile Hnew Hfound.
    destruct (handleAdvertisement_new CONFIG event s
                (matched_found CONFIG event payload profile Hfound) Hnew)
      as (a' & payload' & profile' & Hfound' & -> & _ & Hname & _).
    exists a'. rewrite lookup_insert_eq. split; [reflexivity|].
    congruence.
  - intros ops s deviceId asset. apply profileName_invariant.
Qed.

(** ** Label edits *)

Section Labels.
Variable CONFIG : Config.

Lemma updateFtsTile_browser (asset : FtsAsset.t) (s : State) :
  console (snd (updateFtsTile CONFIG asset s)) = console s
  /\ localStorage (snd (updateFtsTile CONFIG asset s)) = localStorage s
  /\ setItemRequests (snd (updateFtsTile CONFIG asset s)) = setItemRequests s.
Proof. rewrite updateFtsTile_state. now destruct (FtsAsset.dom asset). Qed.

(** What a valid label edit leaves behind. *)
Lemma saveNickname_valid_effect (setItem : option Js.Error) (s : State)
    (d : string) (asset : FtsAsset.t) :
  currentInspectedId s = Some d -> Js.truthy d = true ->
  detectedAssets s !! d = Some asset ->
  Js.trim (inspectorName s) <> "" ->
  let s' := saveNickname CONFIG setItem s in
  let label := Js.trim (inspectorName s) in
  let key := "nickname_" ++ FtsAsset.id asset in
  (exists asset',
      detectedAssets s' = <[d := asset']> (detectedAssets s)
      /\ FtsAsset.name asset' = label /\ sameRecord asset asset')
  /\ setItemRequests s' = (setItemRequests s ++ [(key, label)])%list
  /\ match setItem with
     | None => localStorage s' = <[key := label]> (localStorage s)
     | Some e =>
         localStorage s' = localStorage s
         /\ (ERROR, "Speichern des Nicknames fehlgeschlagen: " ++ Js.message e)
              ∈ console s'
     end.
Proof.
  intros Hc Ht Ha Hn s' label key.
  assert (Hn0 : inspectorName s <> "") by (intros E; rewrite E in Hn; now apply Hn).
  subst s'. rewrite (saveNickname_valid CONFIG setItem s d asset) by assumption.
  fold label.
  set (renamed := FtsAsset.set_name label asset).
  set (stored := storeNickname setItem renamed s).
  destruct (updateFtsTile_browser renamed stored) as (Hcon & Hsto & Hreq).
  pose proof (updateFtsTile_sameData CONFIG renamed stored) as Hs.
  unfold hideInspectorModal, log, say. cbn. rewrite Hcon, Hsto, Hreq.
  split; [|split].
  - eexists. split; [reflexivity|].
    unfold sameData, sameRecord in *. cbn in Hs. intuition congruence.
  - unfold stored, storeNickname. now destruct setItem.
  - unfold stored, storeNickname. destruct setItem as [e|]; cbn; [|reflexivity].
    split; [reflexivity|]. rewrite !elem_of_app, list_elem_of_singleton. tauto.
Qed.


(** C8: on the inspected asset, a label that is empty after trimming
    is refused with the warning that the nickname must not be empty,
    and the asset is as before; any other label is stored trimmed on the
    asset, the rest of its record unchanged, and [localStorage.setItem]
    is called with the key of the identity and the trimmed label. *)
Theorem saveNickname_relabel (setItem : option Js.Error) (s : State)
    (d : string) (asset : FtsAsset.t) :
  currentInspectedId s = Some d -> Js.truthy d = true ->
  detectedAssets s !! d = Some asset ->
  (Js.trim (inspectorName s) = "" ->
     saveNickname CONFIG setItem s
     = warn "Speichern fehlgeschlagen: Nickname darf nicht leer sein." s
     /\ detectedAssets (saveNickname CONFIG setItem s) !! d = Some asset
     /\ setItemRequests (saveNickname CONFIG setItem s) = setItemRequests s)
  /\ (Js.trim (inspectorName s) <> "" ->
        exists asset',
          detectedAssets (saveNickname CONFIG setItem s) !! d = Some asset'
          /\ FtsAsset.name asset' = Js.trim (inspectorName s)
          /\ sameRecord asset asset'
          /\ setItemRequests (saveNickname CONFIG setItem s)
             = (setItemRequests s
                ++ [(("nickname_" ++ FtsAsset.id asset)%string,
                     Js.trim (inspectorName s))])%list).
Proof.
  intros Hc Ht Ha. split; intros Hn.
  - rewrite (saveNickname_invalid CONFIG setItem s d asset) by auto.
    repeat split. exact Ha.
  - destruct (saveNickname_valid_effect setItem s d asset Hc Ht Ha Hn)
      as ((asset' & Hreg & Hname & Hrec) & Hreq & _).
    exists asset'. rewrite Hreg, lookup_insert_eq. auto.
Qed.

(** C9: a valid label is on the asset after [saveNickname] whatever
    [localStorage.setItem] does; when it throws, the error is logged and
    the label store is as before. *)
Theorem saveNickname_storage_failure (s : State) (d : string)
    (asset : FtsAsset.t) :
  currentInspectedId s = Some d -> Js.truthy d = true ->
  detectedAssets s !! d = Some asset ->
  Js.trim (inspectorName s) <> "" ->
  (forall setItem : option Js.Error,
      exists asset',
        detectedAssets (saveNickname CONFIG setItem s) !! d = Some asset'
        /\ FtsAsset.name asset' = Js.trim (inspectorName s))
  /\ (forall e : Js.Error,
        (ERROR, "Speichern des Nicknames fehlgeschlagen: " ++ Js.message e)
          ∈ console (saveNickname CONFIG (Some e) s)
        /\ localStorage (saveNickname CONFIG (Some e) s) = localStorage s).
Proof.
  intros Hc Ht Ha Hn. split.
  - intros setItem.
    destruct (saveNickname_valid_effect setItem s d asset Hc Ht Ha Hn)
      as ((asset' & Hreg & Hname & _) & _).
    exists asset'. rewrite Hreg, lookup_insert_eq. auto.
  - intros e.
    destruct (saveNickname_valid_effect (Some e) s d asset Hc Ht Ha Hn)
      as (_ & _ & Hsto & Hlog).
    auto.
Qed.

End Labels.

Lemma saveNickname_relabel_witness :
  (currentInspectedId (inspecting "   ") = Some "AGV-7"
   /\ Js.truthy "AGV-7" = true
   /\ detectedAssets (inspecting "   ") !! "AGV-7" = Some asset_AGV7
   /\ Js.trim (inspectorName (inspecting "   ")) = ""
   /\ detectedAssets (saveNickname CONFIG_js None (inspecting "   ")) !! "AGV-7"
      = Some asset_AGV7)
  /\ (Js.trim (inspectorName (inspecting " Forklift-3 ")) <> ""
      /\ exists asset',
          detectedAssets (saveNickname CONFIG_js None (inspecting " Forklift-3 ")) !! "AGV-7"
          = Some asset'
          /\ FtsAsset.name asset' = Js.trim (inspectorName (inspecting " Forklift-3 "))
          /\ sameRecord asset_AGV7 asset'
          /\ setItemRequests (saveNickname CONFIG_js None (inspecting " Forklift-3 "))
             = (setItemRequests (inspecting " Forklift-3 ")
                ++ [(("nickname_" ++ FtsAsset.id asset_AGV7)%string,
                     Js.trim (inspectorName (inspecting " Forklift-3 ")))])%list).
Proof.
  split.
  - destruct (saveNickname_relabel CONFIG_js None (inspecting "   ") "AGV-7"
                asset_AGV7 eq_refl eq_refl eq_refl) as [Hrefused _].
    destruct (Hrefused eq_refl) as (_ & Hkept & _).
    split; [reflexivity|]. split; [reflexivity|]. split; [reflexivity|].
    split; [reflexivity|]. exact Hkept.
  - destruct (saveNickname_relabel CONFIG_js None (inspecting " Forklift-3 ")
                "AGV-7" asset_AGV7 eq_refl eq_refl eq_refl) as [_ Hstored].
    split; [discriminate|]. apply Hstored. discriminate.
Defined.

(** The two labels of the specification: blanks only are refused and the
    label stays; " Forklift-3 " is stored as "Forklift-3", under the key
    of the identity. *)
Example saveNickname_Forklift_3 :
  FtsAsset.name <$> detectedAssets (saveNickname CONFIG_js None (inspecting "   ")) !! "AGV-7"
  = Some "Unbenanntes FTS"
  /\ localStorage (saveNickname CONFIG_js None (inspecting "   ")) = ∅
  /\ FtsAsset.name
       <$> detectedAssets (saveNickname CONFIG_js None (inspecting " Forklift-3 ")) !! "AGV-7"
     = Some "Forklift-3"
  /\ localStorage (saveNickname CONFIG_js None (inspecting " Forklift-3 "))
       !! "nickname_AGV-7" = Some "Forklift-3".
Proof. repeat split. Qed.

Lemma saveNickname_storage_failure_witness :
  currentInspectedId (inspecting " Forklift-3 ") = Some "AGV-7"
  /\ Js.truthy "AGV-7" = true
  /\ detectedAssets (inspecting " Forklift-3 ") !! "AGV-7" = Some asset_AGV7
  /\ Js.trim (inspectorName (inspecting " Forklift-3 ")) <> ""
  /\ (ERROR, "Speichern des Nicknames fehlgeschlagen: "
               ++ Js.message (Js.mkError "QuotaExceededError" "quota exceeded"))
       ∈ console (saveNickname CONFIG_js
                    (Some (Js.mkError "QuotaExceededError" "quota exceeded"))
                    (inspecting " Forklift-3 ")).
Proof.
  split; [reflexivity|]. split; [reflexivity|]. split; [reflexivity|].
  split; [discriminate|].
  apply (saveNickname_storage_failure CONFIG_js (inspecting " Forklift-3 ")
           "AGV-7" asset_AGV7 eq_refl eq_refl eq_refl).
  discriminate.
Defined.

(** With a label store that refuses the write, the label is on the asset
    all the same and nothing is stored. *)
Example saveNickname_quota :
  FtsAsset.name
    <$> detectedAssets
          (saveNickname CONFIG_js
             (Some (Js.mkError "QuotaExceededError" "quota exceeded"))
             (inspecting " Forklift-3 ")) !! "AGV-7"
  = Some "Forklift-3"
  /\ localStorage
       (saveNickname CONFIG_js
          (Some (Js.mkError "QuotaExceededError" "quota exceeded"))
          (inspecting " Forklift-3 ")) = ∅.
Proof. repeat split. Qed.

(** ** The scan controller *)

Section Scan.
Variable CONFIG : Config.

(** [startScan] up to its [await], with Web Bluetooth there and a usable
    filter: the request is sent and nothing else of the controller moves. *)
Lemma startScan_request_sent (s : State) :
  bluetooth s = true -> snd (buildFilters (FTS_PROFILES CONFIG)) <> [] ->
  snd (startScan_request CONFIG s) = true
  /\ scanRequests (fst (startScan_request CONFIG s))
     = (scanRequests s
        ++ [(SCAN_OPTIONS CONFIG, snd (buildFilters (FTS_PROFILES CONFIG)))])%list
  /\ pendingScans (fst (startScan_request CONFIG s)) = S (pendingScans s)
  /\ btnStartScan (fst (startScan_request CONFIG s)) = btnStartScan s
  /\ tickerInterval (fst (startScan_request CONFIG s)) = tickerInterval s
  /\ intervals (fst (startScan_request CONFIG s)) = intervals s
  /\ nextTimer (fst (startScan_request CONFIG s)) = nextTimer s
  /\ stopRequests (fst (startScan_request CONFIG s)) = stopRequests s.
Proof.
  intros Hbt Hf. unfold startScan_request.
  replace (bluetooth (log "Bluetooth-Scan wird angefordert..." s)) with true
    by (symmetry; exact Hbt).
  cbn [negb].
  destruct (buildFilters (FTS_PROFILES CONFIG)) as [ws [|f fs]];
    [now cbn in Hf|].
  rewrite warnings_state. repeat split.
Qed.

(** [startScan] from its [await] on, the request granted. *)
Lemma startScan_settled_granted (sc : BluetoothLEScan) (s : State) (b : Button) :
  btnStartScan s = Some b ->
  scan (startScan_settled (Js.Normal sc) s) = Some sc
  /\ btnStartScan (startScan_settled (Js.Normal sc) s) = Some btnScanning
  /\ scanRequests (startScan_settled (Js.Normal sc) s) = scanRequests s
  /\ tickerInterval (startScan_settled (Js.Normal sc) s) = Some (nextTimer s)
  /\ intervals (startScan_settled (Js.Normal sc) s)
     = {[ nextTimer s ]}
         ∪ match tickerInterval s with
           | Some t => intervals s ∖ {[ t ]}
           | None => intervals s
           end
  /\ stopRequests (startScan_settled (Js.Normal sc) s) = stopRequests s
  /\ pendingScans (startScan_settled (Js.Normal sc) s) = pred (pendingScans s).
Proof.
  intros Hb. unfold startScan_settled, setButton.
  replace (btnStartScan
             (set_listening true
                (set_scan (Some sc) (set_pendingScans (pred (pendingScans s)) s))))
    with (Some b) by (symmetry; exact Hb).
  destruct (tickerInterval s) as [t|] eqn:Ht.
  - replace (tickerInterval _) with (Some t) by (symmetry; exact Ht).
    repeat split.
  - replace (tickerInterval _) with (@None positive) by (symmetry; exact Ht).
    repeat split.
Qed.

(** [startScan] with Web Bluetooth there, a usable filter and the
    request granted. *)
Lemma startScan_granted (sc : BluetoothLEScan) (s : State) (b : Button) :
  btnStartScan s = Some b -> bluetooth s = true ->
  snd (buildFilters (FTS_PROFILES CONFIG)) <> [] ->
  let s' := startScan CONFIG (Js.Normal sc) s in
  scan s' = Some sc
  /\ btnStartScan s' = Some btnScanning
  /\ scanRequests s'
     = (scanRequests s
        ++ [(SCAN_OPTIONS CONFIG, snd (buildFilters (FTS_PROFILES CONFIG)))])%list
  /\ tickerInterval s' = Some (nextTimer s)
  /\ intervals s'
     = {[ nextTimer s ]}
         ∪ match tickerInterval s with
           | Some t => intervals s ∖ {[ t ]}
           | None => intervals s
           end
  /\ stopRequests s' = stopRequests s
  /\ pendingScans s' = pendingScans s.
Proof.
  intros Hb Hbt Hf s'. subst s'. unfold startScan.
  destruct (startScan_request_sent s Hbt Hf)
    as (Hsent & Hreq & Hpend & Hbtn & Htick & Hint & Hnext & Hstop).
  destruct (startScan_request CONFIG s) as [s1 awaiting].
  cbn [fst snd] in *. subst awaiting.
  rewrite Hb in Hbtn.
  destruct (startScan_settled_granted sc s1 b Hbtn)
    as (H1 & H2 & H3 & H4 & H5 & H6 & H7).
  rewrite H1, H2, H3, H4, H5, H6, H7, Hreq, Hnext, Htick, Hint, Hstop, Hpend.
  repeat split.
Qed.

(** A click while the scan is active never reaches [startScan]. *)
Lemma toggleScan_active (stop : option Js.Error)
    (answer : Js.Completion BluetoothLEScan) (s : State) (b : Button) :
  btnStartScan s = Some b -> scanActive s = true ->
  toggleScan CONFIG stop answer s = stopScan stop s.
Proof. intros Hb Ha. unfold toggleScan. now rewrite Hb, Ha. Qed.

Lemma toggleScan_idle (stop : option Js.Error)
    (answer : Js.Completion BluetoothLEScan) (s : State) (b : Button) :
  btnStartScan s = Some b -> scanActive s = false ->
  toggleScan CONFIG stop answer s = startScan CONFIG answer s.
Proof. intros Hb Ha. unfold toggleScan. now rewrite Hb, Ha. Qed.

(** [scan.stop()] returned: the idle button, no ticker, its timer cleared. *)
Lemma stopScan_returns (s : State) (b : Button) :
  btnStartScan s = Some b ->
  scanActive (stopScan None s) = false
  /\ btnStartScan (stopScan None s) = Some btnIdle
  /\ tickerInterval (stopScan None s) = None
  /\ intervals (stopScan None s)
     = match tickerInterval s with
       | Some t => intervals s ∖ {[ t ]}
       | None => intervals s
       end
  /\ scanRequests (stopScan None s) = scanRequests s
  /\ stopRequests (stopScan None s) = S (stopRequests s).
Proof.
  intros Hb. unfold stopScan, setButton, scanActive. cbn. rewrite Hb. cbn.
  destruct (tickerInterval s); repeat split.
Qed.

(** C5 (amended): the button is the only entry point and it toggles.
    From Idle, with Web Bluetooth there, a usable filter and the request
    granted, the first click issues one start request and the controller
    is Active; the second click issues none, so the scan source has
    received exactly one start request, but it is no no-op: it calls
    [scan.stop()], and when that returns the controller is Idle. *)
Theorem toggleScan_twice (s : State) (b : Button) (sc : BluetoothLEScan)
    (stop1 stop2 : option Js.Error) (answer2 : Js.Completion BluetoothLEScan) :
  btnStartScan s = Some b -> scanActive s = false -> bluetooth s = true ->
  snd (buildFilters (FTS_PROFILES CONFIG)) <> [] -> active sc = true ->
  let s1 := toggleScan CONFIG stop1 (Js.Normal sc) s in
  let s2 := toggleScan CONFIG stop2 answer2 s1 in
  scanActive s1 = true
  /\ scanRequests s1
     = (scanRequests s
        ++ [(SCAN_OPTIONS CONFIG, snd (buildFilters (FTS_PROFILES CONFIG)))])%list
  /\ scanRequests s2 = scanRequests s1
  /\ stopRequests s2 = S (stopRequests s1)
  /\ (stop2 = None -> scanActive s2 = false /\ tickerInterval s2 = None).
Proof.
  intros Hb Hidle Hbt Hf Hsc s1 s2.
  destruct (startScan_granted sc s b Hb Hbt Hf)
    as (Hscan & Hbtn & Hreq & _).
  assert (H1 : s1 = startScan CONFIG (Js.Normal sc) s)
    by (apply (toggleScan_idle stop1 (Js.Normal sc) s b); assumption).
  assert (Hact : scanActive s1 = true)
    by (rewrite H1; unfold scanActive; now rewrite Hscan).
  assert (Hb1 : btnStartScan s1 = Some btnScanning) by now rewrite H1.
  subst s2. rewrite (toggleScan_active stop2 answer2 s1 btnScanning Hb1 Hact).
  split; [exact Hact|]. split; [now rewrite H1|].
  destruct stop2 as [e|].
  - repeat split; discriminate.
  - destruct (stopScan_returns s1 btnScanning Hb1) as (? & _ & ? & _ & ? & ?).
    repeat split; assumption.
Qed.

(** C6 (amended): a click while the scan is active calls [scan.stop()].
    When the call returns, the button is the idle one, the ticker is
    cleared and its timer is no longer live, all before the handler
    returns.  When the call throws, the error is logged and nothing
    else changes: the button, the ticker and its timer stay. *)
Theorem toggleScan_stop (s : State) (b : Button)
    (answer : Js.Completion BluetoothLEScan) :
  btnStartScan s = Some b -> scanActive s = true ->
  (scanActive (toggleScan CONFIG None answer s) = false
   /\ btnStartScan (toggleScan CONFIG None answer s) = Some btnIdle
   /\ tickerInterval (toggleScan CONFIG None answer s) = None
   /\ forall t, tickerInterval s = Some t ->
                intervals (toggleScan CONFIG None answer s) = intervals s ∖ {[ t ]})
  /\ (forall e : Js.Error,
        toggleScan CONFIG (Some e) answer s
        = error ("Fehler beim Stoppen des Scans: " ++ Js.message e)
            (set_stopRequests (S (stopRequests s)) s)
        /\ btnStartScan (toggleScan CONFIG (Some e) answer s) = btnStartScan s
        /\ tickerInterval (toggleScan CONFIG (Some e) answer s) = tickerInterval s
        /\ intervals (toggleScan CONFIG (Some e) answer s) = intervals s).
Proof.
  intros Hb Hact. split.
  - rewrite (toggleScan_active None answer s b Hb Hact).
    destruct (stopScan_returns s b Hb) as (Hidle & Hbtn & Htick & Hint & _).
    repeat split; try assumption.
    intros t Ht. now rewrite Hint, Ht.
  - intros e. rewrite (toggleScan_active (Some e) answer s b Hb Hact).
    repeat split.
Qed.

End Scan.

(** C5 (as stated): on the page with an active scan, neither the click
    handler nor [startScan] is the no-op of the specification: the first leaves
    the controller Idle, the second sends a second start request. *)
Lemma start_from_active_counterexample :
  scanActive scanning_page = true
  /\ length (scanRequests scanning_page) = 1%nat
  /\ scanActive (toggleScan CONFIG_js None granted scanning_page) = false
  /\ length (scanRequests (startScan CONFIG_js granted scanning_page)) = 2%nat
  /\ ~ spec_start_noop (toggleScan CONFIG_js None granted) scanning_page
  /\ ~ spec_start_noop (startScan CONFIG_js granted) scanning_page.
Proof.
  split; [reflexivity|]. split; [reflexivity|]. split; [reflexivity|].
  split; [reflexivity|]. split.
  - intros [H _]. vm_compute in H. discriminate.
  - intros [_ H]. apply (f_equal length) in H. vm_compute in H. discriminate.
Qed.

Lemma toggleScan_twice_witness :
  btnStartScan (page0 0) = Some btnIdle /\ scanActive (page0 0) = false
  /\ bluetooth (page0 0) = true
  /\ snd (buildFilters (FTS_PROFILES CONFIG_js)) <> []
  /\ length (scanRequests (toggleScan CONFIG_js None granted scanning_page)) = 1%nat
  /\ scanActive (toggleScan CONFIG_js None granted scanning_page) = false.
Proof.
  split; [reflexivity|]. split; [reflexivity|]. split; [reflexivity|].
  split; [discriminate|].
  destruct (toggleScan_twice CONFIG_js (page0 0) btnIdle {| active := true |}
              None None granted eq_refl eq_refl eq_refl
              ltac:(discriminate) eq_refl)
    as (_ & Hone & Hsame & _ & Hidle).
  split.
  - change scanning_page
      with (toggleScan CONFIG_js None (Js.Normal {| active := true |}) (page0 0)).
    rewrite Hsame, Hone. reflexivity.
  - apply (Hidle eq_refl).
Defined.

(** C6 (as stated): when [scan.stop()] throws on the page with an active
    scan, the button still shows the running scan and the sweep timer is
    still live. *)
Lemma stop_throws_counterexample :
  scanActive scanning_page = true
  /\ btnStartScan (toggleScan CONFIG_js (Some stop_error) granted scanning_page)
     = Some btnScanning
  /\ tickerInterval (toggleScan CONFIG_js (Some stop_error) granted scanning_page)
     = Some 1%positive
  /\ 1%positive ∈ intervals (toggleScan CONFIG_js (Some stop_error) granted scanning_page)
  /\ ~ spec_stopped (toggleScan CONFIG_js (Some stop_error) granted scanning_page).
Proof.
  split; [reflexivity|]. split; [reflexivity|]. split; [reflexivity|].
  split; [vm_compute; set_solver|].
  intros (_ & H & _). vm_compute in H. discriminate.
Qed.

Lemma toggleScan_stop_witness :
  btnStartScan scanning_page = Some btnScanning
  /\ scanActive scanning_page = true
  /\ spec_stopped (toggleScan CONFIG_js None granted scanning_page).
Proof.
  split; [reflexivity|]. split; [reflexivity|].
  destruct (toggleScan_stop CONFIG_js scanning_page btnScanning granted
              eq_refl eq_refl) as [(_ & Hbtn & Htick & Hint) _].
  split; [exact Hbtn|]. split; [exact Htick|].
  rewrite (Hint 1%positive eq_refl). vm_compute. reflexivity.
Defined.

(** ** Freshness bands *)

(** C1: with the windows of config.js, the class [ledStatus] gives for an
    elapsed time is led-green (Fresh) exactly below 5000 ms, led-yellow
    (Stale) exactly from 5000 ms to below 30000 ms, and led-red (Lost)
    exactly from 30000 ms on; 4999 is Fresh, 5000 Stale, 30000 Lost; and
    it is the class [updateSingleAssetStatus] writes on the tile of an
    asset for the elapsed time between its last observation and now. *)
Theorem freshness_bands (asset : FtsAsset.t) (now : Z) :
  let elapsed := now - FtsAsset.lastSeen asset in
  let band := fst (ledStatus CONFIG_js elapsed) in
  (band = "led-green" <-> elapsed < 5000)
  /\ (band = "led-yellow" <-> 5000 <= elapsed < 30000)
  /\ (band = "led-red" <-> 30000 <= elapsed)
  /\ fst (ledStatus CONFIG_js 4999) = "led-green"
  /\ fst (ledStatus CONFIG_js 5000) = "led-yellow"
  /\ fst (ledStatus CONFIG_js 30000) = "led-red"
  /\ (forall tile, FtsAsset.dom asset = Some tile ->
        ledOf (updateSingleAssetStatus CONFIG_js asset now) = Some ("led " ++ band)).
Proof.
  intros elapsed band.
  assert (Hbands := ledStatus_bands elapsed). fold band in Hbands.
  split; [|split; [|split]].
  - destruct Hbands as [[H ->]|[[H ->]|[H ->]]];
      split; intros H'; (discriminate || lia || reflexivity).
  - destruct Hbands as [[H ->]|[[H ->]|[H ->]]];
      split; intros H'; (discriminate || lia || reflexivity).
  - destruct Hbands as [[H ->]|[[H ->]|[H ->]]];
      split; intros H'; (discriminate || lia || reflexivity).
  - split; [reflexivity|]. split; [reflexivity|]. split; [reflexivity|].
    intros tile Htile. now apply updateSingleAssetStatus_led with tile.
Qed.

Lemma freshness_bands_witness :
  FtsAsset.dom asset_AGV7 = Some tile_AGV7
  /\ ledOf (updateSingleAssetStatus CONFIG_js asset_AGV7 4999) = Some "led led-green"
  /\ ledOf (updateSingleAssetStatus CONFIG_js asset_AGV7 5000) = Some "led led-yellow"
  /\ ledOf (updateSingleAssetStatus CONFIG_js asset_AGV7 30000) = Some "led led-red".
Proof.
  split; [reflexivity|]. split; [|split].
  - apply (freshness_bands asset_AGV7 4999) with tile_AGV7. reflexivity.
  - apply (freshness_bands asset_AGV7 5000) with tile_AGV7. reflexivity.
  - apply (freshness_bands asset_AGV7 30000) with tile_AGV7. reflexivity.
Defined.

(** C10: an asset last seen in the future of the evaluation time has a
    negative elapsed time, and like every elapsed time below the active
    window it is classified led-green (Fresh), on the tile too. *)
Theorem future_lastSeen_is_fresh (asset : FtsAsset.t) (now : Z) :
  (now - FtsAsset.lastSeen asset < 5000 ->
     fst (ledStatus CONFIG_js (now - FtsAsset.lastSeen asset)) = "led-green")
  /\ (now < FtsAsset.lastSeen asset ->
        fst (ledStatus CONFIG_js (now - FtsAsset.lastSeen asset)) = "led-green"
        /\ forall tile, FtsAsset.dom asset = Some tile ->
             ledOf (updateSingleAssetStatus CONFIG_js asset now) = Some "led led-green").
Proof.
  assert (Hgreen : now - FtsAsset.lastSeen asset < 5000 ->
                   fst (ledStatus CONFIG_js (now - FtsAsset.lastSeen asset)) = "led-green")
    by (intros H; now apply ledStatus_green).
  split; [exact Hgreen|]. intros Hfuture.
  assert (Hlt : now - FtsAsset.lastSeen asset < 5000) by lia.
  split; [auto|]. intros tile Htile.
  rewrite (updateSingleAssetStatus_led CONFIG_js asset tile now Htile).
  now rewrite Hgreen.
Qed.

Lemma future_lastSeen_is_fresh_witness :
  -86400000 < FtsAsset.lastSeen asset_AGV7
  /\ FtsAsset.dom asset_AGV7 = Some tile_AGV7
  /\ ledOf (updateSingleAssetStatus CONFIG_js asset_AGV7 (-86400000))
     = Some "led led-green".
Proof.
  split; [reflexivity|]. split; [reflexivity|].
  apply (future_lastSeen_is_fresh asset_AGV7 (-86400000)) with tile_AGV7;
    reflexivity.
Defined.

(** The text beside the LED for a clock set back by 2.6 s. *)
Example ledStatus_clock_set_back :
  ledStatus CONFIG_js (-2600) = ("led-green", "vor -3s").
Proof. reflexivity. Qed.

Lemma profileName_set_once_witness :
  (detectedAssets (page0 0) !! Event.device_id (adv_manufacturer "AGV-7" (-80) [xab]) = None
   /\ snd (extractRelevantPayload CONFIG_js (adv_manufacturer "AGV-7" (-80) [xab]))
      = Some ("0xAB", profile_B)
   /\ exists asset,
       detectedAssets (handleAdvertisement CONFIG_js (adv_manufacturer "AGV-7" (-80) [xab])
                         (page0 0))
         !! Event.device_id (adv_manufacturer "AGV-7" (-80) [xab]) = Some asset
       /\ FtsAsset.profileName asset = Profile.profileName profile_B)
  /\ (detectedAssets registered !! "AGV-7" = Some asset_AGV7
      /\ exists asset',
          detectedAssets
            (run CONFIG_js
               [Advertisement (adv_manufacturer "AGV-7" (-80) [xab]); Ticker;
                ClickTile "AGV-7"; TypeName " Forklift-3 "; SaveName None;
                ClickScan None granted]
               registered) !! "AGV-7" = Some asset'
          /\ FtsAsset.profileName asset' = FtsAsset.profileName asset_AGV7).
Proof.
  destruct (profileName_set_once CONFIG_js) as [Hcreate Hkeep].
  split.
  - split; [reflexivity|]. split; [reflexivity|].
    apply (Hcreate (adv_manufacturer "AGV-7" (-80) [xab]) (page0 0) "0xAB" profile_B);
      reflexivity.
  - split; [reflexivity|].
    apply (Hkeep _ registered "AGV-7" asset_AGV7). reflexivity.
Defined.

(** A device first seen with service data keeps the name of profile A
    when its next advertisement matches profile B only. *)
Example profileName_first_match_wins :
  snd (extractRelevantPayload CONFIG_js (adv_manufacturer "AGV-7" (-80) [xab]))
  = Some ("0xAB", profile_B)
  /\ FtsAsset.profileName
       <$> detectedAssets
             (handleAdvertisement CONFIG_js (adv_manufacturer "AGV-7" (-80) [xab])
                registered) !! "AGV-7"
     = Some "FTS-Gruppe Ladestation (Typ A)".
Proof. split; reflexivity. Qed.

(** Two clicks before the scan source has answered the first send two
    start requests: the controller is not Active while the request is
    pending. *)
Example toggleScan_while_pending :
  length (scanRequests
            (run CONFIG_js [ClickScanAwait None; ClickScanAwait None] (page0 0)))
  = 2%nat.
Proof. reflexivity. Qed.

(** ** Frames: what a handler leaves alone *)

Section Frames.
Variable CONFIG : Config.

Lemma say_controller (l : Level) (msg : string) (s : State) :
  controller (say l msg s) = controller s.
Proof. reflexivity. Qed.

Lemma warnings_controller (ws : list string) (s : State) :
  controller (fold_left (fun s w => warn w s) ws s) = controller s.
Proof. now rewrite warnings_state. Qed.

Lemma updateFtsTile_controller (asset : FtsAsset.t) (s : State) :
  controller (snd (updateFtsTile CONFIG asset s)) = controller s.
Proof. rewrite updateFtsTile_state. now destruct (FtsAsset.dom asset). Qed.

(** [createFtsTile] appends the tile and reads the clock twice. *)
Lemma createFtsTile_state (asset : FtsAsset.t) (s : State) :
  snd (createFtsTile CONFIG asset s)
  = snd (newDate (snd (newDate
      (set_cockpitGrid (cockpitGrid s ++ [FtsAsset.id asset]) s)))).
Proof.
  unfold createFtsTile.
  match goal with |- context [updateFtsTile CONFIG ?x ?y] =>
    pose proof (updateFtsTile_state CONFIG x y) as H;
    destruct (updateFtsTile CONFIG x y) as [a' s'] end.
  cbn [snd FtsAsset.dom FtsAsset.set_dom FtsAsset.id] in *. now subst s'.
Qed.

Lemma createFtsTile_dom (asset : FtsAsset.t) (s : State) :
  is_Some (FtsAsset.dom (fst (createFtsTile CONFIG asset s))).
Proof.
  unfold createFtsTile, updateFtsTile, updateSingleAssetStatus. cbn.
  repeat match goal with |- context [ledStatus CONFIG ?d] =>
    destruct (ledStatus CONFIG d) end.
  cbn. eauto.
Qed.

Lemma updateSingleAssetStatus_dom (asset : FtsAsset.t) (now : Z) :
  is_Some (FtsAsset.dom (updateSingleAssetStatus CONFIG asset now))
  <-> is_Some (FtsAsset.dom asset).
Proof.
  unfold updateSingleAssetStatus.
  destruct (FtsAsset.dom asset) eqn:E; [|now rewrite E].
  destruct (ledStatus CONFIG _). cbn. split; eauto.
Qed.

Lemma updateFtsTile_dom (asset : FtsAsset.t) (s : State) :
  is_Some (FtsAsset.dom (fst (updateFtsTile CONFIG asset s)))
  <-> is_Some (FtsAsset.dom asset).
Proof.
  unfold updateFtsTile.
  destruct (FtsAsset.dom asset) eqn:E; [|cbn [fst]; now rewrite E].
  unfold newDate. cbn [fst].
  rewrite updateSingleAssetStatus_dom. cbn. split; eauto.
Qed.


Lemma updateFtsTile_inspector (asset : FtsAsset.t) (s : State) :
  inspector (snd (updateFtsTile CONFIG asset s)) = inspector s
  /\ cockpitGrid (snd (updateFtsTile CONFIG asset s)) = cockpitGrid s.
Proof. rewrite updateFtsTile_state. now destruct (FtsAsset.dom asset). Qed.

Ltac open_handler :=
  cbn -[updateFtsTile createFtsTile insert lookup controller inspector].

(** An advertisement touches neither the scan controller nor the label
    store nor the modal, and adds to the grid only with a new asset. *)
Lemma handleAdvertisement_frame (event : Event.t) (s : State) :
  controller (handleAdvertisement CONFIG event s) = controller s
  /\ inspector (handleAdvertisement CONFIG event s) = inspector s
  /\ cockpitGrid (handleAdvertisement CONFIG event s)
     = if matched CONFIG event
       then match detectedAssets s !! Event.device_id event with
            | Some _ => cockpitGrid s
            | None => (cockpitGrid s ++ [Event.device_id event])%list
            end
       else cockpitGrid s.
Proof.
  unfold matched, handleAdvertisement. open_handler.
  destruct (extractRelevantPayload CONFIG event) as [ws [[payload profile]|]];
    open_handler; rewrite warnings_state; [|now repeat split].
  destruct (Js.truthy payload); open_handler; [|now repeat split].
  destruct (detectedAssets s !! Event.device_id event) as [a|] eqn:Ha.
  - match goal with |- context [updateFtsTile CONFIG ?x ?y] =>
      pose proof (updateFtsTile_controller x y) as Hc;
      destruct (updateFtsTile_inspector x y) as [Hi Hg];
      destruct (updateFtsTile CONFIG x y) as [a' s'] end.
    cbn [snd] in *. repeat split.
    + etransitivity; [|exact Hc]. reflexivity.
    + etransitivity; [|exact Hi]. reflexivity.
    + etransitivity; [|exact Hg]. reflexivity.
  - match goal with |- context [createFtsTile CONFIG ?x ?y] =>
      pose proof (createFtsTile_state x y) as Hst;
      pose proof (createFtsTile_sameData CONFIG x y) as Hs;
      destruct (createFtsTile CONFIG x y) as [a' s'] end.
    cbn [snd fst] in *. subst s'. repeat split.
    cbn. do 2 f_equal.
    destruct (localStorage s !! _) as [saved|]; [destruct (Js.truthy saved)|];
      reflexivity.
Qed.


(** The asset a matched advertisement leaves under its device. *)
Lemma handleAdvertisement_asset (event : Event.t) (s : State)
    (payload : string) (profile : Profile.t) :
  snd (extractRelevantPayload CONFIG event) = Some (payload, profile) ->
  exists a',
    detectedAssets (handleAdvertisement CONFIG event s)
    = <[Event.device_id event := a']> (detectedAssets s)
    /\ FtsAsset.rssi a' = Event.rssi event
    /\ FtsAsset.lastSeen a' = clock s 0%nat
    /\ FtsAsset.payload a' = payload
    /\ match detectedAssets s !! Event.device_id event with
       | Some a =>
           FtsAsset.id a' = FtsAsset.id a
           /\ FtsAsset.name a' = FtsAsset.name a
           /\ FtsAsset.profileName a' = FtsAsset.profileName a
           /\ (is_Some (FtsAsset.dom a') <-> is_Some (FtsAsset.dom a))
       | None =>
           FtsAsset.id a' = Event.device_id event
           /\ FtsAsset.name a'
              = match localStorage s !! ("nickname_" ++ Event.device_id event) with
                | Some saved => if Js.truthy saved then saved else "Unbenanntes FTS"
                | None => "Unbenanntes FTS"
                end
           /\ FtsAsset.profileName a' = Profile.profileName profile
           /\ is_Some (FtsAsset.dom a')
       end.
Proof.
  intros Hfound.
  pose proof (extractFrom_found (FTS_PROFILES CONFIG) event payload profile
                Hfound) as [Htruthy _].
  unfold handleAdvertisement. open_handler.
  destruct (extractRelevantPayload CONFIG event) as [ws r].
  cbn [snd] in Hfound. subst r. open_handler.
  rewrite warnings_state, Htruthy. open_handler.
  destruct (detectedAssets s !! Event.device_id event) as [a|] eqn:Ha.
  - match goal with |- context [updateFtsTile CONFIG ?x ?y] =>
      pose proof (updateFtsTile_sameData CONFIG x y) as Hs;
      pose proof (updateFtsTile_registry CONFIG x y) as Hr;
      pose proof (updateFtsTile_dom x y) as Hd;
      destruct (updateFtsTile CONFIG x y) as [a' s'] end.
    cbn [fst snd] in *. exists a'. open_handler. rewrite Hr.
    unfold sameData in Hs. cbn in Hs, Hd. intuition congruence.
  - match goal with |- context [createFtsTile CONFIG ?x ?y] =>
      pose proof (createFtsTile_sameData CONFIG x y) as Hs;
      pose proof (createFtsTile_registry CONFIG x y) as Hr;
      pose proof (createFtsTile_dom x y) as Hd;
      destruct (createFtsTile CONFIG x y) as [a' s'] end.
    cbn [fst snd] in *. exists a'. open_handler. rewrite Hr. cbn.
    rewrite insert_insert_eq.
    unfold sameData in Hs.
    destruct (localStorage s !! _) as [saved|]; [destruct (Js.truthy saved)|];
      cbn in Hs; intuition congruence.
Qed.


Lemma updateAllAssetStatus_frame (s : State) :
  controller (updateAllAssetStatus CONFIG s) = controller s
  /\ inspector (updateAllAssetStatus CONFIG s) = inspector s
  /\ cockpitGrid (updateAllAssetStatus CONFIG s) = cockpitGrid s.
Proof. now repeat split. Qed.

Lemma showInspectorModal_frame (deviceId : string) (s : State) :
  controller (showInspectorModal deviceId s) = controller s
  /\ detectedAssets (showInspectorModal deviceId s) = detectedAssets s
  /\ cockpitGrid (showInspectorModal deviceId s) = cockpitGrid s
  /\ localStorage (showInspectorModal deviceId s) = localStorage s
  /\ setItemRequests (showInspectorModal deviceId s) = setItemRequests s.
Proof.
  unfold showInspectorModal.
  now destruct (detectedAssets s !! deviceId).
Qed.

Lemma storeNickname_frame (setItem : option Js.Error) (asset : FtsAsset.t)
    (s : State) :
  controller (storeNickname setItem asset s) = controller s
  /\ cockpitGrid (storeNickname setItem asset s) = cockpitGrid s.
Proof. unfold storeNickname. now destruct setItem. Qed.

Lemma saveNickname_frame (setItem : option Js.Error) (s : State) :
  controller (saveNickname CONFIG setItem s) = controller s
  /\ cockpitGrid (saveNickname CONFIG setItem s) = cockpitGrid s.
Proof.
  unfold saveNickname.
  destruct (currentInspectedId s) as [d|]; [|now split].
  destruct (Js.truthy d); cbn [negb]; [|now split].
  destruct (detectedAssets s !! d) as [a|]; [|now split].
  cbv zeta.
  destruct (Js.truthy (inspectorName s) && _); [|now split].
  match goal with |- context [updateFtsTile CONFIG ?x ?y] =>
    pose proof (updateFtsTile_controller x y) as Hc;
    destruct (updateFtsTile_inspector x y) as [_ Hg];
    destruct (storeNickname_frame setItem x s) as [Hc' Hg'];
    destruct (updateFtsTile CONFIG x y) as [a' s'] end.
  cbn [snd] in *. split.
  - etransitivity; [|etransitivity; [exact Hc|exact Hc']]. reflexivity.
  - etransitivity; [|etransitivity; [exact Hg|exact Hg']]. reflexivity.
Qed.

(** A label edit replaces at most the inspected asset, by one with the
    same record and the same tile-or-not. *)
Lemma saveNickname_replaces (setItem : option Js.Error) (s : State) :
  detectedAssets (saveNickname CONFIG setItem s) = detectedAssets s
  \/ exists d a a',
      currentInspectedId s = Some d
      /\ detectedAssets s !! d = Some a
      /\ detectedAssets (saveNickname CONFIG setItem s)
         = <[d := a']> (detectedAssets s)
      /\ sameRecord a a'
      /\ FtsAsset.name a' = Js.trim (inspectorName s)
      /\ (is_Some (FtsAsset.dom a') <-> is_Some (FtsAsset.dom a)).
Proof.
  destruct (currentInspectedId s) as [d|] eqn:Hc;
    [|left; unfold saveNickname; now rewrite Hc].
  destruct (Js.truthy d) eqn:Ht;
    [|left; unfold saveNickname; now rewrite Hc, Ht].
  destruct (detectedAssets s !! d) as [a|] eqn:Ha;
    [|left; unfold saveNickname; now rewrite Hc, Ht, Ha].
  destruct (decide (inspectorName s = "")) as [Hn|Hn];
    [left; now erewrite saveNickname_invalid by eauto|].
  destruct (decide (Js.trim (inspectorName s) = "")) as [Hn'|Hn'];
    [left; now erewrite saveNickname_invalid by eauto|].
  right. exists d, a. eexists. split; [reflexivity|]. split; [exact Ha|].
  rewrite (saveNickname_valid CONFIG setItem s d a) by assumption.
  split; [reflexivity|].
  match goal with |- context [fst (updateFtsTile CONFIG ?x ?y)] =>
    pose proof (updateFtsTile_sameData CONFIG x y) as Hs;
    pose proof (updateFtsTile_dom x y) as Hd end.
  unfold sameData, sameRecord in *. cbn in Hs, Hd. intuition congruence.
Qed.

Lemma startScan_request_registrySide (s : State) :
  registrySide (fst (startScan_request CONFIG s)) = registrySide s.
Proof.
  unfold startScan_request. cbn.
  destruct (bluetooth s); [|reflexivity]. cbn.
  destruct (buildFilters (FTS_PROFILES CONFIG)) as [ws fs].
  rewrite warnings_state. cbn.
  now destruct (length fs =? 0)%nat.
Qed.

Lemma startScan_settled_registrySide (answer : Js.Completion BluetoothLEScan)
    (s : State) :
  registrySide (startScan_settled answer s) = registrySide s.
Proof.
  unfold startScan_settled, setButton.
  destruct (btnStartScan s) eqn:Hb; destruct (tickerInterval s) eqn:Ht;
    (destruct answer as [sc|e];
     [|destruct (String.eqb (Js.name e) "AbortError")]);
    simpl; rewrite ?Hb; simpl; rewrite ?Ht; reflexivity.
Qed.

Lemma stopScan_registrySide (stop : option Js.Error) (s : State) :
  registrySide (stopScan stop s) = registrySide s.
Proof.
  unfold stopScan, setButton.
  destruct stop; [reflexivity|]. simpl.
  destruct (btnStartScan s); simpl; now destruct (tickerInterval s).
Qed.

(** The events of the scan controller leave the registry, the grid, the
    label store and the modal alone; the other events leave the scan
    controller alone. *)
Lemma step_registrySide (s : State) (op : Op) :
  scanOp op = true -> registrySide (step CONFIG s op) = registrySide s.
Proof.
  destruct op as [| | | | | |stop answer|stop|answer]; try discriminate;
    intros _; cbn [step].
  - unfold toggleScan. destruct (btnStartScan s); [|reflexivity].
    destruct (scanActive s); [apply stopScan_registrySide|].
    unfold startScan. pose proof (startScan_request_registrySide s) as H.
    destruct (startScan_request CONFIG s) as [s' [|]]; cbn [fst] in H;
      [now rewrite startScan_settled_registrySide|exact H].
  - unfold toggleScan_request. destruct (btnStartScan s); [|reflexivity].
    destruct (scanActive s);
      [apply stopScan_registrySide|apply startScan_request_registrySide].
  - unfold scanSettles.
    destruct (pendingScans s); [reflexivity|apply startScan_settled_registrySide].
Qed.

Lemma step_controller (s : State) (op : Op) :
  scanOp op = false -> controller (step CONFIG s op) = controller s.
Proof.
  destruct op as [event| |deviceId| |text|setItem| | |]; try discriminate;
    intros _; cbn [step].
  - apply handleAdvertisement_frame.
  - reflexivity.
  - apply showInspectorModal_frame.
  - reflexivity.
  - reflexivity.
  - apply saveNickname_frame.
Qed.


(** *** At most one sweep timer *)

Lemma startScan_request_timers (s : State) :
  tickerInterval (fst (startScan_request CONFIG s)) = tickerInterval s
  /\ intervals (fst (startScan_request CONFIG s)) = intervals s.
Proof.
  unfold startScan_request. cbn.
  destruct (bluetooth s); [|now split]. cbn.
  destruct (buildFilters (FTS_PROFILES CONFIG)) as [ws fs].
  rewrite warnings_state. cbn.
  now destruct (length fs =? 0)%nat.
Qed.

Lemma startScan_settled_timers (answer : Js.Completion BluetoothLEScan)
    (s : State) :
  match answer with
  | Js.Normal _ =>
      tickerInterval (startScan_settled answer s) = Some (nextTimer s)
      /\ intervals (startScan_settled answer s)
         = {[ nextTimer s ]}
             ∪ match tickerInterval s with
               | Some t => intervals s ∖ {[ t ]}
               | None => intervals s
               end
  | Js.Throw _ =>
      tickerInterval (startScan_settled answer s) = tickerInterval s
      /\ intervals (startScan_settled answer s) = intervals s
  end.
Proof.
  unfold startScan_settled, setButton.
  destruct (btnStartScan s) eqn:Hb; destruct (tickerInterval s) eqn:Ht;
    (destruct answer as [sc|e];
     [|destruct (String.eqb (Js.name e) "AbortError")]);
    simpl; rewrite ?Hb; simpl; rewrite ?Ht; simpl; rewrite ?Ht; now split.
Qed.

Lemma stopScan_timers (stop : option Js.Error) (s : State) :
  match stop with
  | None =>
      tickerInterval (stopScan stop s) = None
      /\ intervals (stopScan stop s)
         = match tickerInterval s with
           | Some t => intervals s ∖ {[ t ]}
           | None => intervals s
           end
  | Some _ =>
      tickerInterval (stopScan stop s) = tickerInterval s
      /\ intervals (stopScan stop s) = intervals s
  end.
Proof.
  unfold stopScan, setButton. destruct stop; [now split|]. simpl.
  destruct (btnStartScan s); simpl; destruct (tickerInterval s); now split.
Qed.

Lemma startScan_settled_oneSweep (answer : Js.Completion BluetoothLEScan)
    (s : State) :
  oneSweep s -> oneSweep (startScan_settled answer s).
Proof.
  unfold oneSweep. intros H.
  pose proof (startScan_settled_timers answer s) as Ht.
  destruct answer; destruct Ht as [-> ->]; [|exact H].
  rewrite H. destruct (tickerInterval s);
    now rewrite ?difference_diag_L, union_empty_r_L.
Qed.

Lemma stopScan_oneSweep (stop : option Js.Error) (s : State) :
  oneSweep s -> oneSweep (stopScan stop s).
Proof.
  unfold oneSweep. intros H.
  pose proof (stopScan_timers stop s) as Ht.
  destruct stop; destruct Ht as [-> ->]; [exact H|].
  rewrite H. destruct (tickerInterval s); now rewrite ?difference_diag_L.
Qed.

Lemma startScan_request_oneSweep (s : State) :
  oneSweep s -> oneSweep (fst (startScan_request CONFIG s)).
Proof.
  unfold oneSweep. destruct (startScan_request_timers s) as [-> ->]. auto.
Qed.

Lemma controller_timers (s s' : State) :
  controller s' = controller s ->
  tickerInterval s' = tickerInterval s /\ intervals s' = intervals s.
Proof. unfold controller. intros H. injection H. auto. Qed.

Lemma step_oneSweep (s : State) (op : Op) :
  oneSweep s -> oneSweep (step CONFIG s op).
Proof.
  intros H. destruct (scanOp op) eqn:Hop.
  - destruct op as [| | | | | |stop answer|stop|answer]; try discriminate;
      cbn [step].
    + unfold toggleScan. destruct (btnStartScan s); [|exact H].
      destruct (scanActive s); [now apply stopScan_oneSweep|].
      unfold startScan. pose proof (startScan_request_oneSweep s H) as H'.
      destruct (startScan_request CONFIG s) as [s' [|]]; cbn [fst] in H';
        [now apply startScan_settled_oneSweep|exact H'].
    + unfold toggleScan_request. destruct (btnStartScan s); [|exact H].
      destruct (scanActive s);
        [now apply stopScan_oneSweep|now apply startScan_request_oneSweep].
    + unfold scanSettles.
      destruct (pendingScans s); [exact H|now apply startScan_settled_oneSweep].
  - destruct (controller_timers s _ (step_controller s op Hop)) as [Ht Hi].
    unfold oneSweep in *. now rewrite Ht, Hi.
Qed.


(** *** One tile per asset *)

Lemma matched_found_inv (event : Event.t) :
  matched CONFIG event = true ->
  exists payload profile,
    snd (extractRelevantPayload CONFIG event) = Some (payload, profile).
Proof.
  unfold matched.
  destruct (snd (extractRelevantPayload CONFIG event)) as [[payload profile]|];
    [eauto|discriminate].
Qed.

Lemma tiled_same (s s' : State) :
  detectedAssets s' = detectedAssets s -> cockpitGrid s' = cockpitGrid s ->
  tiled s -> tiled s'.
Proof. unfold tiled. now intros -> ->. Qed.

(** Replacing an asset by one of the same identity, with a tile. *)
Lemma tiled_replace (s s' : State) (d : string) (a a' : FtsAsset.t) :
  detectedAssets s !! d = Some a ->
  detectedAssets s' = <[d := a']> (detectedAssets s) ->
  cockpitGrid s' = cockpitGrid s ->
  FtsAsset.id a' = FtsAsset.id a ->
  (is_Some (FtsAsset.dom a') <-> is_Some (FtsAsset.dom a)) ->
  tiled s -> tiled s'.
Proof.
  intros Ha Hreg Hgrid Hid Hdom (Hnd & Hin & Hasset).
  unfold tiled. rewrite Hreg, Hgrid. split; [exact Hnd|]. split.
  - intros d'. rewrite Hin. destruct (decide (d = d')) as [<-|Hne].
    + rewrite lookup_insert_eq, Ha. split; eauto.
    + now rewrite lookup_insert_ne.
  - intros d' b. destruct (decide (d = d')) as [<-|Hne].
    + rewrite lookup_insert_eq. intros [= <-].
      destruct (Hasset d a Ha) as [Hida Hdoma]. split; [congruence|tauto].
    + rewrite lookup_insert_ne by exact Hne. apply Hasset.
Qed.

(** Registering a new asset under its identity, with its tile appended. *)
Lemma tiled_register (s s' : State) (d : string) (a' : FtsAsset.t) :
  detectedAssets s !! d = None ->
  detectedAssets s' = <[d := a']> (detectedAssets s) ->
  cockpitGrid s' = (cockpitGrid s ++ [d])%list ->
  FtsAsset.id a' = d -> is_Some (FtsAsset.dom a') ->
  tiled s -> tiled s'.
Proof.
  intros Ha Hreg Hgrid Hid Hdom (Hnd & Hin & Hasset).
  assert (Hfresh : d ∉ cockpitGrid s).
  { rewrite Hin, Ha. intros [? [=]]. }
  unfold tiled. rewrite Hreg, Hgrid. split; [|split].
  - apply NoDup_app. split; [exact Hnd|]. split; [|apply NoDup_singleton].
    intros x Hx Hx'. apply list_elem_of_singleton in Hx'. now subst x.
  - intros d'. rewrite elem_of_app, list_elem_of_singleton, Hin.
    destruct (decide (d = d')) as [<-|Hne].
    + rewrite lookup_insert_eq. split; eauto.
    + rewrite lookup_insert_ne by exact Hne. split; [|now left].
      intros [H|H]; [exact H|congruence].
  - intros d' b. destruct (decide (d = d')) as [<-|Hne].
    + rewrite lookup_insert_eq. now intros [= <-].
    + rewrite lookup_insert_ne by exact Hne. apply Hasset.
Qed.

Lemma handleAdvertisement_tiled (event : Event.t) (s : State) :
  tiled s -> tiled (handleAdvertisement CONFIG event s).
Proof.
  intros Ht.
  destruct (handleAdvertisement_frame event s) as (_ & _ & Hgrid).
  destruct (matched CONFIG event) eqn:Hm.
  - destruct (matched_found_inv event Hm) as (payload & profile & Hfound).
    destruct (handleAdvertisement_asset event s payload profile Hfound)
      as (a' & Hreg & _ & _ & _ & Hcase).
    destruct (detectedAssets s !! Event.device_id event) as [a|] eqn:Ha.
    + destruct Hcase as (Hid & _ & _ & Hdom).
      exact (tiled_replace s _ _ a a' Ha Hreg Hgrid Hid Hdom Ht).
    + destruct Hcase as (Hid & _ & _ & Hdom).
      exact (tiled_register s _ _ a' Ha Hreg Hgrid Hid Hdom Ht).
  - apply (tiled_same s); [now apply handleAdvertisement_unmatched|exact Hgrid|exact Ht].
Qed.

Lemma updateAllAssetStatus_tiled (s : State) :
  tiled s -> tiled (updateAllAssetStatus CONFIG s).
Proof.
  intros (Hnd & Hin & Hasset). unfold tiled, updateAllAssetStatus. cbn.
  split; [exact Hnd|]. split.
  - intros d. rewrite Hin, lookup_fmap.
    destruct (detectedAssets s !! d); cbn; split; intros [? ?]; eauto; discriminate.
  - intros d b. rewrite lookup_fmap.
    destruct (detectedAssets s !! d) as [a|] eqn:Ha; [|discriminate].
    cbn. intros [= <-]. destruct (Hasset d a Ha) as [Hid Hdom].
    pose proof (updateSingleAssetStatus_sameData CONFIG a (clock s 0%nat)) as Hs.
    split; [unfold sameData in Hs; intuition congruence|].
    now apply updateSingleAssetStatus_dom.
Qed.

Lemma saveNickname_tiled (setItem : option Js.Error) (s : State) :
  tiled s -> tiled (saveNickname CONFIG setItem s).
Proof.
  intros Ht. destruct (saveNickname_frame setItem s) as [_ Hgrid].
  destruct (saveNickname_replaces setItem s)
    as [Heq|(d & a & a' & _ & Ha & Hreg & Hrec & _ & Hdom)].
  - exact (tiled_same s _ Heq Hgrid Ht).
  - refine (tiled_replace s _ d a a' Ha Hreg Hgrid _ Hdom Ht).
    unfold sameRecord in Hrec. intuition congruence.
Qed.

Lemma registrySide_registry (s s' : State) :
  registrySide s' = registrySide s ->
  detectedAssets s' = detectedAssets s /\ cockpitGrid s' = cockpitGrid s
  /\ localStorage s' = localStorage s.
Proof. unfold registrySide. intros H. injection H. auto. Qed.

Lemma step_tiled (s : State) (op : Op) :
  tiled s -> tiled (step CONFIG s op).
Proof.
  intros Ht. destruct (scanOp op) eqn:Hop.
  - destruct (registrySide_registry s _ (step_registrySide s op Hop))
      as (Hreg & Hgrid & _).
    exact (tiled_same s _ Hreg Hgrid Ht).
  - destruct op as [event| |deviceId| |text|setItem| | |]; try discriminate;
      cbn [step].
    + now apply handleAdvertisement_tiled.
    + now apply updateAllAssetStatus_tiled.
    + destruct (showInspectorModal_frame deviceId s) as (_ & Hreg & Hgrid & _).
      exact (tiled_same s _ Hreg Hgrid Ht).
    + exact Ht.
    + exact Ht.
    + now apply saveNickname_tiled.
Qed.

Lemma run_invariant (P : State -> Prop) :
  (forall s op, P s -> P (step CONFIG s op)) ->
  forall ops s, P s -> P (run CONFIG ops s).
Proof.
  intros Hstep ops. induction ops as [|op ops IH]; intros s Hs; [exact Hs|].
  cbn. apply IH, Hstep, Hs.
Qed.

End Frames.

(** ** Invariants and frames of a run *)

(** X1: when the live timers are those of the ticker variable, they stay
    so through every run of events: there is never more than one sweep
    timer, and none while the ticker variable is empty. *)
Theorem sweep_timer_invariant (CONFIG : Config) (ops : list Op) (s : State) :
  oneSweep s ->
  oneSweep (run CONFIG ops s)
  /\ (size (intervals (run CONFIG ops s)) <= 1)%nat
  /\ (tickerInterval (run CONFIG ops s) = None -> intervals (run CONFIG ops s) = ∅).
Proof.
  intros H.
  assert (Hinv : oneSweep (run CONFIG ops s))
    by (revert H; apply run_invariant; intros; now apply step_oneSweep).
  split; [exact Hinv|]. unfold oneSweep in Hinv. rewrite Hinv.
  destruct (tickerInterval (run CONFIG ops s)); split.
  - now rewrite size_singleton.
  - discriminate.
  - rewrite size_empty. lia.
  - reflexivity.
Qed.

Lemma sweep_timer_invariant_witness :
  oneSweep (page0 0)
  /\ (size (intervals
             (run CONFIG_js
                [ClickScan None granted; ClickScanAwait None; ClickScanAwait None;
                 ScanSettles granted; Ticker; ScanSettles granted]
                (page0 0))) <= 1)%nat.
Proof.
  split; [reflexivity|].
  apply (sweep_timer_invariant CONFIG_js
           [ClickScan None granted; ClickScanAwait None; ClickScanAwait None;
            ScanSettles granted; Ticker; ScanSettles granted]
           (page0 0)).
  reflexivity.
Defined.

(** X2: in a state where the live timers are those of the ticker
    variable, a click that stops the active scan leaves no live timer at
    all when [scan.stop()] returns. *)
Theorem stop_leaves_no_timer (CONFIG : Config) (s : State) (b : Button)
    (answer : Js.Completion BluetoothLEScan) :
  oneSweep s -> btnStartScan s = Some b -> scanActive s = true ->
  intervals (toggleScan CONFIG None answer s) = ∅
  /\ tickerInterval (toggleScan CONFIG None answer s) = None.
Proof.
  intros Hone Hb Hact.
  rewrite (toggleScan_active CONFIG None answer s b Hb Hact).
  pose proof (stopScan_oneSweep None s Hone) as Hone'.
  destruct (stopScan_timers None s) as [Htick _].
  unfold oneSweep in Hone'. rewrite Htick in Hone'. now split.
Qed.

Lemma stop_leaves_no_timer_witness :
  oneSweep scanning_page /\ btnStartScan scanning_page = Some btnScanning
  /\ scanActive scanning_page = true
  /\ intervals (toggleScan CONFIG_js None granted scanning_page) = ∅.
Proof.
  split; [reflexivity|]. split; [reflexivity|]. split; [reflexivity|].
  apply (stop_leaves_no_timer CONFIG_js scanning_page btnScanning granted);
    reflexivity.
Defined.

(** X3: from a state where every asset sits under its own identity with
    a tile and the grid holds one tile per asset (the empty page is one),
    every run of events leads to such a state: no asset without a tile,
    no tile without an asset, no two tiles of one device. *)
Theorem tiled_invariant (CONFIG : Config) (ops : list Op) (s : State) :
  tiled s -> tiled (run CONFIG ops s).
Proof. apply run_invariant. intros. now apply step_tiled. Qed.

Lemma tiled_empty (s : State) :
  detectedAssets s = ∅ -> cockpitGrid s = [] -> tiled s.
Proof.
  intros Hreg Hgrid. unfold tiled. rewrite Hreg, Hgrid.
  split; [apply NoDup_nil_2|]. split.
  - intros d. rewrite lookup_empty. split; [intros H|intros [? [=]]].
    now apply not_elem_of_nil in H.
  - intros d a. now rewrite lookup_empty.
Qed.

Lemma tiled_invariant_witness :
  tiled (page0 0)
  /\ tiled (run CONFIG_js
              (burst "AGV-7" 3
               ++ [Advertisement (adv_manufacturer "AGV-9" (-80) [xab]); Ticker;
                   ClickTile "AGV-9"; TypeName "Stapler"; SaveName None])
              (page0 0)).
Proof.
  split; [now apply tiled_empty|].
  apply (tiled_invariant CONFIG_js). now apply tiled_empty.
Defined.

(** The tiles of the grid after that run: one per device, in the order
    of first observation. *)
Example tiled_grid :
  cockpitGrid
    (run CONFIG_js
       (burst "AGV-7" 3
        ++ [Advertisement (adv_manufacturer "AGV-9" (-80) [xab]); Ticker;
            ClickTile "AGV-9"; TypeName "Stapler"; SaveName None])
       (page0 0))
  = ["AGV-7"; "AGV-9"].
Proof. reflexivity. Qed.

(** X4: advertisements, sweeps, the modal and label edits never act on
    the scan controller: after any run of such events the scan handle,
    the ticker, the timers, the button and the requests sent to the scan
    source are as before. *)
Theorem registry_events_keep_controller (CONFIG : Config) (ops : list Op)
    (s : State) :
  forallb (fun op => negb (scanOp op)) ops = true ->
  controller (run CONFIG ops s) = controller s.
Proof.
  revert s. induction ops as [|op ops IH]; intros s Hops; [reflexivity|].
  cbn in Hops. apply andb_prop in Hops as [Hop Hrest].
  cbn [run fold_left]. change (fold_left (step CONFIG) ops ?x) with (run CONFIG ops x).
  rewrite (IH _ Hrest). apply step_controller.
  now destruct (scanOp op).
Qed.

Lemma registry_events_keep_controller_witness :
  forallb (fun op => negb (scanOp op))
    (burst "AGV-7" 3 ++ [Ticker; ClickTile "AGV-7"; TypeName "Stapler"; SaveName None])
  = true
  /\ controller
       (run CONFIG_js
          (burst "AGV-7" 3 ++ [Ticker; ClickTile "AGV-7"; TypeName "Stapler"; SaveName None])
          scanning_page)
     = controller scanning_page.
Proof.
  split; [reflexivity|].
  apply (registry_events_keep_controller CONFIG_js). reflexivity.
Defined.

(** X5: starting and stopping the scan, with whatever answers of the scan
    source, never acts on the registry side: the assets with all their
    fields, the tiles, the label store and the modal are as before; in
    particular no asset is removed when the scan stops. *)
Theorem scan_events_keep_registry (CONFIG : Config) (ops : list Op) (s : State) :
  forallb scanOp ops = true ->
  registrySide (run CONFIG ops s) = registrySide s.
Proof.
  revert s. induction ops as [|op ops IH]; intros s Hops; [reflexivity|].
  cbn in Hops. apply andb_prop in Hops as [Hop Hrest].
  cbn [run fold_left]. change (fold_left (step CONFIG) ops ?x) with (run CONFIG ops x).
  rewrite (IH _ Hrest). now apply step_registrySide.
Qed.

Lemma scan_events_keep_registry_witness :
  forallb scanOp
    [ClickScan None granted; ClickScan (Some stop_error) granted;
     ClickScan None granted; ClickScanAwait None;
     ScanSettles (Js.Throw (Js.mkError "AbortError" "cancelled"))] = true
  /\ registrySide
       (run CONFIG_js
          [ClickScan None granted; ClickScan (Some stop_error) granted;
           ClickScan None granted; ClickScanAwait None;
           ScanSettles (Js.Throw (Js.mkError "AbortError" "cancelled"))]
          registered)
     = registrySide registered.
Proof.
  split; [reflexivity|].
  apply (scan_events_keep_registry CONFIG_js). reflexivity.
Defined.

(** ** Observations, labels and sweeps *)

Section Observations.
Variable CONFIG : Config.

Lemma trim_truthy (text : string) :
  Js.trim text <> "" -> Js.truthy (Js.trim text) = true.
Proof. now destruct (Js.trim text). Qed.

(** Events other than a label edit keep the label of an asset. *)
Lemma step_keeps_name (s : State) (op : Op) (d : string) (a : FtsAsset.t) :
  (forall setItem, op <> SaveName setItem) ->
  detectedAssets s !! d = Some a ->
  exists a', detectedAssets (step CONFIG s op) !! d = Some a'
             /\ FtsAsset.name a' = FtsAsset.name a.
Proof.
  intros Hop Ha.
  assert (Hsame : detectedAssets (step CONFIG s op) = detectedAssets s ->
                  exists a', detectedAssets (step CONFIG s op) !! d = Some a'
                             /\ FtsAsset.name a' = FtsAsset.name a)
    by (intros ->; eauto).
  destruct op as [event| |deviceId| |text|setItem|stop answer|stop|answer];
    cbn [step] in *.
  - destruct (decide (Event.device_id event = d)) as [<-|Hne].
    + destruct (matched CONFIG event) eqn:Hm;
        [|apply Hsame; now apply handleAdvertisement_unmatched].
      destruct (matched_found_inv CONFIG event Hm) as (payload & profile & Hfound).
      destruct (handleAdvertisement_asset CONFIG event s payload profile Hfound)
        as (a' & -> & _ & _ & _ & Hcase).
      rewrite Ha in Hcase. exists a'. rewrite lookup_insert_eq. intuition.
    + exists a. now rewrite handleAdvertisement_other.
  - unfold updateAllAssetStatus. cbn. rewrite lookup_fmap, Ha. cbn.
    eexists. split; [reflexivity|].
    pose proof (updateSingleAssetStatus_sameData CONFIG a (clock s 0%nat)) as Hs.
    unfold sameData in Hs. intuition congruence.
  - apply Hsame. apply showInspectorModal_frame.
  - now apply Hsame.
  - now apply Hsame.
  - now destruct (Hop setItem).
  - apply Hsame, toggleScan_registry.
  - apply Hsame, toggleScan_request_registry.
  - apply Hsame, scanSettles_registry.
Qed.

End Observations.

(** X6: a matched advertisement leaves, under its device, an asset with
    the signal strength of the event, the clock reading taken at the start
    of the handler as last-seen time, and the payload the matcher
    rendered; a known asset keeps its identity, label and profile name. *)
Theorem advertisement_updates_asset (CONFIG : Config) (event : Event.t)
    (s : State) (payload : string) (profile : Profile.t) :
  snd (extractRelevantPayload CONFIG event) = Some (payload, profile) ->
  exists asset',
    detectedAssets (handleAdvertisement CONFIG event s) !! Event.device_id event
    = Some asset'
    /\ FtsAsset.rssi asset' = Event.rssi event
    /\ FtsAsset.lastSeen asset' = clock s 0%nat
    /\ FtsAsset.payload asset' = payload
    /\ forall asset,
         detectedAssets s !! Event.device_id event = Some asset ->
         FtsAsset.id asset' = FtsAsset.id asset
         /\ FtsAsset.name asset' = FtsAsset.name asset
         /\ FtsAsset.profileName asset' = FtsAsset.profileName asset.
Proof.
  intros Hfound.
  destruct (handleAdvertisement_asset CONFIG event s payload profile Hfound)
    as (a' & -> & Hrssi & Hseen & Hpay & Hcase).
  exists a'. rewrite lookup_insert_eq. repeat split; try assumption;
    rewrite H in Hcase; intuition.
Qed.

Lemma advertisement_updates_asset_witness :
  snd (extractRelevantPayload CONFIG_js (adv_manufacturer "AGV-7" (-80) [xab]))
  = Some ("0xAB", profile_B)
  /\ exists asset',
      detectedAssets
        (handleAdvertisement CONFIG_js (adv_manufacturer "AGV-7" (-80) [xab])
           registered) !! "AGV-7" = Some asset'
      /\ FtsAsset.rssi asset' = -80
      /\ FtsAsset.lastSeen asset' = clock registered 0%nat
      /\ FtsAsset.payload asset' = "0xAB".
Proof.
  split; [reflexivity|].
  destruct (advertisement_updates_asset CONFIG_js
              (adv_manufacturer "AGV-7" (-80) [xab]) registered "0xAB" profile_B
              eq_refl) as (asset' & H1 & H2 & H3 & H4 & _).
  exists asset'. auto.
Defined.

(** X7: the asset created for a device not yet in the registry takes its
    label from the label store, under the key of the device, when a
    non-empty label is stored there, and the placeholder otherwise. *)
Theorem new_asset_label (CONFIG : Config) (event : Event.t) (s : State)
    (payload : string) (profile : Profile.t) :
  snd (extractRelevantPayload CONFIG event) = Some (payload, profile) ->
  detectedAssets s !! Event.device_id event = None ->
  exists asset',
    detectedAssets (handleAdvertisement CONFIG event s) !! Event.device_id event
    = Some asset'
    /\ FtsAsset.name asset'
       = match localStorage s !! ("nickname_" ++ Event.device_id event) with
         | Some saved => if Js.truthy saved then saved else "Unbenanntes FTS"
         | None => "Unbenanntes FTS"
         end
    /\ FtsAsset.rssiHistory asset' = [Event.rssi event].
Proof.
  intros Hfound Hnew.
  destruct (handleAdvertisement_asset CONFIG event s payload profile Hfound)
    as (a' & Hreg & _ & _ & _ & Hcase).
  destruct (handleAdvertisement_new CONFIG event s
              (matched_found CONFIG event payload profile Hfound) Hnew)
    as (a2 & _ & _ & _ & Hreg2 & _ & _ & _ & Hhist).
  assert (a' = a2).
  { assert (H : (<[Event.device_id event := a']> (detectedAssets s))
                  !! Event.device_id event
                = (<[Event.device_id event := a2]> (detectedAssets s))
                    !! Event.device_id event) by congruence.
    rewrite !lookup_insert_eq in H. congruence. }
  subst a2. rewrite Hnew in Hcase.
  exists a'. rewrite Hreg, lookup_insert_eq. intuition.
Qed.

Lemma new_asset_label_witness :
  snd (extractRelevantPayload CONFIG_js (adv_service "AGV-7" (-70) [x04; x37]))
  = Some ("0x04 37", profile_A)
  /\ detectedAssets (stored_page "Stapler 7" 0)
       !! Event.device_id (adv_service "AGV-7" (-70) [x04; x37]) = None
  /\ exists asset',
      detectedAssets
        (handleAdvertisement CONFIG_js (adv_service "AGV-7" (-70) [x04; x37])
           (stored_page "Stapler 7" 0))
        !! Event.device_id (adv_service "AGV-7" (-70) [x04; x37]) = Some asset'
      /\ FtsAsset.name asset' = "Stapler 7".
Proof.
  split; [reflexivity|]. split; [reflexivity|].
  destruct (new_asset_label CONFIG_js (adv_service "AGV-7" (-70) [x04; x37])
              (stored_page "Stapler 7" 0) "0x04 37" profile_A eq_refl eq_refl)
    as (asset' & Hreg & Hname & _).
  exists asset'. split; [exact Hreg|exact Hname].
Defined.

(** An empty stored label is ignored: the placeholder is used. *)
Example new_asset_label_empty :
  FtsAsset.name
    <$> detectedAssets
          (handleAdvertisement CONFIG_js (adv_service "AGV-7" (-70) [x04; x37])
             (stored_page "" 0)) !! "AGV-7"
  = Some "Unbenanntes FTS".
Proof. reflexivity. Qed.

(** X8: a label saved for an asset, the store accepting the write, comes
    back: on any page with that label store where the device is not
    registered, the first matched advertisement of the device creates its
    asset with the saved (trimmed) label. *)
Theorem label_round_trip (CONFIG : Config) (s : State) (d : string)
    (asset : FtsAsset.t) (s2 : State) (event : Event.t) (payload : string)
    (profile : Profile.t) :
  currentInspectedId s = Some d -> Js.truthy d = true ->
  detectedAssets s !! d = Some asset -> FtsAsset.id asset = d ->
  Js.trim (inspectorName s) <> "" ->
  localStorage s2 = localStorage (saveNickname CONFIG None s) ->
  detectedAssets s2 !! d = None -> Event.device_id event = d ->
  snd (extractRelevantPayload CONFIG event) = Some (payload, profile) ->
  exists asset',
    detectedAssets (handleAdvertisement CONFIG event s2) !! d = Some asset'
    /\ FtsAsset.name asset' = Js.trim (inspectorName s).
Proof.
  intros Hc Ht Ha Hid Hn Hstore Hnew Hdev Hfound. subst d.
  destruct (saveNickname_valid_effect CONFIG None s _ asset Hc Ht Ha Hn)
    as (_ & _ & Hsaved).
  destruct (handleAdvertisement_asset CONFIG event s2 payload profile Hfound)
    as (a' & Hreg & _ & _ & _ & Hcase).
  rewrite Hdev, Hnew in Hcase. destruct Hcase as (_ & Hname & _).
  exists a'. rewrite Hreg, Hdev, lookup_insert_eq. split; [reflexivity|].
  rewrite Hname, Hstore, Hsaved, lookup_insert_eq.
  now rewrite trim_truthy.
Qed.

Lemma label_round_trip_witness :
  currentInspectedId (inspecting " Forklift-3 ") = Some "AGV-7"
  /\ Js.truthy "AGV-7" = true
  /\ detectedAssets (inspecting " Forklift-3 ") !! "AGV-7" = Some asset_AGV7
  /\ FtsAsset.id asset_AGV7 = "AGV-7"
  /\ Js.trim (inspectorName (inspecting " Forklift-3 ")) <> ""
  /\ localStorage (stored_page "Forklift-3" 90000)
     = localStorage (saveNickname CONFIG_js None (inspecting " Forklift-3 "))
  /\ detectedAssets (stored_page "Forklift-3" 90000) !! "AGV-7" = None
  /\ exists asset',
      detectedAssets
        (handleAdvertisement CONFIG_js (adv_manufacturer "AGV-7" (-61) [xab])
           (stored_page "Forklift-3" 90000)) !! "AGV-7" = Some asset'
      /\ FtsAsset.name asset' = Js.trim (inspectorName (inspecting " Forklift-3 ")).
Proof.
  split; [reflexivity|]. split; [reflexivity|]. split; [reflexivity|].
  split; [reflexivity|]. split; [discriminate|]. split; [reflexivity|].
  split; [reflexivity|].
  apply (label_round_trip CONFIG_js (inspecting " Forklift-3 ") "AGV-7" asset_AGV7
           (stored_page "Forklift-3" 90000) (adv_manufacturer "AGV-7" (-61) [xab])
           "0xAB" profile_B); try reflexivity.
  discriminate.
Defined.

(** X9: only a click on the save button changes a label: through any run
    of other events (observations of any device, sweeps, the modal, scan
    clicks) an asset stays in the registry with the label it has. *)
Theorem label_changes_only_by_save (CONFIG : Config) (ops : list Op) (s : State)
    (d : string) (asset : FtsAsset.t) :
  forallb (fun op => negb (isSave op)) ops = true ->
  detectedAssets s !! d = Some asset ->
  exists asset',
    detectedAssets (run CONFIG ops s) !! d = Some asset'
    /\ FtsAsset.name asset' = FtsAsset.name asset.
Proof.
  revert s asset. induction ops as [|op ops IH]; intros s asset Hops Ha;
    [now exists asset|].
  cbn in Hops. apply andb_prop in Hops as [Hop Hrest].
  destruct (step_keeps_name CONFIG s op d asset) as (a1 & H1 & Hn1);
    [intros setItem ->; discriminate|exact Ha|].
  destruct (IH (step CONFIG s op) a1 Hrest H1) as (a' & H' & Hn').
  exists a'. split; [exact H'|congruence].
Qed.

Lemma label_changes_only_by_save_witness :
  forallb (fun op => negb (isSave op))
    (burst "AGV-7" 3 ++ [Ticker; ClickTile "AGV-7"; TypeName "Stapler"; CloseModal;
                         ClickScan None granted]) = true
  /\ detectedAssets registered !! "AGV-7" = Some asset_AGV7
  /\ exists asset',
      detectedAssets
        (run CONFIG_js
           (burst "AGV-7" 3 ++ [Ticker; ClickTile "AGV-7"; TypeName "Stapler";
                                CloseModal; ClickScan None granted])
           registered) !! "AGV-7" = Some asset'
      /\ FtsAsset.name asset' = FtsAsset.name asset_AGV7.
Proof.
  split; [reflexivity|]. split; [reflexivity|].
  apply (label_changes_only_by_save CONFIG_js _ registered "AGV-7" asset_AGV7);
    reflexivity.
Defined.



(** ** The tile of an asset *)




(** The four strengths at the bounds. *)
Example signal_band_bounds :
  (fun rssi =>
     Dom.rssiBar
       <$> FtsAsset.dom
             (fst (updateFtsTile CONFIG_js
                     (FtsAsset.mk "AGV-7" rssi 0 "0x04 37" "A" "x" [rssi] (Some tile_AGV7))
                     (page0 0))))
    <$> [-74; -75; -88; -89]
  = [Some "rssi-bar rssi-strong"; Some "rssi-bar rssi-medium";
     Some "rssi-bar rssi-medium"; Some "rssi-bar rssi-weak"].
Proof. reflexivity. Qed.

Lemma vor_not_gerade (n : Z) : "vor " ++ pretty n ++ "s" <> "gerade eben".
Proof. discriminate. Qed.

Lemma vor_not_verloren (n : Z) : "vor " ++ pretty n ++ "s" <> "verloren (>30s)".
Proof.
  change ("vor " ++ pretty n ++ "s")
    with (String "v" (String "o" ("r " ++ pretty n ++ "s"))).
  discriminate.
Qed.

(** X12: with the windows of config.js, the text beside the LED is
    "gerade eben" exactly when the elapsed time rounds to zero seconds
    (from -500 ms to below 500 ms), "verloren (>30s)" exactly from
    30000 ms on, and otherwise "vor Ns" with N the elapsed time rounded
    to whole seconds, halves rounded up. *)
Theorem lastSeen_text (diffMs : Z) :
  let text := snd (ledStatus CONFIG_js diffMs) in
  (text = "gerade eben" <-> -500 <= diffMs < 500)
  /\ (text = "verloren (>30s)" <-> 30000 <= diffMs)
  /\ (~ (-500 <= diffMs < 500) -> diffMs < 30000 ->
      text = "vor " ++ pretty ((diffMs + 500) `div` 1000) ++ "s").
Proof.
  intros text. subst text. unfold ledStatus.
  cbn [LED_STATUS CONFIG_js ACTIVE_MS INACTIVE_MS].
  assert (Hround : (diffMs + 500) `div` 1000 = 0 <-> -500 <= diffMs < 500).
  { split; intros H.
    - pose proof (Z.mul_div_le (diffMs + 500) 1000 ltac:(lia)).
      pose proof (Z.mul_succ_div_gt (diffMs + 500) 1000 ltac:(lia)). lia.
    - apply Z.div_small. lia. }
  destruct (Z.ltb_spec diffMs 5000) as [H1|H1];
    [destruct (Z.eqb_spec ((diffMs + 500) `div` 1000) 0) as [H0|H0]
    |destruct (Z.ltb_spec diffMs 30000) as [H2|H2]];
    cbn [snd]; repeat split; intros;
    try reflexivity; try lia; try tauto;
    try (exfalso; eapply vor_not_gerade; eassumption);
    try (exfalso; eapply vor_not_verloren; eassumption);
    try discriminate.
Qed.

Lemma lastSeen_text_witness :
  ~ (-500 <= 7400 < 500) /\ 7400 < 30000
  /\ snd (ledStatus CONFIG_js 7400) = "vor 7s".
Proof.
  split; [lia|]. split; [lia|].
  apply (lastSeen_text 7400); lia.
Defined.

(** ** The Profile Matcher *)

(** X13: the matcher returns a pair exactly when the profile list splits
    into profiles whose try does not return (no key, unknown type, or an
    extraction that throws), followed by the profile of the pair, whose
    try returns it: the first profile in declared order that matches
    wins, whatever follows it. *)
Theorem extractFrom_first_match (profiles : list Profile.t) (event : Event.t)
    (payload : string) (found : Profile.t) :
  snd (extractFrom profiles event) = Some (payload, found)
  <-> exists pre post,
        profiles = (pre ++ found :: post)%list
        /\ Forall (passes event) pre
        /\ tryProfile event found = Js.Normal (Some (payload, found)).
Proof.
  split.
  - induction profiles as [|profile rest IH]; cbn [extractFrom]; [discriminate|].
    destruct (tryProfile event profile) as [[[p f]|]|e] eqn:Ht.
    + cbn. intros [= -> ->].
      destruct (tryProfile_truthy event profile found payload Ht) as [_ ->].
      exists [], rest. split; [reflexivity|]. split; [constructor|exact Ht].
    + intros H. destruct (IH H) as (pre & post & -> & Hpre & Hfound).
      exists (profile :: pre), post. split; [reflexivity|]. split; [|exact Hfound].
      constructor; [|exact Hpre]. intros x. rewrite Ht. discriminate.
    + destruct (extractFrom rest event) as [ws r]. cbn [snd] in *.
      intros H. destruct (IH H) as (pre & post & -> & Hpre & Hfound).
      exists (profile :: pre), post. split; [reflexivity|]. split; [|exact Hfound].
      constructor; [|exact Hpre]. intros x. rewrite Ht. discriminate.
  - intros (pre & post & -> & Hpre & Hfound).
    induction Hpre as [|profile pre Hpass _ IH]; cbn [app extractFrom].
    + now rewrite Hfound.
    + destruct (tryProfile event profile) as [[x|]|e] eqn:Ht.
      * now destruct (Hpass x).
      * exact IH.
      * destruct (extractFrom (pre ++ found :: post) event). exact IH.
Qed.

(** With data for both profiles of config.js the service profile, declared
    first, wins; with the data of the first in a detached buffer the second
    wins and the failure of the first is a warning. *)
Example extractRelevantPayload_order :
  snd (extractRelevantPayload CONFIG_js
         (Event.mk "AGV-7" (-60) (data_map {[ "0xfcf1" := dv_view [x04; x37] ]})
            (data_map {[ 41490%N := dv_view [xab] ]})))
  = Some ("0x04 37", profile_A)
  /\ extractRelevantPayload CONFIG_js
       (Event.mk "AGV-7" (-60)
          (data_map {[ "0xfcf1" := dv_detached (Js.mkError "TypeError" "detached") ]})
          (data_map {[ 41490%N := dv_view [xab] ]}))
     = (["Fehler beim Extrahieren der Payload f" ++ Js.cu 252
         ++ "r FTS-Gruppe Ladestation (Typ A): detached"],
        Some ("0xAB", profile_B)).
Proof. split; reflexivity. Qed.

Lemma buildFilters_counts (profiles : list Profile.t) :
  length (snd (buildFilters profiles)) = length (List.filter recognised profiles)
  /\ length (fst (buildFilters profiles))
     = length (List.filter (fun p => negb (recognised p)) profiles).
Proof.
  induction profiles as [|profile rest [IHf IHw]]; [now split|].
  cbn [buildFilters List.filter]. destruct (buildFilters rest) as [ws fs].
  cbn [fst snd] in *. unfold recognised in *.
  destruct (String.eqb (Profile.type profile) "service");
    [|destruct (String.eqb (Profile.type profile) "manufacturer")];
    cbn; rewrite IHf, IHw; split; reflexivity.
Qed.

Lemma extractFrom_first_match_witness :
  snd (extractFrom [profile_C; profile_A; profile_B]
         (Event.mk "AGV-7" (-60) (data_map {[ "0xfcf1" := dv_view [x04; x37] ]})
            (data_map {[ 41490%N := dv_view [xab] ]})))
  = Some ("0x04 37", profile_A)
  /\ exists pre post,
      [profile_C; profile_A; profile_B] = (pre ++ profile_A :: post)%list
      /\ Forall (passes (Event.mk "AGV-7" (-60)
                           (data_map {[ "0xfcf1" := dv_view [x04; x37] ]})
                           (data_map {[ 41490%N := dv_view [xab] ]}))) pre
      /\ tryProfile (Event.mk "AGV-7" (-60)
                       (data_map {[ "0xfcf1" := dv_view [x04; x37] ]})
                       (data_map {[ 41490%N := dv_view [xab] ]})) profile_A
         = Js.Normal (Some ("0x04 37", profile_A)).
Proof.
  split; [reflexivity|].
  apply (extractFrom_first_match [profile_C; profile_A; profile_B]). reflexivity.
Defined.

Lemma buildFilters_nil (profiles : list Profile.t) :
  snd (buildFilters profiles) = [] <-> existsb recognised profiles = false.
Proof.
  destruct (buildFilters_counts profiles) as [Hf _].
  assert (Hex : List.filter recognised profiles = []
                <-> existsb recognised profiles = false).
  { clear Hf. induction profiles as [|p rest IH]; [now split|].
    cbn. destruct (recognised p); cbn; [split; discriminate|exact IH]. }
  rewrite <- Hex. split; intros H.
  - rewrite H in Hf. now destruct (List.filter recognised profiles).
  - rewrite H in Hf. now destruct (snd (buildFilters profiles)).
Qed.

(** X14: a profile whose type is neither 'service' nor 'manufacturer'
    never matches an advertisement, whatever data the advertisement
    carries and without an exception, and the filter list of a scan holds
    one filter per profile of a known type: such a profile contributes a
    warning and no filter. *)
Theorem unrecognised_profile_is_skipped (profiles : list Profile.t) :
  (forall profile event,
      recognised profile = false -> tryProfile event profile = Js.Normal None)
  /\ length (snd (buildFilters profiles)) = length (List.filter recognised profiles)
  /\ length (fst (buildFilters profiles))
     = length (List.filter (fun p => negb (recognised p)) profiles)
  /\ (snd (buildFilters profiles) = [] <-> existsb recognised profiles = false).
Proof.
  split; [|split; [|split]].
  - intros profile event. unfold recognised, tryProfile.
    destruct (String.eqb (Profile.type profile) "service"); [discriminate|].
    now destruct (String.eqb (Profile.type profile) "manufacturer").
  - apply buildFilters_counts.
  - apply buildFilters_counts.
  - apply buildFilters_nil.
Qed.

Lemma unrecognised_profile_is_skipped_witness :
  recognised profile_C = false
  /\ tryProfile (adv_foreign "AGV-7" (-60)) profile_C = Js.Normal None
  /\ length (snd (buildFilters [profile_A; profile_C; profile_B])) = 2%nat.
Proof.
  split; [reflexivity|].
  destruct (unrecognised_profile_is_skipped [profile_A; profile_C; profile_B])
    as (Hskip & Hcount & _).
  split; [apply Hskip; reflexivity|].
  rewrite Hcount. reflexivity.
Defined.

(** ** Starting a scan *)

Section Starting.
Variable CONFIG : Config.

Lemma startScan_request_refused_without_bluetooth (s : State) :
  bluetooth s = false ->
  startScan_request CONFIG s
  = (error ("Web Bluetooth API nicht auf diesem Ger" ++ Js.cu 228
            ++ "t/Browser verf" ++ Js.cu 252 ++ "gbar. (HTTPS erforderlich?)")
       (log "Bluetooth-Scan wird angefordert..." s), false).
Proof.
  intros Hbt. unfold startScan_request.
  replace (bluetooth (log "Bluetooth-Scan wird angefordert..." s)) with false
    by (symmetry; exact Hbt).
  reflexivity.
Qed.

Lemma startScan_request_refused_without_filter (s : State) :
  bluetooth s = true -> snd (buildFilters (FTS_PROFILES CONFIG)) = [] ->
  snd (startScan_request CONFIG s) = false
  /\ controller (fst (startScan_request CONFIG s)) = controller s
  /\ exists msg, last (console (fst (startScan_request CONFIG s))) = Some (ERROR, msg).
Proof.
  intros Hbt Hf. unfold startScan_request.
  replace (bluetooth (log "Bluetooth-Scan wird angefordert..." s)) with true
    by (symmetry; exact Hbt).
  cbn [negb].
  destruct (buildFilters (FTS_PROFILES CONFIG)) as [ws fs]. cbn [snd] in Hf.
  subst fs. rewrite warnings_state. cbn [length Nat.eqb fst snd].
  split; [reflexivity|]. split; [reflexivity|].
  eexists. unfold error, say. cbn [console set_console]. apply last_snoc.
Qed.

End Starting.

(** X15: [startScan] sends a request to the scan source exactly when Web
    Bluetooth is there and some profile has a known type.  Otherwise it
    logs an error and leaves the scan, the ticker, the timers, the button
    and the list of requests as they are. *)
Theorem startScan_request_sends (CONFIG : Config) (s : State) :
  snd (startScan_request CONFIG s)
  = bluetooth s && existsb recognised (FTS_PROFILES CONFIG)
  /\ (snd (startScan_request CONFIG s) = false ->
      controller (fst (startScan_request CONFIG s)) = controller s
      /\ exists msg,
          last (console (fst (startScan_request CONFIG s))) = Some (ERROR, msg))
  /\ (snd (startScan_request CONFIG s) = true ->
      scanRequests (fst (startScan_request CONFIG s))
      = (scanRequests s
         ++ [(SCAN_OPTIONS CONFIG, snd (buildFilters (FTS_PROFILES CONFIG)))])%list
      /\ pendingScans (fst (startScan_request CONFIG s)) = S (pendingScans s)).
Proof.
  destruct (buildFilters_nil (FTS_PROFILES CONFIG)) as [Hnil Hex].
  destruct (bluetooth s) eqn:Hbt; cbn [andb].
  - destruct (existsb recognised (FTS_PROFILES CONFIG)) eqn:He.
    + assert (Hf : snd (buildFilters (FTS_PROFILES CONFIG)) <> [])
        by (intros H; apply Hnil in H; discriminate).
      destruct (startScan_request_sent CONFIG s Hbt Hf) as (Hs & Hr & Hp & _).
      rewrite Hs. split; [reflexivity|]. split; [discriminate|]. now split.
    + destruct (startScan_request_refused_without_filter CONFIG s Hbt
                  (Hex eq_refl))
        as (Hs & Hc & Hl).
      rewrite Hs. split; [reflexivity|]. split; [now split|discriminate].
  - rewrite (startScan_request_refused_without_bluetooth CONFIG s Hbt). cbn [fst snd].
    split; [reflexivity|]. split; [|discriminate]. intros _.
    split; [unfold controller; cbn; now rewrite Hbt|].
    eexists. unfold error, say. cbn [console set_console]. apply last_snoc.
Qed.

Lemma startScan_request_sends_witness :
  (snd (startScan_request CONFIG_unusable (page0 0)) = false
   /\ controller (fst (startScan_request CONFIG_unusable (page0 0)))
      = controller (page0 0))
  /\ (snd (startScan_request CONFIG_js (page0 0)) = true
      /\ pendingScans (fst (startScan_request CONFIG_js (page0 0))) = 1%nat).
Proof.
  split.
  - split; [reflexivity|].
    apply (startScan_request_sends CONFIG_unusable (page0 0)). reflexivity.
  - split; [reflexivity|].
    apply (startScan_request_sends CONFIG_js (page0 0)). reflexivity.
Defined.

(** With a profile list of unknown types only, a click logs the warning
    of the profile and then the error, and sends nothing. *)
Example toggleScan_unusable_profiles :
  scanRequests (toggleScan CONFIG_unusable None granted (page0 0)) = []
  /\ scanActive (toggleScan CONFIG_unusable None granted (page0 0)) = false
  /\ fst <$> console (toggleScan CONFIG_unusable None granted (page0 0))
     = [LOG; LOG; LOG; WARN; ERROR].
Proof. repeat split. Qed.

Section Rejected.
Variable CONFIG : Config.



End Rejected.



Lemma stopScan_browser (stop : option Js.Error) (s : State) :
  bluetooth (stopScan stop s) = bluetooth s
  /\ nextTimer (stopScan stop s) = nextTimer s.
Proof.
  unfold stopScan, setButton. destruct stop; [now split|]. simpl.
  destruct (btnStartScan s); simpl; destruct (tickerInterval s); now split.
Qed.

(** X17: stop and start again.  From an active scan whose sweep timer is
    the only live timer, a click that stops the scan followed by a click
    whose request is granted leaves the controller Active with a new
    ticker whose timer is again the only live one, and one more request
    at the scan source. *)
Theorem stop_then_start (CONFIG : Config) (s : State) (b : Button)
    (sc : BluetoothLEScan) (answer1 : Js.Completion BluetoothLEScan)
    (stop2 : option Js.Error) :
  oneSweep s -> btnStartScan s = Some b -> scanActive s = true ->
  bluetooth s = true -> snd (buildFilters (FTS_PROFILES CONFIG)) <> [] ->
  active sc = true ->
  let s1 := toggleScan CONFIG None answer1 s in
  let s2 := toggleScan CONFIG stop2 (Js.Normal sc) s1 in
  scanActive s1 = false
  /\ scanActive s2 = true
  /\ btnStartScan s2 = Some btnScanning
  /\ tickerInterval s2 = Some (nextTimer s)
  /\ intervals s2 = {[ nextTimer s ]}
  /\ length (scanRequests s2) = S (length (scanRequests s)).
Proof.
  intros Hone Hb Hact Hbt Hf Hsc s1 s2.
  assert (H1 : s1 = stopScan None s)
    by (apply (toggleScan_active CONFIG None answer1 s b); assumption).
  destruct (stopScan_returns s b Hb) as (Hidle & Hbtn & Htick & Hint & Hreq & _).
  rewrite <- H1 in *.
  destruct (stopScan_browser None s) as [Hbt1 Hnext].
  rewrite <- H1, Hbt in Hbt1. rewrite <- H1 in Hnext.
  destruct (startScan_granted CONFIG sc s1 btnIdle Hbtn Hbt1 Hf)
    as (Hscan2 & Hbtn2 & Hreq2 & Htick2 & Hint2 & _).
  assert (H2 : s2 = startScan CONFIG (Js.Normal sc) s1)
    by (apply (toggleScan_idle CONFIG stop2 (Js.Normal sc) s1 btnIdle); assumption).
  rewrite <- H2 in *.
  split; [exact Hidle|]. split; [unfold scanActive; now rewrite Hscan2|].
  split; [exact Hbtn2|]. split; [now rewrite Htick2, Hnext|]. split.
  - rewrite Hint2, Htick, Hint, Hnext. unfold oneSweep in Hone. rewrite Hone.
    destruct (tickerInterval s); now rewrite ?difference_diag_L, union_empty_r_L.
  - rewrite Hreq2, Hreq, length_app. cbn. lia.
Qed.

Lemma stop_then_start_witness :
  oneSweep scanning_page /\ btnStartScan scanning_page = Some btnScanning
  /\ scanActive scanning_page = true /\ bluetooth scanning_page = true
  /\ snd (buildFilters (FTS_PROFILES CONFIG_js)) <> []
  /\ scanActive (toggleScan CONFIG_js None granted
                   (toggleScan CONFIG_js None granted scanning_page)) = true
  /\ intervals (toggleScan CONFIG_js None granted
                  (toggleScan CONFIG_js None granted scanning_page))
     = {[ nextTimer scanning_page ]}.
Proof.
  split; [reflexivity|]. split; [reflexivity|]. split; [reflexivity|].
  split; [reflexivity|]. split; [discriminate|].
  destruct (stop_then_start CONFIG_js scanning_page btnScanning {| active := true |}
              granted None eq_refl eq_refl eq_refl eq_refl ltac:(discriminate) eq_refl)
    as (_ & Hact & _ & _ & Hint & _).
  split; [exact Hact|exact Hint].
Defined.

(** ** The inspector *)



(** A click on a tile of a device the registry does not hold only warns. *)
Example showInspectorModal_unknown :
  showInspectorModal "AGV-9" registered
  = warn ("Asset AGV-9 f" ++ Js.cu 252 ++ "r Modal nicht im State gefunden.") registered.
Proof. reflexivity. Qed.

(** ** Reading a payload back *)

Lemma spec_unhexByte_hexByte (b : byte) :
  exists c1 c2, spec_hexByte b = String c1 (String c2 EmptyString)
                /\ spec_unhexByte c1 c2 = Some b.
Proof. destruct b; do 2 eexists; split; reflexivity. Qed.

Lemma join_cons (sep x y : string) (r : list string) :
  join sep (x :: y :: r) = x ++ sep ++ join sep (y :: r).
Proof. reflexivity. Qed.

Lemma spec_unhex_join (bytes : list byte) :
  spec_unhex (join " " (spec_hexByte <$> bytes)) = Some bytes.
Proof.
  induction bytes as [|b [|b' rest] IH]; [reflexivity| |].
  - cbn [fmap list_fmap join].
    destruct (spec_unhexByte_hexByte b) as (c1 & c2 & -> & Hb).
    cbn [spec_unhex]. now rewrite Hb.
  - change (spec_hexByte <$> b :: b' :: rest)
      with (spec_hexByte b :: (spec_hexByte <$> b' :: rest)).
    change (spec_hexByte <$> b' :: rest)
      with (spec_hexByte b' :: (spec_hexByte <$> rest)) in *.
    rewrite join_cons.
    destruct (spec_unhexByte_hexByte b) as (c1 & c2 & -> & Hb).
    rewrite !JsFacts.append_cons.
    cbn [spec_unhex]. rewrite Hb.
    change (EmptyString ++ String " " (EmptyString ++ ?x)) with (String " " x).
    change (Ascii.eqb " " " ") with true. cbv iota.
    now rewrite IH.
Qed.

(** X19: a rendered payload can be read back: for a non-empty byte
    sequence the bytes are recovered from the string the renderer
    returns, so two byte sequences with the same rendering are equal
    (the empty sequence included, whose rendering is the sentinel). *)
Theorem payload_rendering_injective (bytes bytes' : list byte) :
  (bytes <> [] ->
   exists payload, dataViewToHexString (dv_view bytes) = Js.Normal payload
                   /\ spec_parsePayload payload = Some bytes)
  /\ (dataViewToHexString (dv_view bytes) = dataViewToHexString (dv_view bytes') ->
      bytes = bytes').
Proof.
  assert (Hback : forall b rest,
             spec_parsePayload (spec_hexString (b :: rest)) = Some (b :: rest))
    by (intros b rest; apply (spec_unhex_join (b :: rest))).
  split.
  - destruct bytes as [|b rest]; [congruence|]. intros _.
    exists (spec_hexString (b :: rest)).
    split; [apply dataViewToHexString_view|apply Hback].
  - destruct bytes as [|b rest], bytes' as [|b' rest']; [reflexivity| | |].
    + rewrite dataViewToHexString_view. discriminate.
    + rewrite dataViewToHexString_view. discriminate.
    + rewrite !dataViewToHexString_view. intros H.
      apply (f_equal (fun c => match c with
                               | Js.Normal p => spec_parsePayload p
                               | Js.Throw _ => None
                               end)) in H.
      cbv beta iota in H. rewrite !Hback in H. congruence.
Qed.

Lemma payload_rendering_injective_witness :
  [x04; x37] <> []
  /\ exists payload,
      dataViewToHexString (dv_view [x04; x37]) = Js.Normal payload
      /\ spec_parsePayload payload = Some [x04; x37].
Proof.
  split; [discriminate|].
  apply (payload_rendering_injective [x04; x37] []). discriminate.
Defined.

(** ** What an advertisement and a stop leave alone *)

(** X26: an advertisement, matched or not, never writes the label store,
    never moves the modal or the inspected device, and never touches the
    asset of a device other than its own. *)
Theorem advertisement_frame (CONFIG : Config) (event : Event.t) (s : State) :
  inspector (handleAdvertisement CONFIG event s) = inspector s
  /\ forall d, Event.device_id event <> d ->
       detectedAssets (handleAdvertisement CONFIG event s) !! d
       = detectedAssets s !! d.
Proof.
  split; [apply handleAdvertisement_frame|].
  intros d Hne. now apply handleAdvertisement_other.
Qed.

Lemma advertisement_frame_witness :
  Event.device_id (adv_manufacturer "AGV-9" (-80) [xab]) <> "AGV-7"
  /\ detectedAssets
       (handleAdvertisement CONFIG_js (adv_manufacturer "AGV-9" (-80) [xab])
          (inspecting "Stapler")) !! "AGV-7"
     = detectedAssets (inspecting "Stapler") !! "AGV-7".
Proof.
  split; [discriminate|].
  apply (advertisement_frame CONFIG_js (adv_manufacturer "AGV-9" (-80) [xab])
           (inspecting "Stapler")).
  discriminate.
Defined.

Section Listening.
Variable CONFIG : Config.

Lemma startScan_request_listening (s : State) :
  listening (fst (startScan_request CONFIG s)) = listening s.
Proof.
  unfold startScan_request. cbn.
  destruct (bluetooth s); [|reflexivity]. cbn.
  destruct (buildFilters (FTS_PROFILES CONFIG)) as [ws fs].
  rewrite warnings_state. cbn.
  now destruct (length fs =? 0)%nat.
Qed.

Lemma startScan_settled_listening (answer : Js.Completion BluetoothLEScan)
    (s : State) :
  listening s = true -> listening (startScan_settled answer s) = true.
Proof.
  intros Hl. unfold startScan_settled, setButton.
  destruct (btnStartScan s) eqn:Hb; destruct (tickerInterval s) eqn:Ht;
    (destruct answer as [sc|e];
     [|destruct (String.eqb (Js.name e) "AbortError")]);
    simpl; rewrite ?Hb; simpl; rewrite ?Ht; simpl; rewrite ?Ht; auto.
Qed.

Lemma stopScan_listening (stop : option Js.Error) (s : State) :
  listening (stopScan stop s) = listening s.
Proof.
  unfold stopScan, setButton. destruct stop; [reflexivity|]. simpl.
  destruct (btnStartScan s); simpl; now destruct (tickerInterval s).
Qed.

Lemma step_listening (s : State) (op : Op) :
  listening s = true -> listening (step CONFIG s op) = true.
Proof.
  intros Hl. destruct (scanOp op) eqn:Hop.
  - destruct op as [| | | | | |stop answer|stop|answer]; try discriminate;
      cbn [step].
    + unfold toggleScan. destruct (btnStartScan s); [|exact Hl].
      destruct (scanActive s); [now rewrite stopScan_listening|].
      unfold startScan. pose proof (startScan_request_listening s) as H.
      destruct (startScan_request CONFIG s) as [s' [|]]; cbn [fst] in H;
        [apply startScan_settled_listening|]; congruence.
    + unfold toggleScan_request. destruct (btnStartScan s); [|exact Hl].
      destruct (scanActive s);
        [now rewrite stopScan_listening|now rewrite startScan_request_listening].
    + unfold scanSettles.
      destruct (pendingScans s); [exact Hl|now apply startScan_settled_listening].
  - pose proof (step_controller CONFIG s op Hop) as Hc.
    unfold controller in Hc. injection Hc as _ _ _ _ _ _ _ _ Hlis _. congruence.
Qed.

End Listening.

(** X27: the listener for advertisements, registered when a scan is
    granted, is never unregistered: through every run of events, stopping
    the scan included, it stays registered. *)
Theorem listener_is_never_removed (CONFIG : Config) (ops : list Op) (s : State) :
  listening s = true -> listening (run CONFIG ops s) = true.
Proof.
  apply (run_invariant CONFIG (fun s => listening s = true)).
  intros. now apply step_listening.
Qed.

Lemma listener_is_never_removed_witness :
  listening scanning_page = true
  /\ listening
       (run CONFIG_js [ClickScan None granted; Ticker; ClickScan None aborted]
          scanning_page) = true.
Proof.
  split; [reflexivity|].
  apply (listener_is_never_removed CONFIG_js). reflexivity.
Defined.

(** ** The visual logger of errorManager.js *)

Module ErrorManagerFacts.
Import ErrorManager.

Lemma found_spec (s : State) :
  found s = true
  <-> is_Some (errorConsole s) /\ consoleHeader s = true
      /\ is_Some (toggleButton s) /\ is_Some (consoleBody s).
Proof.
  unfold found. rewrite !andb_true_iff, !bool_decide_eq_true. tauto.
Qed.

Lemma visualLog_found (msg level time : string) (s : State) :
  found (visualLog msg level time s) = found s
  /\ installs (visualLog msg level time s) = installs s
  /\ errorConsole (visualLog msg level time s) = errorConsole s
  /\ toggleButton (visualLog msg level time s) = toggleButton s
  /\ f12 (visualLog msg level time s) = f12 s.
Proof.
  unfold visualLog, found. destruct (consoleBody s) eqn:E; cbn; rewrite ?E;
    repeat split.
Qed.

(** Where the elements are, [showConsole] does not throw. *)
Lemma showConsole_found (s : State) :
  found s = true ->
  snd (showConsole s) = None
  /\ found (fst (showConsole s)) = true
  /\ errorConsole (fst (showConsole s)) = Some false
  /\ toggleButton (fst (showConsole s)) = Some "Minimieren"
  /\ consoleBody (fst (showConsole s)) = consoleBody s
  /\ installs (fst (showConsole s)) = installs s
  /\ f12 (fst (showConsole s)) = f12 s.
Proof.
  intros Hf. apply found_spec in Hf as ([h Hh] & Hhead & [t Ht] & [b Hb]).
  unfold showConsole. rewrite Hh. cbn. rewrite Ht. cbn.
  repeat split. apply found_spec. cbn. rewrite Hb. eauto.
Qed.

(** Where the elements are, an original call followed by [visualLog]
    appends one paragraph and keeps the rest. *)
Lemma logged_found (fn : string) (args : list string) (msg level time : string)
    (s : State) (entries : list Entry) :
  found s = true -> consoleBody s = Some entries ->
  found (visualLog msg level time (original fn args s)) = true
  /\ installs (visualLog msg level time (original fn args s)) = installs s
  /\ consoleBody (visualLog msg level time (original fn args s))
     = Some (entries ++ [paragraph msg level time])%list
  /\ f12 (visualLog msg level time (original fn args s)) = (f12 s ++ [(fn, args)])%list
  /\ errorConsole (visualLog msg level time (original fn args s)) = errorConsole s
  /\ toggleButton (visualLog msg level time (original fn args s)) = toggleButton s.
Proof.
  intros Hf Hb. apply found_spec in Hf as ([h Hh] & Hhead & [t Ht] & _).
  unfold visualLog, original. cbn. rewrite Hb. cbn.
  repeat split. apply found_spec. cbn. rewrite Hh, Ht. eauto.
Qed.

(** ... and [showConsole] after it opens the console without throwing. *)
Lemma reported_found (fn : string) (args : list string) (msg level time : string)
    (s : State) (entries : list Entry) :
  found s = true -> consoleBody s = Some entries ->
  snd (showConsole (visualLog msg level time (original fn args s))) = None
  /\ found (fst (showConsole (visualLog msg level time (original fn args s)))) = true
  /\ installs (fst (showConsole (visualLog msg level time (original fn args s))))
     = installs s
  /\ consoleBody (fst (showConsole (visualLog msg level time (original fn args s))))
     = Some (entries ++ [paragraph msg level time])%list
  /\ f12 (fst (showConsole (visualLog msg level time (original fn args s))))
     = (f12 s ++ [(fn, args)])%list
  /\ errorConsole (fst (showConsole (visualLog msg level time (original fn args s))))
     = Some false
  /\ toggleButton (fst (showConsole (visualLog msg level time (original fn args s))))
     = Some "Minimieren".
Proof.
  intros Hf Hb.
  destruct (logged_found fn args msg level time s entries Hf Hb)
    as (Hf1 & Hi1 & Hb1 & Hc1 & _).
  destruct (showConsole_found _ Hf1) as (-> & -> & -> & -> & -> & -> & ->).
  now repeat split.
Qed.


Lemma headerListener_found (s : State) :
  found (headerListener s) = found s /\ installs (headerListener s) = installs s
  /\ consoleBody (headerListener s) = consoleBody s
  /\ f12 (headerListener s) = f12 s.
Proof.
  unfold headerListener, found.
  destruct (errorConsole s) as [h|] eqn:Eh; [|now rewrite Eh].
  cbn. destruct (toggleButton s) as [t|] eqn:Et; cbn; rewrite ?Et; now repeat split.
Qed.

Lemma headerIter_found (n : nat) (s : State) :
  found (Nat.iter n headerListener s) = found s
  /\ installs (Nat.iter n headerListener s) = installs s
  /\ consoleBody (Nat.iter n headerListener s) = consoleBody s
  /\ f12 (Nat.iter n headerListener s) = f12 s.
Proof.
  induction n as [|n (IH1 & IH2 & IH3 & IH4)]; [now repeat split|].
  change (Nat.iter (S n) headerListener s)
    with (headerListener (Nat.iter n headerListener s)).
  destruct (headerListener_found (Nat.iter n headerListener s)) as (-> & -> & -> & ->).
  now repeat split.
Qed.





(** On a page without the toggle button a state with handlers installed
    all the same would throw at the first warning: the guard of
    [initErrorManager] is what rules it out. *)
Example showConsole_without_button :
  snd (console_call "warn" ["x"] "09:00:00" (set_installs 1 loaded_without_button))
  = Some (Js.mkError "TypeError" "Cannot set properties of null (setting 'textContent')").
Proof. reflexivity. Qed.



Lemma exported_run (ops : list Op) (s : State) :
  forallb isExported ops = true ->
  snd (run ops s) = []
  /\ consoleBody (fst (run ops s)) = consoleBody s
  /\ errorConsole (fst (run ops s)) = errorConsole s
  /\ toggleButton (fst (run ops s)) = toggleButton s
  /\ installs (fst (run ops s)) = installs s
  /\ length (f12 (fst (run ops s))) = (length (f12 s) + length ops)%nat.
Proof.
  revert s. induction ops as [|op ops IH]; intros s Hops.
  - cbn. repeat split. lia.
  - cbn in Hops. apply andb_prop in Hops as [Hop Hrest].
    destruct op as [|  |fn args| | |]; try discriminate.
    cbn [run step]. destruct (IH (exported fn args s) Hrest)
      as (He & Hb & Hc & Ht & Hi & Hl).
    destruct (run ops (exported fn args s)) as [s2 es]. cbn [fst snd] in *.
    subst es. repeat split; try assumption.
    rewrite Hl. unfold exported, original. cbn. rewrite length_app. cbn. lia.
Qed.

(** X22: the loggers the module exports are the console functions as they
    were when the module was evaluated.  Whatever is logged through them,
    before or after [initErrorManager], reaches the original console only:
    the visual console gets no paragraph and the error console is not
    opened. *)
Theorem exported_loggers_bypass_visual_console (ops : list Op) (s : State) :
  forallb isExported ops = true ->
  consoleBody (fst (run ops s)) = consoleBody s
  /\ errorConsole (fst (run ops s)) = errorConsole s
  /\ toggleButton (fst (run ops s)) = toggleButton s
  /\ length (f12 (fst (run ops s))) = (length (f12 s) + length ops)%nat.
Proof.
  intros Hops. destruct (exported_run ops s Hops) as (_ & Hb & Hc & Ht & _ & Hl).
  now repeat split.
Qed.

Lemma exported_loggers_bypass_visual_console_witness :
  forallb isExported
    [Exported "log" ["Scan gestoppt."]; Exported "error" ["Scan fehlgeschlagen: boom"]]
  = true
  /\ consoleBody
       (fst (run [Exported "log" ["Scan gestoppt."];
                  Exported "error" ["Scan fehlgeschlagen: boom"]]
               (fst (initErrorManager "09:00:00" loaded))))
     = consoleBody (fst (initErrorManager "09:00:00" loaded))
  /\ errorConsole
       (fst (run [Exported "log" ["Scan gestoppt."];
                  Exported "error" ["Scan fehlgeschlagen: boom"]]
               (fst (initErrorManager "09:00:00" loaded))))
     = Some true.
Proof.
  split; [reflexivity|].
  destruct (exported_loggers_bypass_visual_console
              [Exported "log" ["Scan gestoppt."];
               Exported "error" ["Scan fehlgeschlagen: boom"]]
              (fst (initErrorManager "09:00:00" loaded)) eq_refl)
    as (Hb & Hc & _).
  split; [exact Hb|]. rewrite Hc. reflexivity.
Defined.

Lemma step_unfound (s : State) (op : Op) :
  found s = false -> installs s = 0%nat ->
  snd (step s op) = None
  /\ found (fst (step s op)) = false /\ installs (fst (step s op)) = 0%nat
  /\ consoleBody (fst (step s op)) = consoleBody s
  /\ errorConsole (fst (step s op)) = errorConsole s
  /\ toggleButton (fst (step s op)) = toggleButton s.
Proof.
  intros Hf Hi.
  destruct op as [time|fn args time|fn args|message source lineno err time
                 |reason event time|]; cbn [step].
  - unfold initErrorManager. rewrite Hf. cbn. now repeat split.
  - unfold console_call. rewrite Hi. cbn. now repeat split.
  - cbn. now repeat split.
  - unfold onerror. rewrite Hi. now repeat split.
  - unfold onunhandledrejection. rewrite Hi. now repeat split.
  - unfold headerClick. rewrite Hi. cbn. now repeat split.
Qed.

(** X23: on a page where one of the four elements of the console is
    missing, the module never installs anything: through every run of
    events, [initErrorManager] included, no handler is installed, no
    exception escapes, and the elements that are there are left as they
    were. *)
Theorem missing_element_disables_logger (ops : list Op) (s : State) :
  found s = false -> installs s = 0%nat ->
  snd (run ops s) = []
  /\ installs (fst (run ops s)) = 0%nat
  /\ consoleBody (fst (run ops s)) = consoleBody s
  /\ errorConsole (fst (run ops s)) = errorConsole s
  /\ toggleButton (fst (run ops s)) = toggleButton s.
Proof.
  revert s. induction ops as [|op ops IH]; intros s Hf Hi; [now repeat split|].
  cbn [run]. destruct (step_unfound s op Hf Hi) as (He & Hf1 & Hi1 & Hb1 & Hc1 & Ht1).
  destruct (step s op) as [s1 e]. cbn [fst snd] in *. subst e.
  destruct (IH s1 Hf1 Hi1) as (Hes & Hi2 & Hb2 & Hc2 & Ht2).
  destruct (run ops s1) as [s2 es]. cbn [fst snd] in *.
  repeat split; congruence.
Qed.

Lemma missing_element_disables_logger_witness :
  found loaded_without_button = false /\ installs loaded_without_button = 0%nat
  /\ consoleBody
       (fst (run [Init "09:00:00"; Console "error" ["boom"] "09:00:01"; HeaderClick]
               loaded_without_button))
     = consoleBody loaded_without_button.
Proof.
  split; [reflexivity|]. split; [reflexivity|].
  apply (missing_element_disables_logger _ loaded_without_button); reflexivity.
Defined.

(** X25: once the handlers are installed, an uncaught error of the page
    is handed to the original [console.error], appended to the visual
    console as one 'log-error' paragraph naming the message, the source
    and the line, and the error console is opened; the handler does not
    throw. *)
Theorem global_error_is_shown (message source : string) (lineno : N)
    (err time : string) (s : State) (entries : list Entry) :
  found s = true -> (0 < installs s)%nat -> consoleBody s = Some entries ->
  snd (onerror message source lineno err time s) = None
  /\ consoleBody (fst (onerror message source lineno err time s))
     = Some (entries
             ++ [mkEntry "log-error"
                   ("[" ++ time ++ "] [Globaler Fehler] " ++ message ++ " in "
                    ++ source ++ " (Zeile: " ++ pretty lineno ++ ")")])%list
  /\ errorConsole (fst (onerror message source lineno err time s)) = Some false
  /\ toggleButton (fst (onerror message source lineno err time s)) = Some "Minimieren"
  /\ f12 (fst (onerror message source lineno err time s))
     = (f12 s
        ++ [("error",
             [("[Globaler Fehler] " ++ message ++ " in " ++ source
               ++ " (Zeile: " ++ pretty lineno ++ ")")%string; err])])%list.
Proof.
  intros Hf Hi Hb. unfold onerror. destruct (installs s) as [|n]; [lia|].
  cbv zeta.
  match goal with |- context [showConsole (visualLog ?m ?l ?t (original ?f ?a s))] =>
    destruct (reported_found f a m l t s entries Hf Hb)
      as (He & _ & _ & Hbody & Hc & Hshow & Hbtn) end.
  split; [exact He|]. split; [exact Hbody|]. split; [exact Hshow|].
  split; [exact Hbtn|exact Hc].
Qed.

Lemma global_error_is_shown_witness :
  found (fst (initErrorManager "09:00:00" loaded)) = true
  /\ (0 < installs (fst (initErrorManager "09:00:00" loaded)))%nat
  /\ errorConsole
       (fst (onerror "x is not defined" "app.js" 12 "ReferenceError" "09:00:02"
               (fst (initErrorManager "09:00:00" loaded)))) = Some false.
Proof.
  split; [reflexivity|]. split; [cbn; lia|].
  apply (global_error_is_shown "x is not defined" "app.js" 12 "ReferenceError"
           "09:00:02" (fst (initErrorManager "09:00:00" loaded))
           [mkEntry "log-log"
              "[09:00:00] Error Manager initialisiert. Alle Logs werden nun abgefangen."]);
    [reflexivity|cbn; lia|reflexivity].
Defined.

Lemma headerListener_flips (s : State) (h : bool) (t : string) :
  errorConsole s = Some h -> toggleButton s = Some t ->
  errorConsole (headerListener s) = Some (negb h)
  /\ toggleButton (headerListener s)
     = Some (if negb h then "Maximieren" else "Minimieren").
Proof.
  intros Hh Ht. unfold headerListener. rewrite Hh. cbn. rewrite Ht. now split.
Qed.

Lemma headerIter_parity (n : nat) (s : State) (h : bool) (t : string) :
  errorConsole s = Some h -> toggleButton s = Some t ->
  errorConsole (Nat.iter n headerListener s)
  = Some (if Nat.even n then h else negb h)
  /\ toggleButton (Nat.iter n headerListener s)
     = Some (match n with
             | O => t
             | S _ => if (if Nat.even n then h else negb h)
                      then "Maximieren" else "Minimieren"
             end).
Proof.
  intros Hh Ht. induction n as [|n [IHh IHt]]; [now split|].
  change (Nat.iter (S n) headerListener s)
    with (headerListener (Nat.iter n headerListener s)).
  destruct (headerListener_flips _ _ _ IHh IHt) as [-> ->].
  rewrite Nat.even_succ, <- Nat.negb_even.
  destruct (Nat.even n), h; now split.
Qed.

(** X24: a click on the header runs one listener per successful
    [initErrorManager].  Installed once, it flips the visibility of the
    error console and the button names the opposite action ('Maximieren'
    when hidden, 'Minimieren' when shown); installed an even number of
    times, a click leaves the visibility as it was.  Two clicks always
    restore it. *)
Theorem header_click_toggles (s : State) (h : bool) (t : string) :
  errorConsole s = Some h -> toggleButton s = Some t ->
  errorConsole (headerClick s) = Some (if Nat.even (installs s) then h else negb h)
  /\ ((0 < installs s)%nat ->
      toggleButton (headerClick s)
      = Some (if (if Nat.even (installs s) then h else negb h)
              then "Maximieren" else "Minimieren"))
  /\ errorConsole (headerClick (headerClick s)) = Some h.
Proof.
  intros Hh Ht. unfold headerClick at 1 2.
  destruct (headerIter_parity (installs s) s h t Hh Ht) as [He Hb].
  split; [exact He|]. split.
  - intros Hi. rewrite Hb. destruct (installs s); [lia|reflexivity].
  - destruct (headerIter_found (installs s) s) as (_ & Hi & _).
    fold (headerClick s) in He, Hb, Hi.
    unfold headerClick at 1. rewrite Hi.
    destruct (headerIter_parity (installs s) (headerClick s) _ _ He Hb) as [-> _].
    destruct (Nat.even (installs s)), h; reflexivity.
Qed.

Lemma header_click_toggles_witness :
  errorConsole (fst (initErrorManager "09:00:00" loaded)) = Some true
  /\ toggleButton (fst (initErrorManager "09:00:00" loaded)) = Some "Maximieren"
  /\ errorConsole (headerClick (fst (initErrorManager "09:00:00" loaded))) = Some false
  /\ toggleButton (headerClick (fst (initErrorManager "09:00:00" loaded)))
     = Some "Minimieren".
Proof.
  split; [reflexivity|]. split; [reflexivity|].
  destruct (header_click_toggles (fst (initErrorManager "09:00:00" loaded))
              true "Maximieren" eq_refl eq_refl) as (He & Hb & _).
  split; [exact He|]. apply Hb. cbn. lia.
Defined.

(** After two calls of [initErrorManager] a click on the header opens and
    closes the console at once. *)
Example header_click_after_two_inits :
  errorConsole
    (fst (run [Init "09:00:00"; Init "09:00:01"; HeaderClick] loaded))
  = Some true.
Proof. reflexivity. Qed.

End ErrorManagerFacts.
